(** * HeraDesk: session routing and message fan-out

    A shallow embedding of the chat engine of HeraDesk:
    - [services/ChatService.ts]   (sessions, messages, assignment),
    - [services/QueueService.ts]  (queue, auto-assignment, idle reaper),
    - [services/NotificationService.ts] and [websocket/rooms.ts]
      (topic publication and subscriptions),
    - [websocket/messages/cs.ts] and [websocket/messages/customer.ts]
      (socket event handlers).

    The Prisma tables are lists of rows, in table order.  Every [await] of the
    source is one atomic store operation; the code between two awaits runs
    without interruption, as in the JavaScript event loop.  Handlers are
    programs over these operations, so that the same definition can be run to
    completion or interleaved with another handler at its awaits. *)

From Stdlib Require Import ZArith List String Bool Lia Sorted Permutation.
Import ListNotations.
Open Scope string_scope.
Open Scope list_scope.
Open Scope Z_scope.

(** ** Data model *)

(** Identifiers (users, sessions) are opaque strings compared for equality. *)
Definition Id := string.

Inductive ChatStatus := waiting | active | resolved | abandoned.
Inductive CsState := online | busy | offline.
Inductive SenderType := sender_customer | sender_cs | sender_system.
Inductive MessageType := mt_text | mt_image | mt_file | mt_system.
Inductive UserRole := role_admin | role_cs.
Inductive ConnRole := conn_customer | conn_cs | conn_admin.

Definition ChatStatus_eqb (a b : ChatStatus) : bool :=
  match a, b with
  | waiting, waiting | active, active
  | resolved, resolved | abandoned, abandoned => true
  | _, _ => false
  end.

Definition CsState_eqb (a b : CsState) : bool :=
  match a, b with
  | online, online | busy, busy | offline, offline => true
  | _, _ => false
  end.

Definition SenderType_eqb (a b : SenderType) : bool :=
  match a, b with
  | sender_customer, sender_customer | sender_cs, sender_cs
  | sender_system, sender_system => true
  | _, _ => false
  end.

(** [a === b] on optional identifiers ([assignedCsId !== csId] is its
    negation). *)
Definition optId_eqb (a b : option Id) : bool :=
  match a, b with
  | Some x, Some y => String.eqb x y
  | None, None => true
  | _, _ => false
  end.

Record ChatSession := mkSession {
  sId : Id;
  customerName : option string;
  customerEmail : option string;
  customerToken : string;
  status : ChatStatus;
  assignedCsId : option Id;
  sCreatedAt : Z;
  assignedAt : option Z;
  resolvedAt : option Z;
  rating : option Z;
  feedback : option string
}.

Record Message := mkMessage {
  mId : nat;
  mSessionId : Id;
  senderType : SenderType;
  senderId : option Id;
  content : string;
  messageType : MessageType;
  isRead : bool;
  mCreatedAt : Z
}.

Record CsStatus := mkCsStatus {
  userId : Id;
  csState : CsState;
  maxChats : Z;
  currentChats : Z;
  lastActiveAt : Z
}.

Record User := mkUser {
  uId : Id;
  name : string;
  avatarUrl : option string;
  role : UserRole;
  isActive : bool
}.

Record ActivityLog := mkLog {
  logUserId : Id;
  action : string;
  details : Id
}.

(** The persistent store: one list of rows per table. *)
Record Db := mkDb {
  sessions : list ChatSession;
  messages : list Message;
  csStatuses : list CsStatus;
  users : list User;
  activityLogs : list ActivityLog
}.

(** The [select] of [assignedCs] and of [messages] in [getSessionById] and
    [getSessionByToken]. *)
Record CsInfo := mkCsInfo {
  ciId : Id;
  ciName : string;
  ciAvatarUrl : option string
}.

Record MessageView := mkView {
  vId : nat;
  vContent : string;
  vSenderType : SenderType;
  vSenderId : option Id;
  vMessageType : MessageType;
  vIsRead : bool;
  vCreatedAt : Z
}.

Definition selectMessage (m : Message) : MessageView :=
  mkView (mId m) (content m) (senderType m) (senderId m) (messageType m)
         (isRead m) (mCreatedAt m).

Record ChatSessionWithMessages := mkFull {
  fSession : ChatSession;
  fAssignedCs : option CsInfo;
  fMessages : list MessageView
}.

(** ** Frames, connections and the world *)

(** The [data] object of the frames the modelled handlers emit. *)
Inductive Payload :=
| PError (code message : string)
| PChatStarted (sessionId : Id) (token : string)
| PChatAssigned (sessionId : Id) (csInfo : CsInfo)
| PNewAssigned (sessionId : Id)
| PQueueUpdate (act : string) (sessionId : Id)
| PQueuePosition (sessionId : Id) (position : Z)
| PNewChat (sessionId : Id) (custName : option string)
| PStatsNewChat (sessionId : Id)
| PAccepted (sessionId : Id) (custName custEmail : option string)
            (msgs : list MessageView) (createdAt : Z)
| PRestored (sessionId : Id) (st : ChatStatus) (assignedCs : option CsInfo)
            (msgs : list MessageView)
| PEnded (sessionId : Id) (reason : string)
| PSession (sessionId : Id)
| PStatsResolved (sessionId : Id) (csId : Id)
| PTransferred (sessionId : Id) (toCsId : Id) (toCsName : string)
| PTransferredOut (sessionId : Id) (toCsId : Id) (toCsName : option string)
| PTransferredIn (sessionId : Id) (fromCsId : Id)
| PMessageSent (messageId : option nat) (sessionId : Id)
| PChatMessage (sessionId : Id) (messageId : option nat) (text : string)
               (sender : SenderType) (senderId : option Id)
               (mt : MessageType) (createdAt : Z)
| PRatingSubmitted (sessionId : Id) (stars : Z)
| PStatusChanged (csId : Id) (csName : string) (st : CsState)
| PStatusUpdated (st : CsState) (maxC curC : Z)
| PQueue (rows : list (Id * option string * Z * Z * option string)).

(** The wire envelope [{ event, data, timestamp }]. *)
Record Frame := mkFrame {
  event : string;
  data : Payload;
  timestamp : Z
}.

(** A live socket: [ws.data], its topic subscriptions, and the frames it has
    been sent, oldest first.  [wsUserId] is set once, when the socket opens,
    from the verified token; it is [None] on a socket without user id. *)
Record Conn := mkConn {
  connId : nat;
  connRole : ConnRole;
  wsUserId : option Id;
  wsSessionId : option Id;
  wsCustomerToken : option string;
  topics : list string;
  inbox : list Frame
}.

Record Config := mkConfig {
  autoAssignEnabled : bool;
  chatIdleTimeout : Z
}.

(** The world a handler runs in.  [clock] is [Date.now()] in milliseconds;
    [ticks] lists by how much the clock advances at each coming await (no
    advance once the list is empty), so the clock never goes back. *)
Record World := mkWorld {
  db : Db;
  conns : list Conn;
  serverInstance : bool;
  config : Config;
  clock : Z;
  ticks : list N
}.

Definition withDb (w : World) (d : Db) : World :=
  mkWorld d (conns w) (serverInstance w) (config w) (clock w) (ticks w).

Definition withConns (w : World) (cs : list Conn) : World :=
  mkWorld (db w) cs (serverInstance w) (config w) (clock w) (ticks w).

(** Time passing during an await. *)
Definition advance (w : World) : World :=
  match ticks w with
  | [] => w
  | d :: ds =>
      mkWorld (db w) (conns w) (serverInstance w) (config w)
              (clock w + Z.of_N d) ds
  end.

(** ** Programs *)

Inductive Res (X : Type) : Type :=
| Ok (x : X)
| Thrown.
Arguments Ok {X} x.
Arguments Thrown {X}.

(** A handler is a tree of store operations ([Await], which may throw) and of
    synchronous effects ([Sync]: socket sends, publications, clock reads). *)
Inductive Prog (A : Type) : Type :=
| Ret (a : A)
| Throw
| Await (X : Type) (act : World -> Res X * World) (k : Res X -> Prog A)
| Sync (X : Type) (act : World -> X * World) (k : X -> Prog A).
Arguments Ret {A} a.
Arguments Throw {A}.
Arguments Await {A X} act k.
Arguments Sync {A X} act k.

Fixpoint bind {A B : Type} (p : Prog A) (f : A -> Prog B) : Prog B :=
  match p with
  | Ret a => f a
  | Throw => Throw
  | Await act k => Await act (fun r => bind (k r) f)
  | Sync act k => Sync act (fun x => bind (k x) f)
  end.

(** [try { p } catch { h }]. *)
Fixpoint try_catch {A : Type} (p : Prog A) (h : Prog A) : Prog A :=
  match p with
  | Ret a => Ret a
  | Throw => h
  | Await act k => Await act (fun r => try_catch (k r) h)
  | Sync act k => Sync act (fun x => try_catch (k x) h)
  end.

(** [await op], rethrowing a rejection. *)
Definition await {X : Type} (act : World -> Res X * World) : Prog X :=
  Await act (fun r => match r with Ok x => Ret x | Thrown => Throw end).

Definition sync {X : Type} (act : World -> X * World) : Prog X :=
  Sync act (fun x => Ret x).

Declare Scope prog_scope.
Delimit Scope prog_scope with prog.
Notation "x <- p ;; q" := (bind p (fun x => q))
  (at level 61, p at next level, right associativity) : prog_scope.
Notation "p ;; q" := (bind p (fun _ => q))
  (at level 61, right associativity) : prog_scope.
Open Scope prog_scope.

(** Running a handler to completion, alone. *)
Fixpoint run {A : Type} (p : Prog A) (w : World) : Res A * World :=
  match p with
  | Ret a => (Ok a, w)
  | Throw => (Thrown, w)
  | Await act k => let (r, w') := act (advance w) in run (k r) w'
  | Sync act k => let (x, w') := act w in run (k x) w'
  end.

(** Running the synchronous code up to the next await (or the end). *)
Fixpoint settle {A : Type} (p : Prog A) (w : World) : Prog A * World :=
  match p with
  | Sync act k => let (x, w') := act w in settle (k x) w'
  | _ => (p, w)
  end.

(** Completing the pending await of a suspended handler and running it up to
    its next await. *)
Definition resume {A : Type} (p : Prog A) (w : World) : Prog A * World :=
  match p with
  | Await act k => let (r, w') := act (advance w) in settle (k r) w'
  | _ => settle p w
  end.

(** Two handlers in flight; the schedule says whose pending await completes
    next ([false]: the first, [true]: the second). *)
Fixpoint interleave {A B : Type} (sched : list bool)
    (p : Prog A) (q : Prog B) (w : World) : Prog A * Prog B * World :=
  match sched with
  | [] => (p, q, w)
  | false :: sched' =>
      let (p', w') := resume p w in interleave sched' p' q w'
  | true :: sched' =>
      let (q', w') := resume q w in interleave sched' p q' w'
  end.

(** Both handlers are invoked (each runs to its first await), then the
    schedule is followed. *)
Definition race {A B : Type} (sched : list bool)
    (p : Prog A) (q : Prog B) (w : World) : Prog A * Prog B * World :=
  let (p', w1) := settle p w in
  let (q', w2) := settle q w1 in
  interleave sched p' q' w2.

(** ** Store primitives (Prisma client calls) *)

Definition idIs (i : Id) (j : Id) : bool := String.eqb i j.

(** A string that JavaScript takes for false. *)
Definition isEmpty (s : string) : bool := String.eqb s "".

(** [orderBy: { key: "asc" }]: a stable insertion sort, so that rows with equal
    keys keep their table order. *)
Fixpoint insertBy {A : Type} (key : A -> Z) (x : A) (l : list A) : list A :=
  match l with
  | [] => [x]
  | y :: l' => if key x <=? key y then x :: l else y :: insertBy key x l'
  end.

Definition sortBy {A : Type} (key : A -> Z) (l : list A) : list A :=
  fold_right (insertBy key) [] l.

(** [orderBy: { key: "desc" }]. *)
Definition sortByDesc {A : Type} (key : A -> Z) (l : list A) : list A :=
  sortBy (fun x => - key x) l.

Definition findSession (sid : Id) (d : Db) : option ChatSession :=
  find (fun s => idIs sid (sId s)) (sessions d).

Definition findSessionByToken (tok : string) (d : Db) : option ChatSession :=
  find (fun s => String.eqb tok (customerToken s)) (sessions d).

Definition findCsStatus (uid : Id) (d : Db) : option CsStatus :=
  find (fun c => idIs uid (userId c)) (csStatuses d).

Definition findUser (uid : Id) (d : Db) : option User :=
  find (fun u => idIs uid (uId u)) (users d).

Definition setSessions (d : Db) (l : list ChatSession) : Db :=
  mkDb l (messages d) (csStatuses d) (users d) (activityLogs d).

Definition setMessages (d : Db) (l : list Message) : Db :=
  mkDb (sessions d) l (csStatuses d) (users d) (activityLogs d).

Definition setCsStatuses (d : Db) (l : list CsStatus) : Db :=
  mkDb (sessions d) (messages d) l (users d) (activityLogs d).

Definition setLogs (d : Db) (l : list ActivityLog) : Db :=
  mkDb (sessions d) (messages d) (csStatuses d) (users d) l.

(** Rewriting the row with a given key. *)
Definition patchSession (sid : Id) (f : ChatSession -> ChatSession)
    (l : list ChatSession) : list ChatSession :=
  map (fun s => if idIs sid (sId s) then f s else s) l.

Definition patchCs (uid : Id) (f : CsStatus -> CsStatus)
    (l : list CsStatus) : list CsStatus :=
  map (fun c => if idIs uid (userId c) then f c else c) l.

(** A read: never throws, changes nothing. *)
Definition query {X : Type} (f : Db -> X) : World -> Res X * World :=
  fun w => (Ok (f (db w)), w).

(** [prisma.chatSession.update({ where: { id }, data })]: rejects when no row
    has this id, otherwise returns the updated row. *)
Definition updateSession (sid : Id) (f : ChatSession -> ChatSession)
  : World -> Res ChatSession * World :=
  fun w =>
    match findSession sid (db w) with
    | None => (Thrown, w)
    | Some s =>
        (Ok (f s),
         withDb w (setSessions (db w) (patchSession sid f (sessions (db w)))))
    end.

(** [prisma.csStatus.update({ where: { userId }, data })]. *)
Definition updateCs (uid : Id) (f : CsStatus -> CsStatus)
  : World -> Res CsStatus * World :=
  fun w =>
    match findCsStatus uid (db w) with
    | None => (Thrown, w)
    | Some c =>
        (Ok (f c),
         withDb w (setCsStatuses (db w) (patchCs uid f (csStatuses (db w)))))
    end.

(** [currentChats: { increment: n }] ([decrement] is a negative [n]). *)
Definition addChats (n : Z) (c : CsStatus) : CsStatus :=
  mkCsStatus (userId c) (csState c) (maxChats c) (currentChats c + n)
             (lastActiveAt c).

(** Modelled from the spec: the Prisma schema is not among the sources, so
    the column defaults of a new message are taken from the data model of the
    spec: a fresh id, [isRead] false, and [createdAt] the time at which the
    row is written.  The new row goes to the end of the table. *)
Definition createMessage (sid : Id) (st : SenderType) (sender : option Id)
    (text : string) (mt : MessageType) : World -> Res Message * World :=
  fun w =>
    let m := mkMessage (List.length (messages (db w))) sid st sender text mt false
                       (clock w) in
    (Ok m, withDb w (setMessages (db w) (messages (db w) ++ [m]))).

Definition createLog (uid : Id) (act : string) (sid : Id)
  : World -> Res unit * World :=
  fun w =>
    (Ok tt, withDb w (setLogs (db w) (activityLogs (db w) ++ [mkLog uid act sid]))).

(** [new Date()] / [Date.now()]. *)
Definition readClock : World -> Z * World := fun w => (clock w, w).

(** ** ChatService *)

Definition csInfoOf (u : User) : CsInfo :=
  mkCsInfo (uId u) (name u) (avatarUrl u).

(** [include: { assignedCs: { select: { id, name, avatarUrl } } }]. *)
Definition includeAssignedCs (d : Db) (s : ChatSession) : option CsInfo :=
  match assignedCsId s with
  | None => None
  | Some u => option_map csInfoOf (findUser u d)
  end.

Definition sessionMessages (sid : Id) (d : Db) : list Message :=
  filter (fun m => idIs sid (mSessionId m)) (messages d).

(** [include: { messages: { orderBy: { createdAt: "asc" }, select: ... } }]. *)
Definition includeMessages (d : Db) (s : ChatSession) : list MessageView :=
  map selectMessage (sortBy mCreatedAt (sessionMessages (sId s) d)).

Definition withIncludes (d : Db) (s : ChatSession) : ChatSessionWithMessages :=
  mkFull s (includeAssignedCs d s) (includeMessages d s).

Definition getSessionByToken (tok : string)
  : Prog (option ChatSessionWithMessages) :=
  await (query (fun d => option_map (withIncludes d) (findSessionByToken tok d))).

Definition getSessionById (sid : Id)
  : Prog (option ChatSessionWithMessages) :=
  await (query (fun d => option_map (withIncludes d) (findSession sid d))).

(** Modelled from the spec: the session id and the [createdAt] default come
    from the Prisma schema, which is not among the sources; the id is taken
    as an argument, like the token, which [generateCustomerToken] draws from
    the clock and [Math.random]. *)
Definition createSession (newId : Id) (tok : string)
    (cname cemail : option string) : World -> Res ChatSession * World :=
  fun w =>
    let s := mkSession newId cname cemail tok waiting None (clock w)
                       None None None None in
    (Ok s, withDb w (setSessions (db w) (sessions (db w) ++ [s]))).

Record InitChatResult := mkInit {
  initSuccess : bool;
  initMessage : string;
  initSessionId : option Id;
  initCustomerToken : option string
}.

Definition initChat (newId : Id) (tok : string)
    (cname cemail : option string) : Prog InitChatResult :=
  try_catch
    (session <- await (createSession newId tok cname cemail) ;;
     _ <- await (createMessage (sId session) sender_system None
                   "Chat started. Waiting for customer service..." mt_system) ;;
     Ret (mkInit true "Chat started successfully" (Some (sId session))
                 (Some tok)))
    (Ret (mkInit false "Failed to start chat" None None)).

Definition setAssigned (csId : Id) (now : Z) (s : ChatSession) : ChatSession :=
  mkSession (sId s) (customerName s) (customerEmail s) (customerToken s)
            active (Some csId) (sCreatedAt s) (Some now) (resolvedAt s)
            (rating s) (feedback s).

Definition setClosed (st : ChatStatus) (now : Z) (s : ChatSession)
  : ChatSession :=
  mkSession (sId s) (customerName s) (customerEmail s) (customerToken s)
            st (assignedCsId s) (sCreatedAt s) (assignedAt s) (Some now)
            (rating s) (feedback s).

Definition setAssignedCs (csId : Id) (s : ChatSession) : ChatSession :=
  mkSession (sId s) (customerName s) (customerEmail s) (customerToken s)
            (status s) (Some csId) (sCreatedAt s) (assignedAt s)
            (resolvedAt s) (rating s) (feedback s).

(** [session.assignedCs?.name || "Customer Service"]. *)
Definition joinedName (o : option CsInfo) : string :=
  match o with
  | Some c => if String.eqb (ciName c) "" then "Customer Service" else ciName c
  | None => "Customer Service"
  end.

Definition withAssignedCs (r : Res ChatSession * World)
  : Res (ChatSession * option CsInfo) * World :=
  match r with
  | (Ok s, w) => (Ok (s, includeAssignedCs (db w) s), w)
  | (Thrown, w) => (Thrown, w)
  end.

Definition assignChat (sessionId csId : Id)
  : Prog (ChatSession * option CsInfo) :=
  now <- sync readClock ;;
  session <- await (fun w =>
      withAssignedCs (updateSession sessionId (setAssigned csId now) w)) ;;
  _ <- await (updateCs csId (addChats 1)) ;;
  _ <- await (createMessage sessionId sender_system None
                (String.append (joinedName (snd session))
                               " has joined the chat")
                mt_system) ;;
  Ret session.

Definition resolveChat (sessionId csId : Id) : Prog (option ChatSession) :=
  session <- await (query (findSession sessionId)) ;;
  match session with
  | None => Ret None
  | Some s =>
      if negb (optId_eqb (assignedCsId s) (Some csId)) then Ret None
      else
        now <- sync readClock ;;
        updated <- await (updateSession sessionId (setClosed resolved now)) ;;
        _ <- await (updateCs csId (addChats (-1))) ;;
        _ <- await (createMessage sessionId sender_system None
                      "Chat has been resolved" mt_system) ;;
        _ <- await (createLog csId "chat_resolved" sessionId) ;;
        Ret (Some updated)
  end.

(** [await Promise.all([a, b])]: both operations are issued, [a] first, and
    the call rejects when one of them does; the other one still takes
    effect. *)
Definition promiseAll {X Y : Type} (a : World -> Res X * World)
    (b : World -> Res Y * World) : World -> Res (X * Y) * World :=
  fun w =>
    let ra := a w in
    let rb := b (snd ra) in
    (match fst ra, fst rb with
     | Ok x, Ok y => Ok (x, y)
     | _, _ => Thrown
     end, snd rb).

Definition transferChat (sessionId fromCsId toCsId : Id)
  : Prog (option ChatSession) :=
  session <- await (query (findSession sessionId)) ;;
  match session with
  | None => Ret None
  | Some s =>
      if negb (optId_eqb (assignedCsId s) (Some fromCsId)) then Ret None
      else
        newCs <- await (query (findUser toCsId)) ;;
        match newCs with
        | None => Ret None
        | Some u =>
            updated <- await (updateSession sessionId (setAssignedCs toCsId)) ;;
            _ <- await (promiseAll (updateCs fromCsId (addChats (-1)))
                                   (updateCs toCsId (addChats 1))) ;;
            _ <- await (createMessage sessionId sender_system None
                          (String.append "Chat transferred to " (name u)) mt_system) ;;
            Ret (Some updated)
        end
  end.

Definition isOpen (st : ChatStatus) : bool :=
  match st with
  | waiting | active => true
  | resolved | abandoned => false
  end.

Definition endChat (sessionId : Id) : Prog (option ChatSession) :=
  session <- await (query (findSession sessionId)) ;;
  match session with
  | None => Ret None
  | Some s =>
      if isOpen (status s) then
        now <- sync readClock ;;
        updated <- await (updateSession sessionId (setClosed abandoned now)) ;;
        _ <- match assignedCsId s with
             | Some csId =>
                 if isEmpty csId then Ret tt
                 else _ <- await (updateCs csId (addChats (-1))) ;; Ret tt
             | None => Ret tt
             end ;;
        _ <- await (createMessage sessionId sender_system None
                      "Customer has left the chat" mt_system) ;;
        Ret (Some updated)
      else Ret (Some s)
  end.

Record SendMessageResult := mkSend {
  sendSuccess : bool;
  sendMessageText : string;
  sendMessageId : option nat
}.

Definition sendMessage (sessionId : Id) (st : SenderType) (text : string)
    (sender : option Id) (mt : MessageType) : Prog SendMessageResult :=
  try_catch
    (session <- await (query (findSession sessionId)) ;;
     match session with
     | None => Ret (mkSend false "Chat session not found" None)
     | Some s =>
         if negb (isOpen (status s)) then
           Ret (mkSend false "Chat has ended" None)
         else
           m <- await (createMessage sessionId st sender text mt) ;;
           Ret (mkSend true "Message sent" (Some (mId m)))
     end)
    (Ret (mkSend false "Failed to send message" None)).

(** ** Sockets, rooms and NotificationService *)

Definition findConn (ws : nat) (w : World) : option Conn :=
  find (fun c => Nat.eqb ws (connId c)) (conns w).

Definition patchConn (ws : nat) (f : Conn -> Conn) (w : World) : World :=
  withConns w (map (fun c => if Nat.eqb ws (connId c) then f c else c) (conns w)).

Definition deliver (fr : Frame) (c : Conn) : Conn :=
  mkConn (connId c) (connRole c) (wsUserId c) (wsSessionId c)
         (wsCustomerToken c) (topics c) (inbox c ++ [fr]).

Definition hasTopic (t : string) (c : Conn) : bool :=
  existsb (String.eqb t) (topics c).

(** [ws.send(JSON.stringify(createMessage(event, data)))]. *)
Definition wsSend (ws : nat) (ev : string) (d : Payload)
  : World -> unit * World :=
  fun w => (tt, patchConn ws (deliver (mkFrame ev d (clock w))) w).

(** [createErrorMessage(code, message)] sent on [ws]. *)
Definition wsSendError (ws : nat) (code msg : string) : World -> unit * World :=
  wsSend ws "system:error" (PError code msg).

(** [publishToTopic]: every connection subscribed to the topic gets the
    frame; nothing is sent while the server instance is not set. *)
Definition publishToTopic (topic ev : string) (d : Payload)
  : World -> bool * World :=
  fun w =>
    if serverInstance w then
      (true,
       withConns w
         (map (fun c => if hasTopic topic c
                        then deliver (mkFrame ev d (clock w)) c else c)
              (conns w)))
    else (false, w).

Definition topicSession (sessionId : Id) : string :=
  String.append "session:" sessionId.
Definition topicCs (uid : Id) : string := String.append "cs:" uid.
Definition topicQueue : string := "queue".
Definition topicAdminStats : string := "admin:stats".

Definition notifyCustomer (sessionId : Id) := publishToTopic (topicSession sessionId).
Definition notifyCS (uid : Id) := publishToTopic (topicCs uid).
Definition notifyQueue := publishToTopic topicQueue.
Definition notifyAdmins := publishToTopic topicAdminStats.

(** Sequencing of synchronous effects. *)
Definition andThen {X Y : Type} (a : World -> X * World)
    (b : World -> Y * World) : World -> Y * World :=
  fun w => b (snd (a w)).

Definition notifyChatAssigned (sessionId csId : Id) (csName : string)
    (csAvatar : option string) : World -> bool * World :=
  andThen (notifyCustomer sessionId "chat:assigned"
             (PChatAssigned sessionId (mkCsInfo csId csName csAvatar)))
 (andThen (notifyCS csId "chat:new_assigned" (PNewAssigned sessionId))
          (notifyQueue "queue:update" (PQueueUpdate "assigned" sessionId))).

Definition notifyChatResolved (sessionId csId : Id) : World -> bool * World :=
  andThen (notifyCustomer sessionId "chat:ended" (PEnded sessionId "resolved"))
 (andThen (notifyCS csId "chat:resolved" (PSession sessionId))
          (notifyAdmins "stats:chat_resolved" (PStatsResolved sessionId csId))).

Definition notifyChatTransferred (sessionId fromCsId toCsId : Id)
    (toCsName : string) : World -> bool * World :=
  andThen (notifyCustomer sessionId "chat:transferred"
             (PTransferred sessionId toCsId toCsName))
 (andThen (notifyCS fromCsId "chat:transferred_out"
             (PTransferredOut sessionId toCsId None))
          (notifyCS toCsId "chat:transferred_in"
             (PTransferredIn sessionId fromCsId))).

Definition notifyCustomerLeft (sessionId : Id) (csId : option Id)
  : World -> bool * World :=
  andThen
    (match csId with
     | Some u =>
         if isEmpty u then fun w => (true, w)
         else notifyCS u "chat:customer_left" (PSession sessionId)
     | None => fun w => (true, w)
     end)
    (notifyQueue "queue:update" (PQueueUpdate "customer_left" sessionId)).

Definition notifyNewChatInQueue (sessionId : Id) (cname : option string)
  : World -> bool * World :=
  andThen (notifyQueue "queue:new_chat" (PNewChat sessionId cname))
          (notifyAdmins "stats:new_chat" (PStatsNewChat sessionId)).

(** [ws.subscribe(topic)] / [ws.unsubscribe(topic)]. *)
Definition addTopic (t : string) (c : Conn) : Conn :=
  if hasTopic t c then c
  else mkConn (connId c) (connRole c) (wsUserId c) (wsSessionId c)
              (wsCustomerToken c) (topics c ++ [t]) (inbox c).

Definition dropTopic (t : string) (c : Conn) : Conn :=
  mkConn (connId c) (connRole c) (wsUserId c) (wsSessionId c)
         (wsCustomerToken c)
         (filter (fun t' => negb (String.eqb t t')) (topics c)) (inbox c).

Definition setWsSession (sid : Id) (c : Conn) : Conn :=
  mkConn (connId c) (connRole c) (wsUserId c) (Some sid)
         (wsCustomerToken c) (topics c) (inbox c).

Definition setWsToken (tok : string) (c : Conn) : Conn :=
  mkConn (connId c) (connRole c) (wsUserId c) (wsSessionId c)
         (Some tok) (topics c) (inbox c).

Definition subscribeCsToSession (ws : nat) (sessionId : Id)
  : World -> unit * World :=
  fun w => (tt, patchConn ws (addTopic (topicSession sessionId)) w).

Definition unsubscribeCsFromSession (ws : nat) (sessionId : Id)
  : World -> unit * World :=
  fun w => (tt, patchConn ws (dropTopic (topicSession sessionId)) w).

Definition subscribeCustomerToSession (ws : nat) (sessionId : Id)
  : World -> unit * World :=
  fun w =>
    (tt, patchConn ws
           (fun c => addTopic (topicSession sessionId) (setWsSession sessionId c))
           w).

(** [getConnectionsByUserId]: the tracked connections opened by this user. *)
Definition isUserConn (uid : Id) (c : Conn) : bool :=
  optId_eqb (wsUserId c) (Some uid).

Definition subscribeCsToSessionByUserId (uid sessionId : Id)
  : World -> bool * World :=
  fun w =>
    if existsb (isUserConn uid) (conns w) then
      (true,
       withConns w
         (map (fun c => if isUserConn uid c
                        then addTopic (topicSession sessionId) c else c)
              (conns w)))
    else (false, w).

(** [ws.data.userId], [ws.data.sessionId], [ws.data.customerToken]. *)
Definition wsData {X : Type} (ws : nat) (f : Conn -> option X)
  : World -> option X * World :=
  fun w => (match findConn ws w with Some c => f c | None => None end, w).

(** ** UserService *)

Definition getCsStatus (uid : Id) : Prog (option CsStatus) :=
  await (query (findCsStatus uid)).

(** ** QueueService *)

Record WaitingChat := mkWaiting {
  wcSession : ChatSession;
  wcLastCustomerMessage : option Message
}.

Definition getWaitingChats : Prog (list WaitingChat) :=
  await (query (fun d =>
    map (fun s =>
           mkWaiting s
             (hd_error
                (sortByDesc mCreatedAt
                   (filter (fun m => SenderType_eqb (senderType m) sender_customer)
                           (sessionMessages (sId s) d)))))
        (sortBy sCreatedAt
           (filter (fun s => ChatStatus_eqb (status s) waiting) (sessions d))))).

Record QueueItem := mkItem {
  qSessionId : Id;
  qCustomerName : option string;
  qCustomerEmail : option string;
  position : Z;
  waitTime : Z;
  qCreatedAt : Z;
  lastMessage : option string
}.

(** [waitingChats.map((chat, index) => ...)], [index] counted from [i]. *)
Fixpoint queueItems (now : Z) (i : Z) (l : list WaitingChat) : list QueueItem :=
  match l with
  | [] => []
  | chat :: l' =>
      mkItem (sId (wcSession chat)) (customerName (wcSession chat))
             (customerEmail (wcSession chat)) (i + 1)
             ((now - sCreatedAt (wcSession chat)) / 1000)
             (sCreatedAt (wcSession chat))
             (option_map content (wcLastCustomerMessage chat))
      :: queueItems now (i + 1) l'
  end.

Definition getQueue : Prog (list QueueItem) :=
  waitingChats <- getWaitingChats ;;
  now <- sync readClock ;;
  Ret (queueItems now 0 waitingChats).

Definition getQueuePosition (sessionId : Id) : Prog (option Z) :=
  queue <- getQueue ;;
  Ret (option_map position
         (find (fun q => idIs (qSessionId q) sessionId) queue)).

(** The [findMany] of [autoAssignChat]: users with role cs, active, whose
    status row is online, each with its status row, ordered by
    [currentChats] ascending. *)
Definition onlineCs (d : Db) : list (User * CsStatus) :=
  sortBy (fun uc => currentChats (snd uc))
    (flat_map
       (fun u =>
          match role u, isActive u, findCsStatus (uId u) d with
          | role_cs, true, Some c =>
              if CsState_eqb (csState c) online then [(u, c)] else []
          | _, _, _ => []
          end)
       (users d)).

Definition hasCapacity (uc : User * CsStatus) : bool :=
  currentChats (snd uc) <? maxChats (snd uc).

Definition readConfig : World -> Config * World := fun w => (config w, w).

Definition autoAssignChat (sessionId : Id)
  : Prog (option (ChatSession * option CsInfo * CsInfo)) :=
  cfg <- sync readConfig ;;
  if negb (autoAssignEnabled cfg) then Ret None
  else
    availableCS <- await (query onlineCs) ;;
    let csWithCapacity := filter hasCapacity availableCS in
    match csWithCapacity with
    | [] => Ret None
    | selectedCS :: _ =>
        let u := fst selectedCS in
        session <- assignChat sessionId (uId u) ;;
        _ <- sync (subscribeCsToSessionByUserId (uId u) sessionId) ;;
        _ <- sync (notifyChatAssigned sessionId (uId u) (name u) (avatarUrl u)) ;;
        Ret (Some (session, csInfoOf u))
    end.

(** The [for] loop of [processQueue], with its [break]. *)
Fixpoint processItems (queue : list QueueItem) (processed : Z) : Prog Z :=
  match queue with
  | [] => Ret processed
  | item :: rest =>
      result <- autoAssignChat (qSessionId item) ;;
      match result with
      | Some _ => processItems rest (processed + 1)
      | None => Ret processed
      end
  end.

Definition processQueue : Prog Z :=
  cfg <- sync readConfig ;;
  if negb (autoAssignEnabled cfg) then Ret 0
  else
    queue <- getQueue ;;
    processItems queue 0.

Record IdleChat := mkIdle {
  icSession : ChatSession;
  icLastMessage : option Message
}.

(** The [findMany] of [checkIdleChats]: open sessions all of whose messages
    are older than the threshold, each with its newest message. *)
Definition findIdleChats (idleThreshold : Z) (d : Db) : list IdleChat :=
  map (fun s =>
         mkIdle s (hd_error (sortByDesc mCreatedAt (sessionMessages (sId s) d))))
      (filter
         (fun s =>
            isOpen (status s)
            && forallb (fun m => mCreatedAt m <? idleThreshold)
                       (sessionMessages (sId s) d))
         (sessions d)).

Definition isStale (idleThreshold : Z) (chat : IdleChat) : bool :=
  match icLastMessage chat with
  | None => true
  | Some m => mCreatedAt m <? idleThreshold
  end.

(** The [for] loop of [checkIdleChats]. *)
Fixpoint reapChats (idleThreshold : Z) (idleChats : list IdleChat)
    (abandonedIds : list Id) : Prog (list Id) :=
  match idleChats with
  | [] => Ret abandonedIds
  | chat :: rest =>
      if isStale idleThreshold chat then
        now <- sync readClock ;;
        _ <- await (updateSession (sId (icSession chat))
                      (setClosed abandoned now)) ;;
        _ <- match assignedCsId (icSession chat) with
             | Some csId =>
                 if isEmpty csId then Ret tt
                 else
                   try_catch
                     (_ <- await (updateCs csId (addChats (-1))) ;; Ret tt)
                     (Ret tt)
             | None => Ret tt
             end ;;
        _ <- await (createMessage (sId (icSession chat)) sender_system None
                      "Chat ditutup karena tidak ada aktivitas" mt_system) ;;
        reapChats idleThreshold rest (abandonedIds ++ [sId (icSession chat)])
      else reapChats idleThreshold rest abandonedIds
  end.

Definition checkIdleChats : Prog (list Id) :=
  now <- sync readClock ;;
  cfg <- sync readConfig ;;
  let idleThreshold := now - chatIdleTimeout cfg * 1000 in
  idleChats <- await (query (findIdleChats idleThreshold)) ;;
  reapChats idleThreshold idleChats [].

(** ** Socket handlers of the agent ([websocket/messages/cs.ts]) *)

(** [user?.name || "CS"]. *)
Definition nameOrCS (u : option User) : string :=
  match u with
  | Some x => if String.eqb (name x) "" then "CS" else name x
  | None => "CS"
  end.

Definition avatarOf (u : option User) : option string :=
  match u with
  | Some x => avatarUrl x
  | None => None
  end.

Definition serverError (ws : nat) (msg : string) : Prog unit :=
  sync (wsSendError ws "SERVER_ERROR" msg).

(** In the handlers below [if (!userId)] refuses a socket without user id
    and one whose user id is the empty string. *)
Definition handleCsAcceptChat (ws : nat) (sessionId : Id) : Prog unit :=
  try_catch
    (userId <- sync (wsData ws wsUserId) ;;
     match userId with
     | None => sync (wsSendError ws "UNAUTHORIZED" "Tidak terautentikasi")
     | Some uid =>
         if isEmpty uid then
           sync (wsSendError ws "UNAUTHORIZED" "Tidak terautentikasi")
         else
         csStatus <- getCsStatus uid ;;
         match csStatus with
         | None =>
             sync (wsSendError ws "NOT_ONLINE"
                     "Anda harus online untuk menerima chat")
         | Some c =>
             if negb (CsState_eqb (csState c) online) then
               sync (wsSendError ws "NOT_ONLINE"
                       "Anda harus online untuk menerima chat")
             else if currentChats c >=? maxChats c then
               sync (wsSendError ws "AT_CAPACITY"
                       "Anda sudah mencapai batas chat maksimal")
             else
               session <- getSessionById sessionId ;;
               match session with
               | None =>
                   sync (wsSendError ws "SESSION_NOT_FOUND"
                           "Chat tidak ditemukan")
               | Some s =>
                   if negb (ChatStatus_eqb (status (fSession s)) waiting) then
                     sync (wsSendError ws "ALREADY_ASSIGNED"
                             "Chat sudah ditangani CS lain")
                   else
                     _ <- assignChat sessionId uid ;;
                     _ <- sync (subscribeCsToSession ws sessionId) ;;
                     user <- await (query (findUser uid)) ;;
                     _ <- sync (notifyChatAssigned sessionId uid
                                  (nameOrCS user) (avatarOf user)) ;;
                     sync (wsSend ws "chat:accepted"
                             (PAccepted sessionId
                                (customerName (fSession s))
                                (customerEmail (fSession s))
                                (fMessages s)
                                (sCreatedAt (fSession s))))
               end
         end
     end)
    (serverError ws "Terjadi kesalahan server").

Definition handleCsResolveChat (ws : nat) (sessionId : Id) : Prog unit :=
  try_catch
    (userId <- sync (wsData ws wsUserId) ;;
     match userId with
     | None => sync (wsSendError ws "UNAUTHORIZED" "Tidak terautentikasi")
     | Some uid =>
         if isEmpty uid then
           sync (wsSendError ws "UNAUTHORIZED" "Tidak terautentikasi")
         else
         result <- resolveChat sessionId uid ;;
         match result with
         | None =>
             sync (wsSendError ws "RESOLVE_FAILED"
                     "Gagal menyelesaikan chat atau bukan milik Anda")
         | Some _ =>
             _ <- sync (unsubscribeCsFromSession ws sessionId) ;;
             _ <- sync (notifyChatResolved sessionId uid) ;;
             _ <- sync (wsSend ws "chat:resolved" (PSession sessionId)) ;;
             _ <- processQueue ;;
             Ret tt
         end
     end)
    (serverError ws "Terjadi kesalahan server").

Definition handleCsTransferChat (ws : nat) (sessionId toCsId : Id)
  : Prog unit :=
  try_catch
    (userId <- sync (wsData ws wsUserId) ;;
     match userId with
     | None => sync (wsSendError ws "UNAUTHORIZED" "Tidak terautentikasi")
     | Some uid =>
         if isEmpty uid then
           sync (wsSendError ws "UNAUTHORIZED" "Tidak terautentikasi")
         else
         targetCsStatus <- getCsStatus toCsId ;;
         match targetCsStatus with
         | None =>
             sync (wsSendError ws "TARGET_NOT_ONLINE" "CS tujuan tidak online")
         | Some c =>
             if negb (CsState_eqb (csState c) online) then
               sync (wsSendError ws "TARGET_NOT_ONLINE"
                       "CS tujuan tidak online")
             else if currentChats c >=? maxChats c then
               sync (wsSendError ws "TARGET_AT_CAPACITY"
                       "CS tujuan sudah penuh")
             else
               result <- transferChat sessionId uid toCsId ;;
               match result with
               | None =>
                   sync (wsSendError ws "TRANSFER_FAILED"
                           "Gagal transfer chat atau bukan milik Anda")
               | Some _ =>
                   _ <- sync (unsubscribeCsFromSession ws sessionId) ;;
                   targetCs <- await (query (findUser toCsId)) ;;
                   _ <- sync (notifyChatTransferred sessionId uid toCsId
                                (nameOrCS targetCs)) ;;
                   sync (wsSend ws "chat:transferred_out"
                           (PTransferredOut sessionId toCsId
                              (option_map name targetCs)))
               end
         end
     end)
    (serverError ws "Terjadi kesalahan server").

(** ** Socket handlers of the customer ([websocket/messages/customer.ts]) *)

(** [!sessionId || sessionId !== ws.data.sessionId]. *)
Definition invalidSession (sessionId : Id) (bound : option Id) : bool :=
  isEmpty sessionId || negb (optId_eqb (Some sessionId) bound).

(** [result.message || fallback]. *)
Definition orElse (s fallback : string) : string :=
  if isEmpty s then fallback else s.

(** The session id and token of a successful [initChat], when both are
    truthy. *)
Definition initIds (r : InitChatResult) : option (Id * string) :=
  match initSuccess r, initSessionId r, initCustomerToken r with
  | true, Some sid, Some tok =>
      if isEmpty sid || isEmpty tok then None else Some (sid, tok)
  | _, _, _ => None
  end.

(** [position || 1]. *)
Definition positionOr1 (p : option Z) : Z :=
  match p with
  | Some n => if n =? 0 then 1 else n
  | None => 1
  end.

Definition handleCustomerStartChat (ws : nat) (newId : Id) (tok : string)
    (cname cemail : option string) : Prog unit :=
  try_catch
    (result <- initChat newId tok cname cemail ;;
     match initIds result with
     | None =>
         sync (wsSendError ws "INIT_FAILED"
                 (orElse (initMessage result) "Failed to start chat"))
     | Some (sid, token) =>
         _ <- sync (fun w => (tt, patchConn ws
                      (fun c => setWsToken token (setWsSession sid c)) w)) ;;
         _ <- sync (subscribeCustomerToSession ws sid) ;;
         _ <- sync (notifyNewChatInQueue sid cname) ;;
         assigned <- autoAssignChat sid ;;
         _ <- match assigned with
              | Some a =>
                  sync (wsSend ws "chat:assigned" (PChatAssigned sid (snd a)))
              | None =>
                  pos <- getQueuePosition sid ;;
                  sync (wsSend ws "chat:queue_position"
                          (PQueuePosition sid (positionOr1 pos)))
              end ;;
         sync (wsSend ws "chat:started" (PChatStarted sid token))
     end)
    (serverError ws "Server error occurred").

(** [getSessionByToken(ws.data.customerToken!)]: the query is rejected when
    the connection carries no token. *)
Definition getSessionOfConn (ws : nat)
  : Prog (option ChatSessionWithMessages) :=
  token <- sync (wsData ws wsCustomerToken) ;;
  match token with
  | Some t => getSessionByToken t
  | None => Throw
  end.

Definition handleCustomerEndChat (ws : nat) (sessionId : Id) : Prog unit :=
  try_catch
    (bound <- sync (wsData ws wsSessionId) ;;
     if invalidSession sessionId bound then
       sync (wsSendError ws "INVALID_SESSION" "Invalid session")
     else
       session <- getSessionOfConn ws ;;
       let csId := match session with
                   | Some s => assignedCsId (fSession s)
                   | None => None
                   end in
       result <- endChat sessionId ;;
       match result with
       | None => sync (wsSendError ws "END_FAILED" "Failed to end chat")
       | Some _ =>
           _ <- match csId with
                | Some u =>
                    if isEmpty u then Ret tt
                    else
                      _ <- sync (notifyCustomerLeft sessionId (Some u)) ;; Ret tt
                | None => Ret tt
                end ;;
           sync (wsSend ws "chat:ended" (PEnded sessionId "customer_left"))
       end)
    (serverError ws "Server error occurred").


(** ** Observations on worlds *)

Definition isErrorFrame (f : Frame) : bool := String.eqb (event f) "system:error".

(** All error frames received so far, connection by connection. *)
Definition errorFrames (w : World) : list Frame :=
  flat_map (fun c => filter isErrorFrame (inbox c)) (conns w).

Definition inboxOf (ws : nat) (w : World) : list Frame :=
  match findConn ws w with
  | Some c => inbox c
  | None => []
  end.

Definition isTerminal (st : ChatStatus) : bool := negb (isOpen st).

(** The store after the three writes of [assignChat]. *)
Definition assignedDb (sid uid : Id) (now at_ : Z) (who : string) (d : Db) : Db :=
  mkDb (patchSession sid (setAssigned uid now) (sessions d))
       (messages d ++
        [mkMessage (List.length (messages d)) sid sender_system None
                   (String.append who " has joined the chat") mt_system false at_])
       (patchCs uid (addChats 1) (csStatuses d))
       (users d) (activityLogs d).

(** An accept that does not reach [assignChat] sends one error frame on the
    requesting socket and does nothing else. *)
Definition rejectedWith (ws : nat) (code : string) (w : World)
    (r : Res unit * World) : Prop :=
  exists msg w0,
    r = (Ok tt, snd (wsSendError ws code msg w0))
    /\ db w0 = db w /\ conns w0 = conns w.


(** The sessions an agent is serving: [status = active] and
    [assignedCsId = uid]. *)
Definition activeChatsOf (uid : Id) (d : Db) : Z :=
  Z.of_nat
    (List.length
       (filter (fun s => ChatStatus_eqb (status s) active
                         && optId_eqb (assignedCsId s) (Some uid))
               (sessions d))).

Definition eventsOf (ws : nat) (w : World) : list string :=
  map event (inboxOf ws w).

Definition chatsOf (uid : Id) (w : World) : option Z :=
  option_map currentChats (findCsStatus uid (db w)).

Definition chatId (chat : IdleChat) : Id := sId (icSession chat).


(** An agent the dispatcher may pick: a user with role cs, active, whose
    status row is online with [currentChats < maxChats]. *)
Definition availableCs (d : Db) (u : User) (c : CsStatus) : Prop :=
  In u (users d) /\ role u = role_cs /\ isActive u = true
  /\ findCsStatus (uId u) d = Some c
  /\ csState c = online /\ currentChats c < maxChats c.

(** Every connection subscribed to [topic] has received [fr]. *)
Definition received (topic : string) (fr : Frame) (w : World) : Prop :=
  forall c, In c (conns w) -> hasTopic topic c = true -> In fr (inbox c).

(** The store after the two writes of [initChat]. *)
Definition initDb (newId : Id) (tok : string) (cname cemail : option string)
    (t0 t1 : Z) (d : Db) : Db :=
  mkDb (sessions d ++
        [mkSession newId cname cemail tok waiting None t0 None None None None])
       (messages d ++
        [mkMessage (List.length (messages d)) newId sender_system None
                   "Chat started. Waiting for customer service..." mt_system
                   false t1])
       (csStatuses d) (users d) (activityLogs d).

(** ** Scenarios *)

Module Scenario.

Definition agent1 : User := mkUser "A1" "Agent One" None role_cs true.
Definition agent2 : User := mkUser "A2" "Agent Two" None role_cs true.

Definition ada : ChatSession :=
  mkSession "ada" (Some "Ada") None "cust_ada" waiting None 1000
            None None None None.

Definition welcome : Message :=
  mkMessage 0 "ada" sender_system None
            "Chat started. Waiting for customer service..." mt_system false 1000.

Definition csSocket (n : nat) (uid : Id) : Conn :=
  mkConn n conn_cs (Some uid) None None
         [topicCs uid; topicQueue; "broadcast"] [].

Definition adaSocket : Conn :=
  mkConn 3 conn_customer None (Some "ada") (Some "cust_ada")
         [topicSession "ada"; "broadcast"] [].

(** Two online agents with room for one chat each, Ada waiting (scenario S3
    of the spec).  The clock advances by one millisecond at each await. *)
Definition raceWorld : World :=
  mkWorld
    (mkDb [ada] [welcome]
          [mkCsStatus "A1" online 1 0 10; mkCsStatus "A2" online 1 0 20]
          [agent1; agent2] [])
    [csSocket 1 "A1"; csSocket 2 "A2"; adaSocket]
    true (mkConfig true 1800) 5000 (repeat 1%N 40).

(** Both agents read their status, both read the session while it is still
    waiting, then each performs its writes. *)
Definition raceSchedule : list bool :=
  [false; true; false; true;
   false; false; false; false;
   true; true; true; true].

(** Agent A1 is busy and already serves as many chats as it may. *)
Definition busyFullWorld : World :=
  mkWorld
    (mkDb [ada] [welcome] [mkCsStatus "A1" busy 1 1 10] [agent1] [])
    [csSocket 1 "A1"; adaSocket]
    true (mkConfig true 1800) 5000 (repeat 1%N 40).

(** Agent A1 is online and already serves as many chats as it may. *)
Definition onlineFullWorld : World :=
  mkWorld
    (mkDb [ada] [welcome] [mkCsStatus "A1" online 1 1 10] [agent1] [])
    [csSocket 1 "A1"; adaSocket]
    true (mkConfig true 1800) 5000 (repeat 1%N 40).

(** A1 has accepted Ada's chat. *)
Definition acceptedWorld : World :=
  snd (run (handleCsAcceptChat 1 "ada") raceWorld).

(** A1 has then resolved it. *)
Definition resolvedWorld : World :=
  snd (run (handleCsResolveChat 1 "ada") acceptedWorld).

(** Ada's chat is active with A1; the transcript holds the welcome message
    and the join message. *)
Definition joined : Message :=
  mkMessage 1 "ada" sender_system None "Agent One has joined the chat"
            mt_system false 5005.

Definition activeWorld : World :=
  mkWorld
    (mkDb [setAssigned "A1" 5002 ada] [welcome; joined]
          [mkCsStatus "A1" online 1 1 10; mkCsStatus "A2" online 1 0 20]
          [agent1; agent2] [])
    [csSocket 1 "A1"; csSocket 2 "A2"; adaSocket]
    true (mkConfig true 1800) 6000 (repeat 1%N 40).

(** Ada's chat has been resolved by A1. *)
Definition closedWorld : World :=
  mkWorld
    (mkDb [setClosed resolved 7000 (setAssigned "A1" 5002 ada)]
          [welcome; joined;
           mkMessage 2 "ada" sender_system None "Chat has been resolved"
                     mt_system false 7003]
          [mkCsStatus "A1" online 1 0 10; mkCsStatus "A2" online 1 0 20]
          [agent1; agent2] [mkLog "A1" "chat_resolved" "ada"])
    [csSocket 1 "A1"; csSocket 2 "A2"; adaSocket]
    true (mkConfig true 1800) 8000 (repeat 1%N 40).

(** Two idle online agents; A2 has been active less recently than A1. *)
Definition tieWorld : World :=
  mkWorld
    (mkDb [ada] [welcome]
          [mkCsStatus "A1" online 5 0 20; mkCsStatus "A2" online 5 0 10]
          [agent1; agent2] [])
    [csSocket 1 "A1"; csSocket 2 "A2"; adaSocket]
    true (mkConfig true 1800) 5000 (repeat 1%N 40).

(** Ada's chat is active; its last message was written at 5005 and the idle
    timeout is 1800 seconds.  The reaper runs exactly 1800 seconds after
    that message, or one millisecond later. *)
Definition reaperWorld (now : Z) : World :=
  mkWorld (db activeWorld) (conns activeWorld) true (mkConfig true 1800)
          now (repeat 1%N 40).

Definition boundaryWorld : World := reaperWorld (5005 + 1800 * 1000).
Definition lateWorld : World := reaperWorld (5005 + 1800 * 1000 + 1).

(** Scenario S1 of the spec: one online agent with room, and a customer
    socket that has not started a chat yet. *)
Definition freshSocket : Conn :=
  mkConn 3 conn_customer None None None ["broadcast"] [].

Definition startWorld : World :=
  mkWorld
    (mkDb [] [] [mkCsStatus "A1" online 5 0 10] [agent1] [])
    [csSocket 1 "A1"; freshSocket]
    true (mkConfig true 1800) 5000 (repeat 1%N 40).


(** Agent A1 is offline with room for two chats; Ada is waiting. *)
Definition awayWorld : World :=
  mkWorld
    (mkDb [ada] [welcome] [mkCsStatus "A1" offline 2 0 10] [agent1] [])
    [csSocket 1 "A1"; adaSocket]
    true (mkConfig true 1800) 5000 (repeat 1%N 40).

End Scenario.


(** ** Further operations of the services *)

(** JavaScript truthiness of an optional string ([if (x)], [!x]). *)
Definition truthy (o : option string) : bool :=
  match o with
  | Some s => negb (isEmpty s)
  | None => false
  end.

(** *** ChatService: rating and read marks *)




Definition markRead (m : Message) : Message :=
  mkMessage (mId m) (mSessionId m) (senderType m) (senderId m) (content m)
            (messageType m) true (mCreatedAt m).

(** The [where] of [markMessagesAsRead] and of [getUnreadCount]. *)
Definition isUnreadFrom (sessionId : Id) (st : SenderType) (m : Message)
  : bool :=
  idIs sessionId (mSessionId m) && SenderType_eqb (senderType m) st
  && negb (isRead m).

Definition markMessagesAsRead (sessionId : Id) (uid : option Id) : Prog unit :=
  let st := if truthy uid then sender_customer else sender_cs in
  await (fun w =>
    (Ok tt,
     withDb w
       (setMessages (db w)
          (map (fun m => if isUnreadFrom sessionId st m then markRead m else m)
               (messages (db w)))))).

Definition getUnreadCount (sessionId : Id) (st : SenderType) : Prog Z :=
  await (query (fun d =>
    Z.of_nat (List.length (filter (isUnreadFrom sessionId st) (messages d))))).

(** *** QueueService: priority *)

Definition setCreatedAt (t : Z) (s : ChatSession) : ChatSession :=
  mkSession (sId s) (customerName s) (customerEmail s) (customerToken s)
            (status s) (assignedCsId s) t (assignedAt s) (resolvedAt s)
            (rating s) (feedback s).

Definition isWaiting (s : ChatSession) : bool :=
  ChatStatus_eqb (status s) waiting.

(** [findFirst({ where: { status: "waiting" }, orderBy: { createdAt: "asc" } })]. *)
Definition oldestWaiting (d : Db) : option ChatSession :=
  hd_error (sortBy sCreatedAt (filter isWaiting (sessions d))).

Definition prioritizeChat (sessionId : Id) : Prog (option Z) :=
  session <- await (query (findSession sessionId)) ;;
  match session with
  | None => Ret None
  | Some s =>
      if negb (isWaiting s) then Ret None
      else
        oldest <- await (query oldestWaiting) ;;
        _ <- match oldest with
             | Some o =>
                 if negb (idIs (sId o) sessionId) then
                   _ <- await (updateSession sessionId
                                 (setCreatedAt (sCreatedAt o - 1000))) ;;
                   Ret tt
                 else Ret tt
             | None => Ret tt
             end ;;
        getQueuePosition sessionId
  end.

(** *** UserService: presence *)

Definition setState (st : CsState) (now : Z) (c : CsStatus) : CsStatus :=
  mkCsStatus (userId c) st (maxChats c) (currentChats c) now.

Definition stateName (st : CsState) : string :=
  match st with
  | online => "online"
  | busy => "busy"
  | offline => "offline"
  end.

(** [prisma.csStatus.upsert]: the row of the user is updated, or created
    with [maxChats = 5] and [currentChats = 0].

    Modelled from the spec: [lastActiveAt] of a created row is a column
    default of the Prisma schema, which is not among the sources; it is taken
    to be the time of the write. *)
Definition upsertCs (uid : Id) (st : CsState) (now : Z)
  : World -> Res CsStatus * World :=
  fun w =>
    match findCsStatus uid (db w) with
    | Some c =>
        (Ok (setState st now c),
         withDb w (setCsStatuses (db w)
                     (patchCs uid (setState st now) (csStatuses (db w)))))
    | None =>
        let c := mkCsStatus uid st 5 0 (clock w) in
        (Ok c, withDb w (setCsStatuses (db w) (csStatuses (db w) ++ [c])))
    end.

(** The [details] of the log entry are the JSON text of [{ status }]; the
    model keeps the status name. *)
Definition updateCsStatus (uid : Id) (st : CsState) : Prog (option CsStatus) :=
  try_catch
    (user <- await (query (findUser uid)) ;;
     match user with
     | None => Ret None
     | Some _ =>
         now <- sync readClock ;;
         csStatus <- await (upsertCs uid st now) ;;
         _ <- await (createLog uid "status_changed" (stateName st)) ;;
         Ret (Some csStatus)
     end)
    (Ret None).

(** *** rooms: subscriptions at connect and at close *)

Definition topicBroadcast : string := "broadcast".

Definition subscribeToRooms (c : Conn) : Conn :=
  addTopic topicBroadcast
    (match connRole c with
     | conn_customer =>
         match wsSessionId c with
         | Some sid =>
             if isEmpty sid then c else addTopic (topicSession sid) c
         | None => c
         end
     | conn_cs =>
         match wsUserId c with
         | Some uid =>
             if isEmpty uid then c
             else addTopic topicQueue (addTopic (topicCs uid) c)
         | None => c
         end
     | conn_admin => addTopic topicQueue (addTopic topicAdminStats c)
     end).

Definition unsubscribeFromRooms (c : Conn) : Conn :=
  dropTopic topicBroadcast
    (match connRole c with
     | conn_customer =>
         match wsSessionId c with
         | Some sid =>
             if isEmpty sid then c else dropTopic (topicSession sid) c
         | None => c
         end
     | conn_cs =>
         match wsUserId c with
         | Some uid =>
             if isEmpty uid then c
             else dropTopic topicQueue (dropTopic (topicCs uid) c)
         | None => c
         end
     | conn_admin => dropTopic topicQueue (dropTopic topicAdminStats c)
     end).

(** *** NotificationService: messages and presence *)

Definition notifyNewMessage (sessionId : Id) (mid : option nat)
    (text : string) (st : SenderType) (sender : option Id)
    (mt : MessageType) (createdAt : Z) : World -> bool * World :=
  publishToTopic (topicSession sessionId) "chat:message"
    (PChatMessage sessionId mid text st sender mt createdAt).

Definition notifyCsStatusChanged (csId : Id) (csName : string) (st : CsState)
  : World -> bool * World :=
  andThen (notifyQueue "cs:status_changed" (PStatusChanged csId csName st))
          (notifyAdmins "cs:status_changed" (PStatusChanged csId csName st)).

(** *** Further socket handlers *)

Section MessageHandlers.

(** [String.prototype.trim]; the handlers below are modelled for any
    function in its place. *)
Variable trim : string -> string.

(** [!content || content.trim() === ""]. *)
Definition emptyContent (text : string) : bool :=
  isEmpty text || isEmpty (trim text).

Definition handleCustomerSendMessage (ws : nat) (sessionId : Id)
    (text : string) (mt : MessageType) : Prog unit :=
  try_catch
    (bound <- sync (wsData ws wsSessionId) ;;
     if invalidSession sessionId bound then
       sync (wsSendError ws "INVALID_SESSION" "Invalid session")
     else if emptyContent text then
       sync (wsSendError ws "EMPTY_MESSAGE" "Message cannot be empty")
     else
       result <- sendMessage sessionId sender_customer (trim text) None mt ;;
       if negb (sendSuccess result) then
         sync (wsSendError ws "SEND_FAILED"
                 (orElse (sendMessageText result) "Failed to send message"))
       else
         session <- getSessionOfConn ws ;;
         now <- sync readClock ;;
         _ <- match session with
              | Some s =>
                  if truthy (assignedCsId (fSession s)) then
                    _ <- sync (notifyNewMessage sessionId (sendMessageId result)
                                 (trim text) sender_customer None mt now) ;;
                    Ret tt
                  else Ret tt
              | None => Ret tt
              end ;;
         sync (wsSend ws "message:sent"
                 (PMessageSent (sendMessageId result) sessionId)))
    (serverError ws "Server error occurred").

Definition handleCsSendMessage (ws : nat) (sessionId : Id)
    (text : string) (mt : MessageType) : Prog unit :=
  try_catch
    (userId <- sync (wsData ws wsUserId) ;;
     match userId with
     | None => sync (wsSendError ws "UNAUTHORIZED" "Tidak terautentikasi")
     | Some uid =>
         if isEmpty uid then
           sync (wsSendError ws "UNAUTHORIZED" "Tidak terautentikasi")
         else if emptyContent text then
           sync (wsSendError ws "EMPTY_MESSAGE" "Pesan tidak boleh kosong")
         else
           session <- getSessionById sessionId ;;
           if match session with
              | Some s => negb (optId_eqb (assignedCsId (fSession s)) (Some uid))
              | None => true
              end
           then
             sync (wsSendError ws "NOT_ASSIGNED"
                     "Anda tidak memiliki akses ke chat ini")
           else
             result <- sendMessage sessionId sender_cs (trim text) (Some uid) mt ;;
             if negb (sendSuccess result) then
               sync (wsSendError ws "SEND_FAILED"
                       (orElse (sendMessageText result) "Gagal mengirim pesan"))
             else
               now <- sync readClock ;;
               _ <- sync (notifyNewMessage sessionId (sendMessageId result)
                            (trim text) sender_cs (Some uid) mt now) ;;
               sync (wsSend ws "message:sent"
                       (PMessageSent (sendMessageId result) sessionId))
     end)
    (serverError ws "Terjadi kesalahan server").

End MessageHandlers.



Definition handleCustomerDisconnect (ws : nat) : Prog unit :=
  try_catch
    (sessionId <- sync (wsData ws wsSessionId) ;;
     token <- sync (wsData ws wsCustomerToken) ;;
     match sessionId, token with
     | Some sid, Some tok =>
         if isEmpty sid || isEmpty tok then Ret tt
         else
           session <- getSessionByToken tok ;;
           match session with
           | Some s =>
               if isOpen (status (fSession s))
                  && truthy (assignedCsId (fSession s))
               then
                 _ <- sync (notifyCustomerLeft sid (assignedCsId (fSession s))) ;;
                 Ret tt
               else Ret tt
           | None => Ret tt
           end
     | _, _ => Ret tt
     end)
    (Ret tt).

Definition handleCsDisconnect (ws : nat) : Prog unit :=
  try_catch
    (userId <- sync (wsData ws wsUserId) ;;
     if negb (truthy userId) then Ret tt
     else
       match userId with
       | Some uid =>
           _ <- updateCsStatus uid offline ;;
           user <- await (query (findUser uid)) ;;
           _ <- sync (notifyCsStatusChanged uid (nameOrCS user) offline) ;;
           Ret tt
       | None => Ret tt
       end)
    (Ret tt).

(** *** cs:set_status *)

(** [["online", "offline", "busy"].includes(status)], with the state named
    by the text. *)
Definition parseState (s : string) : option CsState :=
  if String.eqb s "online" then Some online
  else if String.eqb s "offline" then Some offline
  else if String.eqb s "busy" then Some busy
  else None.

(** One row of the queue sent to an agent going online: session, customer
    name, position, waiting time, last message. *)
Definition queueRow (q : QueueItem)
  : Id * option string * Z * Z * option string :=
  (qSessionId q, qCustomerName q, position q, waitTime q, lastMessage q).

(** The confirmation reads [csStatus.status] of the row returned by
    [updateCsStatus]; on [null] that read throws, after the notification and
    the queue run. *)
Definition handleCsSetStatus (ws : nat) (statusText : string) : Prog unit :=
  try_catch
    (userId <- sync (wsData ws wsUserId) ;;
     match userId with
     | None => sync (wsSendError ws "UNAUTHORIZED" "Tidak terautentikasi")
     | Some uid =>
         if isEmpty uid then
           sync (wsSendError ws "UNAUTHORIZED" "Tidak terautentikasi")
         else
           match parseState statusText with
           | None => sync (wsSendError ws "INVALID_STATUS" "Status tidak valid")
           | Some st =>
               csStatus <- updateCsStatus uid st ;;
               user <- await (query (findUser uid)) ;;
               _ <- sync (notifyCsStatusChanged uid (nameOrCS user) st) ;;
               _ <- (if CsState_eqb st online then processQueue else Ret 0) ;;
               match csStatus with
               | None => Throw
               | Some c =>
                   _ <- sync (wsSend ws "status:updated"
                                (PStatusUpdated (csState c) (maxChats c)
                                                (currentChats c))) ;;
                   if CsState_eqb st online then
                     queue <- getQueue ;;
                     sync (wsSend ws "queue:update"
                             (PQueue (map queueRow queue)))
                   else Ret tt
               end
           end
     end)
    (serverError ws "Terjadi kesalahan server").

(** *** Counting the chats of an agent *)

(** 1 when the session is active and assigned to [uid], else 0. *)
Definition serves (uid : Id) (s : ChatSession) : Z :=
  if ChatStatus_eqb (status s) active && optId_eqb (assignedCsId s) (Some uid)
  then 1 else 0.

(** Every status row counts the active sessions of its agent. *)
Definition countsActiveChats (d : Db) : Prop :=
  forall u c, findCsStatus u d = Some c -> currentChats c = activeChatsOf u d.

(** * Properties *)



(** ** Running programs *)

Lemma run_bind {A B : Type} (p : Prog A) (f : A -> Prog B) (w : World) :
  run (bind p f) w =
  match run p w with
  | (Ok a, w') => run (f a) w'
  | (Thrown, w') => (Thrown, w')
  end.
Proof.
  revert w; induction p as [a | | X act k IH | X act k IH]; intros w; simpl.
  - reflexivity.
  - reflexivity.
  - destruct (act (advance w)) as [r w']; apply IH.
  - destruct (act w) as [x w']; apply IH.
Qed.

Lemma run_try_catch {A : Type} (p h : Prog A) (w : World) :
  run (try_catch p h) w =
  match run p w with
  | (Ok a, w') => (Ok a, w')
  | (Thrown, w') => run h w'
  end.
Proof.
  revert w; induction p as [a | | X act k IH | X act k IH]; intros w; simpl.
  - reflexivity.
  - reflexivity.
  - destruct (act (advance w)) as [r w']; apply IH.
  - destruct (act w) as [x w']; apply IH.
Qed.

Lemma run_query {X : Type} (f : Db -> X) (w : World) :
  run (await (query f)) w = (Ok (f (db w)), advance w).
Proof.
  unfold await, query; simpl.
  assert (H : db (advance w) = db w)
    by (unfold advance; destruct (ticks w); reflexivity).
  rewrite H; reflexivity.
Qed.

Lemma wsData_fst {X : Type} (ws : nat) (f : Conn -> option X) (w : World) :
  fst (wsData ws f w) = match findConn ws w with Some c => f c | None => None end.
Proof. reflexivity. Qed.

Lemma wsData_snd {X : Type} (ws : nat) (f : Conn -> option X) (w : World) :
  snd (wsData ws f w) = w.
Proof. reflexivity. Qed.

Lemma db_advance (w : World) : db (advance w) = db w.
Proof. unfold advance; destruct (ticks w); reflexivity. Qed.

Lemma run_sync {X : Type} (act : World -> X * World) (w : World) :
  run (sync act) w = (Ok (fst (act w)), snd (act w)).
Proof. unfold sync; simpl. destruct (act w); reflexivity. Qed.

Lemma run_sync_bind {X B : Type} (act : World -> X * World)
    (k : X -> Prog B) (w : World) :
  run (bind (sync act) k) w = run (k (fst (act w))) (snd (act w)).
Proof. rewrite run_bind, run_sync; reflexivity. Qed.

Lemma run_await_bind {X B : Type} (act : World -> Res X * World)
    (k : X -> Prog B) (w : World) :
  run (bind (await act) k) w =
  match act (advance w) with
  | (Ok x, w') => run (k x) w'
  | (Thrown, w') => (Thrown, w')
  end.
Proof.
  rewrite run_bind. unfold await; simpl.
  destruct (act (advance w)) as [[x |] w']; reflexivity.
Qed.

Lemma run_query_bind {X B : Type} (f : Db -> X) (k : X -> Prog B) (w : World) :
  run (bind (await (query f)) k) w = run (k (f (db w))) (advance w).
Proof.
  rewrite run_await_bind. unfold query. rewrite db_advance. reflexivity.
Qed.

Lemma conns_advance (w : World) : conns (advance w) = conns w.
Proof. unfold advance; destruct (ticks w); reflexivity. Qed.

Lemma clock_advance (w : World) : clock w <= clock (advance w).
Proof. unfold advance; destruct (ticks w); simpl; lia. Qed.

(** [clock w <= clock (advance (... (advance w)))]. *)
Ltac clock_mono :=
  first [ apply Z.le_refl
        | eapply Z.le_trans; [apply clock_advance | clock_mono] ].

Lemma errorFrames_advance (w : World) : errorFrames (advance w) = errorFrames w.
Proof. unfold errorFrames; rewrite conns_advance; reflexivity. Qed.

Lemma findConn_advance (ws : nat) (w : World) :
  findConn ws (advance w) = findConn ws w.
Proof. unfold findConn; rewrite conns_advance; reflexivity. Qed.

(** ** Frames that are not errors leave the error log alone *)

Lemma filter_deliver (fr : Frame) (c : Conn) :
  isErrorFrame fr = false ->
  filter isErrorFrame (inbox (deliver fr c)) = filter isErrorFrame (inbox c).
Proof.
  intros H; simpl. rewrite filter_app; simpl. rewrite H.
  apply app_nil_r.
Qed.

Lemma errorFrames_map (g : Conn -> Conn) (l : list Conn) :
  (forall c, filter isErrorFrame (inbox (g c)) = filter isErrorFrame (inbox c)) ->
  flat_map (fun c => filter isErrorFrame (inbox c)) (map g l) =
  flat_map (fun c => filter isErrorFrame (inbox c)) l.
Proof.
  intros Hg; induction l as [| c l IH]; simpl; [reflexivity |].
  rewrite Hg, IH; reflexivity.
Qed.

Lemma errorFrames_wsSend (ws : nat) (ev : string) (d : Payload) (w : World) :
  String.eqb ev "system:error" = false ->
  errorFrames (snd (wsSend ws ev d w)) = errorFrames w.
Proof.
  intros H; unfold wsSend, patchConn, errorFrames; simpl.
  apply errorFrames_map; intros c.
  destruct (Nat.eqb ws (connId c)); [apply filter_deliver; exact H | reflexivity].
Qed.

Lemma errorFrames_publish (topic ev : string) (d : Payload) (w : World) :
  String.eqb ev "system:error" = false ->
  errorFrames (snd (publishToTopic topic ev d w)) = errorFrames w.
Proof.
  intros H; unfold publishToTopic, errorFrames.
  destruct (serverInstance w); simpl; [| reflexivity].
  apply errorFrames_map; intros c.
  destruct (hasTopic topic c); [apply filter_deliver; exact H | reflexivity].
Qed.

Lemma db_patchConn (ws : nat) (g : Conn -> Conn) (w : World) :
  db (patchConn ws g w) = db w.
Proof. reflexivity. Qed.

Lemma db_wsSend (ws : nat) (ev : string) (d : Payload) (w : World) :
  db (snd (wsSend ws ev d w)) = db w.
Proof. reflexivity. Qed.

Lemma db_withDb (w : World) (d : Db) : db (withDb w d) = d.
Proof. reflexivity. Qed.

Lemma errorFrames_withDb (w : World) (d : Db) :
  errorFrames (withDb w d) = errorFrames w.
Proof. reflexivity. Qed.

Lemma db_publish (topic ev : string) (d : Payload) (w : World) :
  db (snd (publishToTopic topic ev d w)) = db w.
Proof. unfold publishToTopic; destruct (serverInstance w); reflexivity. Qed.

Lemma errorFrames_notifyCustomerLeft (sid : Id) (o : option Id) (w : World) :
  errorFrames (snd (notifyCustomerLeft sid o w)) = errorFrames w.
Proof.
  unfold notifyCustomerLeft, andThen, notifyQueue, notifyCS.
  rewrite errorFrames_publish by reflexivity.
  destruct o as [u |]; [| reflexivity].
  destruct (isEmpty u); [reflexivity | apply errorFrames_publish; reflexivity].
Qed.

Lemma db_notifyCustomerLeft (sid : Id) (o : option Id) (w : World) :
  db (snd (notifyCustomerLeft sid o w)) = db w.
Proof.
  unfold notifyCustomerLeft, andThen, notifyQueue, notifyCS.
  rewrite db_publish. destruct o as [u |]; [| reflexivity].
  destruct (isEmpty u); [reflexivity | apply db_publish].
Qed.

Lemma isEmpty_false (s : string) : s <> "" -> isEmpty s = false.
Proof.
  intros H. unfold isEmpty. destruct (String.eqb_spec s "");
    [contradiction | reflexivity].
Qed.

(** ** Ending a chat that has already ended *)

Lemma run_endChat_terminal (w : World) (sid : Id) (s : ChatSession) :
  findSession sid (db w) = Some s ->
  isTerminal (status s) = true ->
  run (endChat sid) w = (Ok (Some s), advance w).
Proof.
  intros Hs Ht. unfold endChat.
  rewrite run_bind, run_query, Hs.
  unfold isTerminal in Ht. apply negb_true_iff in Ht. rewrite Ht.
  reflexivity.
Qed.

(** C10. For a session that is already resolved or abandoned, [endChat]
    returns the session as it is stored and writes nothing: the store after
    the call is the store before it (no session field, message or chat
    counter changes).  The socket handler [handleCustomerEndChat], on the
    connection bound to that session, ends without throwing, leaves the store
    unchanged and sends no [system:error] frame to any connection. *)
Theorem endChat_terminal_is_noop
    (w : World) (ws : nat) (c : Conn) (tok : string) (sid : Id)
    (s : ChatSession) :
  findSession sid (db w) = Some s ->
  isTerminal (status s) = true ->
  findConn ws w = Some c ->
  wsSessionId c = Some sid ->
  wsCustomerToken c = Some tok ->
  sid <> "" ->
  (fst (run (endChat sid) w) = Ok (Some s)
   /\ db (snd (run (endChat sid) w)) = db w)
  /\ (fst (run (handleCustomerEndChat ws sid) w) = Ok tt
      /\ db (snd (run (handleCustomerEndChat ws sid) w)) = db w
      /\ errorFrames (snd (run (handleCustomerEndChat ws sid) w)) = errorFrames w).
Proof.
  intros Hs Ht Hc Hsid Htok Hne.
  split.
  - rewrite (run_endChat_terminal w sid s Hs Ht); simpl.
    split; [reflexivity | apply db_advance].
  - assert (Hv : invalidSession sid (Some sid) = false).
    { unfold invalidSession, isEmpty, optId_eqb.
      rewrite String.eqb_refl. simpl.
      destruct (String.eqb_spec sid ""); [contradiction | reflexivity]. }
    assert (Hs' : findSession sid (db (advance w)) = Some s)
      by (rewrite db_advance; exact Hs).
    set (w2 := advance (advance w)).
    assert (Hdb2 : db w2 = db w) by (unfold w2; rewrite !db_advance; reflexivity).
    assert (He2 : errorFrames w2 = errorFrames w)
      by (unfold w2; rewrite !errorFrames_advance; reflexivity).
    assert (Hrun : exists w3,
               run (handleCustomerEndChat ws sid) w
               = (Ok tt, snd (wsSend ws "chat:ended"
                                (PEnded sid "customer_left") w3))
               /\ db w3 = db w /\ errorFrames w3 = errorFrames w).
    { unfold handleCustomerEndChat.
      rewrite run_try_catch, run_sync_bind.
      rewrite wsData_fst, wsData_snd, Hc, Hsid, Hv.
      rewrite run_bind. unfold getSessionOfConn.
      rewrite run_sync_bind.
      rewrite wsData_fst, wsData_snd, Hc, Htok.
      unfold getSessionByToken. rewrite run_query.
      rewrite run_bind, (run_endChat_terminal (advance w) sid s Hs' Ht).
      fold w2. rewrite run_bind.
      destruct (match option_map (withIncludes (db w))
                        (findSessionByToken tok (db w)) with
                | Some s0 => assignedCsId (fSession s0)
                | None => None
                end) as [u |].
      - destruct (isEmpty u).
        + simpl. eexists; split; [reflexivity |]. split; assumption.
        + rewrite run_sync_bind. simpl.
          eexists; split; [reflexivity |].
          rewrite db_notifyCustomerLeft, errorFrames_notifyCustomerLeft.
          split; assumption.
      - simpl.
        eexists; split; [reflexivity |]. split; assumption. }
    destruct Hrun as (w3 & Hrun & Hdb3 & He3).
    rewrite Hrun; cbn [fst snd].
    rewrite errorFrames_wsSend by reflexivity.
    repeat split; assumption.
Qed.

(** ** Patching rows *)

Lemma find_patchSession (sid sid' : Id) (f : ChatSession -> ChatSession)
    (l : list ChatSession) :
  (forall s, sId (f s) = sId s) ->
  find (fun s => idIs sid (sId s)) (patchSession sid' f l) =
  option_map (fun s => if idIs sid' (sId s) then f s else s)
             (find (fun s => idIs sid (sId s)) l).
Proof.
  intros Hf; induction l as [| s l IH]; simpl; [reflexivity |].
  destruct (idIs sid' (sId s)) eqn:E'.
  - rewrite Hf. destruct (idIs sid (sId s)); simpl; [rewrite E'; reflexivity | exact IH].
  - destruct (idIs sid (sId s)); simpl; [rewrite E'; reflexivity | exact IH].
Qed.

Lemma find_patchCs (uid uid' : Id) (f : CsStatus -> CsStatus)
    (l : list CsStatus) :
  (forall c, userId (f c) = userId c) ->
  find (fun c => idIs uid (userId c)) (patchCs uid' f l) =
  option_map (fun c => if idIs uid' (userId c) then f c else c)
             (find (fun c => idIs uid (userId c)) l).
Proof.
  intros Hf; induction l as [| c l IH]; simpl; [reflexivity |].
  destruct (idIs uid' (userId c)) eqn:E'.
  - rewrite Hf. destruct (idIs uid (userId c)); simpl; [rewrite E'; reflexivity | exact IH].
  - destruct (idIs uid (userId c)); simpl; [rewrite E'; reflexivity | exact IH].
Qed.

Lemma find_idIs_sId (sid : Id) (l : list ChatSession) (s : ChatSession) :
  find (fun s => idIs sid (sId s)) l = Some s -> idIs sid (sId s) = true.
Proof. intros H; apply find_some in H; apply H. Qed.

Lemma find_idIs_userId (uid : Id) (l : list CsStatus) (c : CsStatus) :
  find (fun c => idIs uid (userId c)) l = Some c -> idIs uid (userId c) = true.
Proof. intros H; apply find_some in H; apply H. Qed.

(** ** Assigning a chat *)

Lemma advance_withDb (w : World) (d : Db) :
  advance (withDb w d) = withDb (advance w) d.
Proof.
  unfold advance, withDb; cbn [ticks].
  destruct (ticks w) eqn:E; cbn; rewrite ?E; reflexivity.
Qed.

Lemma withDb_withDb (w : World) (d d' : Db) :
  withDb (withDb w d) d' = withDb w d'.
Proof. reflexivity. Qed.

Lemma run_assignChat (w : World) (sid uid : Id) (s : ChatSession) (c : CsStatus) :
  findSession sid (db w) = Some s ->
  findCsStatus uid (db w) = Some c ->
  run (assignChat sid uid) w
  = (Ok (setAssigned uid (clock w) s,
         option_map csInfoOf (findUser uid (db w))),
     withDb (advance (advance (advance w)))
       (assignedDb sid uid (clock w) (clock (advance (advance (advance w))))
          (joinedName (option_map csInfoOf (findUser uid (db w)))) (db w))).
Proof.
  intros Hs Hc. unfold assignChat.
  rewrite run_sync_bind. cbn [readClock fst snd].
  rewrite run_await_bind.
  unfold updateSession. rewrite db_advance, Hs. cbn [withAssignedCs].
  rewrite run_await_bind.
  unfold updateCs. rewrite advance_withDb.
  change (findCsStatus uid (db (withDb (advance (advance w))
            (setSessions (db w)
               (patchSession sid (setAssigned uid (clock w)) (sessions (db w)))))))
    with (findCsStatus uid (db w)).
  rewrite Hc.
  rewrite run_await_bind. unfold createMessage.
  rewrite withDb_withDb, advance_withDb.
  reflexivity.
Qed.

Lemma errorFrames_patchConn (ws : nat) (g : Conn -> Conn) (w : World) :
  (forall c, filter isErrorFrame (inbox (g c)) = filter isErrorFrame (inbox c)) ->
  errorFrames (patchConn ws g w) = errorFrames w.
Proof.
  intros Hg; unfold patchConn, errorFrames; simpl.
  apply errorFrames_map; intros c.
  destruct (Nat.eqb ws (connId c)); [apply Hg | reflexivity].
Qed.

Lemma inbox_addTopic (t : string) (c : Conn) : inbox (addTopic t c) = inbox c.
Proof. unfold addTopic; destruct (hasTopic t c); reflexivity. Qed.

Lemma errorFrames_notifyChatAssigned (sid uid : Id) (nm : string)
    (av : option string) (w : World) :
  errorFrames (snd (notifyChatAssigned sid uid nm av w)) = errorFrames w.
Proof.
  unfold notifyChatAssigned, andThen, notifyCustomer, notifyCS, notifyQueue.
  rewrite !errorFrames_publish by reflexivity. reflexivity.
Qed.

Lemma db_notifyChatAssigned (sid uid : Id) (nm : string)
    (av : option string) (w : World) :
  db (snd (notifyChatAssigned sid uid nm av w)) = db w.
Proof.
  unfold notifyChatAssigned, andThen, notifyCustomer, notifyCS, notifyQueue.
  rewrite !db_publish. reflexivity.
Qed.

Lemma find_patchConn (ws ws' : nat) (g : Conn -> Conn) (l : list Conn) :
  (forall c, connId (g c) = connId c) ->
  find (fun c => Nat.eqb ws (connId c))
       (map (fun c => if Nat.eqb ws' (connId c) then g c else c) l) =
  option_map (fun c => if Nat.eqb ws' (connId c) then g c else c)
             (find (fun c => Nat.eqb ws (connId c)) l).
Proof.
  intros Hg; induction l as [| c l IH]; simpl; [reflexivity |].
  destruct (Nat.eqb ws' (connId c)) eqn:E'.
  - rewrite Hg. destruct (Nat.eqb ws (connId c)); simpl; [rewrite E'; reflexivity | exact IH].
  - destruct (Nat.eqb ws (connId c)); simpl; [rewrite E'; reflexivity | exact IH].
Qed.

Lemma inboxOf_wsSend (ws : nat) (ev : string) (d : Payload) (w : World) (c : Conn) :
  findConn ws w = Some c ->
  inboxOf ws (snd (wsSend ws ev d w)) = inbox c ++ [mkFrame ev d (clock w)].
Proof.
  intros Hc. unfold inboxOf, findConn, wsSend, patchConn in *. cbn [snd conns withConns].
  rewrite find_patchConn by (intros; reflexivity).
  rewrite Hc. cbn [option_map].
  apply find_some in Hc. destruct Hc as [_ Hc]. rewrite Hc. reflexivity.
Qed.

(** ** Accepting a chat *)

(** The accept of a waiting session by an online agent with spare capacity:
    the handler ends normally, the store has received exactly the three
    writes of [assignChat], and no error frame has been sent. *)
Lemma run_accept_success (w : World) (ws : nat) (conn : Conn) (uid sid : Id)
    (c : CsStatus) (s : ChatSession) :
  findConn ws w = Some conn ->
  wsUserId conn = Some uid ->
  uid <> "" ->
  findCsStatus uid (db w) = Some c ->
  csState c = online ->
  currentChats c < maxChats c ->
  findSession sid (db w) = Some s ->
  status s = waiting ->
  exists w' t0 t1 who,
    run (handleCsAcceptChat ws sid) w = (Ok tt, w')
    /\ db w' = assignedDb sid uid t0 t1 who (db w)
    /\ errorFrames w' = errorFrames w.
Proof.
  intros Hconn Huid Hne Hc Hon Hcap Hs Hw.
  unfold handleCsAcceptChat.
  rewrite run_try_catch, run_sync_bind, wsData_fst, wsData_snd, Hconn, Huid.
  rewrite (isEmpty_false uid Hne).
  unfold getCsStatus. rewrite run_query_bind, Hc, Hon. cbn [CsState_eqb negb].
  destruct (Z.geb_spec (currentChats c) (maxChats c)) as [Hge | _]; [lia |].
  unfold getSessionById. rewrite run_query_bind, db_advance, Hs.
  cbn [option_map withIncludes fSession]. rewrite Hw. cbn [ChatStatus_eqb negb].
  rewrite run_bind.
  rewrite (run_assignChat (advance (advance w)) sid uid s c)
    by (rewrite !db_advance; assumption).
  rewrite run_sync_bind, run_query_bind, run_sync_bind, run_sync.
  do 4 eexists. split; [reflexivity |]. split.
  - rewrite db_wsSend, db_notifyChatAssigned, db_advance.
    unfold subscribeCsToSession. cbn [snd].
    rewrite db_patchConn, db_withDb, !db_advance. reflexivity.
  - rewrite errorFrames_wsSend by reflexivity.
    rewrite errorFrames_notifyChatAssigned, errorFrames_advance.
    unfold subscribeCsToSession. cbn [snd].
    rewrite errorFrames_patchConn
      by (intros c0; rewrite inbox_addTopic; reflexivity).
    rewrite errorFrames_withDb, !errorFrames_advance. reflexivity.
Qed.

Lemma run_accept_no_user (w : World) (ws : nat) (sid : Id) :
  match findConn ws w with
  | Some conn => match wsUserId conn with
                 | Some uid => isEmpty uid
                 | None => true
                 end
  | None => true
  end = true ->
  rejectedWith ws "UNAUTHORIZED" w (run (handleCsAcceptChat ws sid) w).
Proof.
  intros H. unfold handleCsAcceptChat.
  rewrite run_try_catch, run_sync_bind, wsData_fst, wsData_snd.
  destruct (findConn ws w) as [conn |].
  - destruct (wsUserId conn) as [uid |].
    + rewrite H, run_sync.
      do 2 eexists; split; [reflexivity |]. split; reflexivity.
    + rewrite run_sync.
      do 2 eexists; split; [reflexivity |]. split; reflexivity.
  - rewrite run_sync.
    do 2 eexists; split; [reflexivity |]. split; reflexivity.
Qed.

Lemma run_accept_not_online (w : World) (ws : nat) (conn : Conn) (uid sid : Id) :
  findConn ws w = Some conn ->
  wsUserId conn = Some uid ->
  uid <> "" ->
  match findCsStatus uid (db w) with
  | Some c => negb (CsState_eqb (csState c) online)
  | None => true
  end = true ->
  rejectedWith ws "NOT_ONLINE" w (run (handleCsAcceptChat ws sid) w).
Proof.
  intros Hconn Huid Hne H. unfold handleCsAcceptChat.
  rewrite run_try_catch, run_sync_bind, wsData_fst, wsData_snd, Hconn, Huid.
  rewrite (isEmpty_false uid Hne).
  unfold getCsStatus. rewrite run_query_bind.
  destruct (findCsStatus uid (db w)) as [c |].
  - rewrite H, run_sync.
    do 2 eexists; split; [reflexivity |].
    split; [apply db_advance | apply conns_advance].
  - rewrite run_sync.
    do 2 eexists; split; [reflexivity |].
    split; [apply db_advance | apply conns_advance].
Qed.

Lemma run_accept_at_capacity (w : World) (ws : nat) (conn : Conn) (uid sid : Id)
    (c : CsStatus) :
  findConn ws w = Some conn ->
  wsUserId conn = Some uid ->
  uid <> "" ->
  findCsStatus uid (db w) = Some c ->
  csState c = online ->
  maxChats c <= currentChats c ->
  rejectedWith ws "AT_CAPACITY" w (run (handleCsAcceptChat ws sid) w).
Proof.
  intros Hconn Huid Hne Hc Hon Hcap. unfold handleCsAcceptChat.
  rewrite run_try_catch, run_sync_bind, wsData_fst, wsData_snd, Hconn, Huid.
  rewrite (isEmpty_false uid Hne).
  unfold getCsStatus. rewrite run_query_bind, Hc, Hon. cbn [CsState_eqb negb].
  destruct (Z.geb_spec (currentChats c) (maxChats c)) as [_ | Hlt]; [| lia].
  rewrite run_sync.
  do 2 eexists; split; [reflexivity |].
  split; [apply db_advance | apply conns_advance].
Qed.

Lemma run_accept_already_assigned (w : World) (ws : nat) (conn : Conn)
    (uid sid : Id) (c : CsStatus) (s : ChatSession) :
  findConn ws w = Some conn ->
  wsUserId conn = Some uid ->
  uid <> "" ->
  findCsStatus uid (db w) = Some c ->
  csState c = online ->
  currentChats c < maxChats c ->
  findSession sid (db w) = Some s ->
  status s <> waiting ->
  rejectedWith ws "ALREADY_ASSIGNED" w (run (handleCsAcceptChat ws sid) w).
Proof.
  intros Hconn Huid Hne Hc Hon Hcap Hs Hw. unfold handleCsAcceptChat.
  rewrite run_try_catch, run_sync_bind, wsData_fst, wsData_snd, Hconn, Huid.
  rewrite (isEmpty_false uid Hne).
  unfold getCsStatus. rewrite run_query_bind, Hc, Hon. cbn [CsState_eqb negb].
  destruct (Z.geb_spec (currentChats c) (maxChats c)) as [Hge | _]; [lia |].
  unfold getSessionById. rewrite run_query_bind, db_advance, Hs.
  cbn [option_map withIncludes fSession].
  assert (E : ChatStatus_eqb (status s) waiting = false)
    by (destruct (status s); try reflexivity; contradiction).
  rewrite E. cbn [negb]. rewrite run_sync.
  do 2 eexists; split; [reflexivity |].
  split; [rewrite !db_advance | rewrite !conns_advance]; reflexivity.
Qed.

Lemma rejectedWith_db (ws : nat) (code : string) (w : World)
    (r : Res unit * World) :
  rejectedWith ws code w r -> fst r = Ok tt /\ db (snd r) = db w.
Proof.
  intros (msg & w0 & -> & Hdb & _). cbn [fst snd].
  unfold wsSendError. rewrite db_wsSend. split; [reflexivity | exact Hdb].
Qed.

Lemma rejectedWith_inbox (ws : nat) (code : string) (w : World)
    (r : Res unit * World) (conn : Conn) :
  rejectedWith ws code w r ->
  findConn ws w = Some conn ->
  exists msg t,
    inboxOf ws (snd r)
    = inbox conn ++ [mkFrame "system:error" (PError code msg) t].
Proof.
  intros (msg & w0 & -> & _ & Hc) Hconn. cbn [snd].
  exists msg, (clock w0). unfold wsSendError. apply inboxOf_wsSend.
  unfold findConn in *. rewrite Hc. exact Hconn.
Qed.

Lemma sId_setAssigned (uid : Id) (t : Z) (s : ChatSession) :
  sId (setAssigned uid t s) = sId s.
Proof. reflexivity. Qed.

Lemma userId_addChats (n : Z) (c : CsStatus) : userId (addChats n c) = userId c.
Proof. reflexivity. Qed.

Lemma findSession_assignedDb (sid uid : Id) (t0 t1 : Z) (who : string)
    (d : Db) (s : ChatSession) :
  findSession sid d = Some s ->
  findSession sid (assignedDb sid uid t0 t1 who d) = Some (setAssigned uid t0 s).
Proof.
  intros Hs. unfold findSession, assignedDb in *. cbn [sessions].
  rewrite find_patchSession by (intros; reflexivity).
  rewrite Hs. cbn [option_map].
  rewrite (find_idIs_sId _ _ _ Hs). reflexivity.
Qed.

Lemma findCsStatus_assignedDb (sid uid u : Id) (t0 t1 : Z) (who : string)
    (d : Db) :
  findCsStatus u (assignedDb sid uid t0 t1 who d) =
  option_map (fun c => if idIs uid (userId c) then addChats 1 c else c)
             (findCsStatus u d).
Proof.
  unfold findCsStatus, assignedDb. cbn [csStatuses].
  apply find_patchCs. intros; reflexivity.
Qed.

(** Every accept of a session that is not waiting is refused: one error
    frame on the requesting socket, nothing else. *)
Lemma run_accept_refused (w : World) (ws : nat) (sid : Id) (s : ChatSession) :
  findSession sid (db w) = Some s ->
  status s <> waiting ->
  exists code, rejectedWith ws code w (run (handleCsAcceptChat ws sid) w).
Proof.
  intros Hs Hw.
  destruct (findConn ws w) as [conn |] eqn:Econn;
    [| exists "UNAUTHORIZED"; apply run_accept_no_user;
       rewrite Econn; reflexivity].
  destruct (wsUserId conn) as [uid |] eqn:Eu;
    [| exists "UNAUTHORIZED"; apply run_accept_no_user;
       rewrite Econn, Eu; reflexivity].
  destruct (isEmpty uid) eqn:Ee;
    [exists "UNAUTHORIZED"; apply run_accept_no_user;
     rewrite Econn, Eu; exact Ee |].
  assert (Hne : uid <> "") by (intros E; rewrite E in Ee; discriminate Ee).
  destruct (findCsStatus uid (db w)) as [c |] eqn:Ec.
  - destruct (CsState_eqb (csState c) online) eqn:Eon.
    + assert (Hon : csState c = online)
        by (destruct (csState c); try discriminate; reflexivity).
      destruct (Z_lt_le_dec (currentChats c) (maxChats c)) as [Hlt | Hge].
      * exists "ALREADY_ASSIGNED".
        eapply run_accept_already_assigned; eassumption.
      * exists "AT_CAPACITY".
        eapply run_accept_at_capacity; eassumption.
    + exists "NOT_ONLINE".
      eapply run_accept_not_online; try eassumption.
      rewrite Ec, Eon. reflexivity.
  - exists "NOT_ONLINE".
    eapply run_accept_not_online; try eassumption.
    rewrite Ec. reflexivity.
Qed.

(** X28.  When accept requests are handled one after the other, the accept
    of a waiting session by an online agent with spare capacity succeeds:
    the session row keeps its customer data and becomes active, with
    [assignedCsId] that agent and [assignedAt] a time not before the call;
    the agent's [currentChats] grows by one with the rest of its row kept;
    no other agent's row changes and no error frame is sent.  Every accept
    of the same session handled after it is refused: the handler ends
    normally, the store is unchanged and the requesting socket gets exactly
    one more frame, a [system:error]; its code is [ALREADY_ASSIGNED] when
    the requesting agent is online with spare capacity. *)
Theorem accept_exclusive_when_sequential
    (w : World) (ws : nat) (conn : Conn) (uid sid : Id)
    (c : CsStatus) (s : ChatSession) :
  findConn ws w = Some conn ->
  wsUserId conn = Some uid ->
  uid <> "" ->
  findCsStatus uid (db w) = Some c ->
  csState c = online ->
  currentChats c < maxChats c ->
  findSession sid (db w) = Some s ->
  status s = waiting ->
  exists w1,
    run (handleCsAcceptChat ws sid) w = (Ok tt, w1)
    /\ (exists t,
          clock w <= t
          /\ findSession sid (db w1)
             = Some (mkSession (sId s) (customerName s) (customerEmail s)
                               (customerToken s) active (Some uid)
                               (sCreatedAt s) (Some t) (resolvedAt s)
                               (rating s) (feedback s)))
    /\ findCsStatus uid (db w1)
       = Some (mkCsStatus (userId c) (csState c) (maxChats c)
                          (currentChats c + 1) (lastActiveAt c))
    /\ (forall u, u <> uid -> findCsStatus u (db w1) = findCsStatus u (db w))
    /\ errorFrames w1 = errorFrames w
    /\ forall ws2 conn2,
         findConn ws2 w1 = Some conn2 ->
         let r2 := run (handleCsAcceptChat ws2 sid) w1 in
         fst r2 = Ok tt
         /\ db (snd r2) = db w1
         /\ exists code msg t,
              inboxOf ws2 (snd r2)
              = inbox conn2 ++ [mkFrame "system:error" (PError code msg) t]
              /\ forall uid2 c2,
                   wsUserId conn2 = Some uid2 ->
                   uid2 <> "" ->
                   findCsStatus uid2 (db w1) = Some c2 ->
                   csState c2 = online ->
                   currentChats c2 < maxChats c2 ->
                   code = "ALREADY_ASSIGNED".
Proof.
  intros Hconn Huid Hne Hc Hon Hcap Hs Hw.
  assert (Hacc : exists w1 t0 t1 who,
             run (handleCsAcceptChat ws sid) w = (Ok tt, w1)
             /\ db w1 = assignedDb sid uid t0 t1 who (db w)
             /\ errorFrames w1 = errorFrames w
             /\ clock w <= t0).
  { unfold handleCsAcceptChat.
    rewrite run_try_catch, run_sync_bind, wsData_fst, wsData_snd, Hconn, Huid.
    rewrite (isEmpty_false uid Hne).
    unfold getCsStatus. rewrite run_query_bind, Hc, Hon. cbn [CsState_eqb negb].
    destruct (Z.geb_spec (currentChats c) (maxChats c)) as [Hge | _]; [lia |].
    unfold getSessionById. rewrite run_query_bind, db_advance, Hs.
    cbn [option_map withIncludes fSession]. rewrite Hw. cbn [ChatStatus_eqb negb].
    rewrite run_bind.
    rewrite (run_assignChat (advance (advance w)) sid uid s c)
      by (rewrite !db_advance; assumption).
    rewrite run_sync_bind, run_query_bind, run_sync_bind, run_sync.
    do 4 eexists. split; [reflexivity |]. split; [| split].
    - rewrite db_wsSend, db_notifyChatAssigned, db_advance.
      unfold subscribeCsToSession. cbn [snd].
      rewrite db_patchConn, db_withDb, !db_advance. reflexivity.
    - rewrite errorFrames_wsSend by reflexivity.
      rewrite errorFrames_notifyChatAssigned, errorFrames_advance.
      unfold subscribeCsToSession. cbn [snd].
      rewrite errorFrames_patchConn
        by (intros c0; rewrite inbox_addTopic; reflexivity).
      rewrite errorFrames_withDb, !errorFrames_advance. reflexivity.
    - clock_mono. }
  destruct Hacc as (w1 & t0 & t1 & who & Hrun & Hdb & Herr & Ht0).
  assert (Hs1 : findSession sid (db w1) = Some (setAssigned uid t0 s))
    by (rewrite Hdb; apply findSession_assignedDb; exact Hs).
  exists w1. split; [exact Hrun |].
  split; [exists t0; split; [exact Ht0 | exact Hs1] |].
  split.
  { rewrite Hdb, findCsStatus_assignedDb, Hc. cbn [option_map].
    unfold findCsStatus in Hc. rewrite (find_idIs_userId _ _ _ Hc). reflexivity. }
  split.
  { intros u Hu. rewrite Hdb, findCsStatus_assignedDb.
    destruct (findCsStatus u (db w)) as [c' |] eqn:Ec'; [| reflexivity].
    cbn [option_map]. unfold findCsStatus in Ec'.
    pose proof (find_idIs_userId _ _ _ Ec') as Hid. unfold idIs in *.
    apply String.eqb_eq in Hid. subst u.
    destruct (String.eqb_spec uid (userId c')) as [E | _];
      [symmetry in E; contradiction | reflexivity]. }
  split; [exact Herr |].
  intros ws2 conn2 Hconn2 r2. subst r2.
  assert (Hst : status (setAssigned uid t0 s) <> waiting) by discriminate.
  destruct (run_accept_refused w1 ws2 sid _ Hs1 Hst) as [code Hrej].
  destruct (rejectedWith_db _ _ _ _ Hrej) as [Hok Hdb2].
  destruct (rejectedWith_inbox _ _ _ _ conn2 Hrej Hconn2) as (msg & t & Hin).
  split; [exact Hok |]. split; [exact Hdb2 |].
  exists code, msg, t. split; [exact Hin |].
  intros uid2 c2 H2 Hne2 H3 H4 H5.
  pose proof (run_accept_already_assigned w1 ws2 conn2 uid2 sid c2 _
                Hconn2 H2 Hne2 H3 H4 H5 Hs1 Hst) as Hrej2.
  destruct (rejectedWith_inbox _ _ _ _ conn2 Hrej2 Hconn2) as (msg2 & t2 & Hin2).
  rewrite Hin in Hin2. apply app_inj_tail in Hin2.
  destruct Hin2 as [_ Hf]. injection Hf as E _ _. exact E.
Qed.
Lemma accept_exclusive_when_sequential_witness :
  exists w1,
    run (handleCsAcceptChat 1 "ada") Scenario.raceWorld = (Ok tt, w1)
    /\ chatsOf "A1" w1 = Some 1
    /\ chatsOf "A2" w1 = Some 0
    /\ db (snd (run (handleCsAcceptChat 2 "ada") w1)) = db w1.
Proof.
  destruct (accept_exclusive_when_sequential
              Scenario.raceWorld 1 (Scenario.csSocket 1 "A1") "A1" "ada"
              (mkCsStatus "A1" online 1 0 10) Scenario.ada)
    as (w1 & Hrun & _ & Hcs & Hother & _ & Hnext).
  - reflexivity.
  - reflexivity.
  - discriminate.
  - reflexivity.
  - reflexivity.
  - reflexivity.
  - reflexivity.
  - reflexivity.
  - exists w1. split; [exact Hrun |].
    split; [unfold chatsOf; rewrite Hcs; reflexivity |].
    split; [unfold chatsOf; rewrite (Hother "A2"); [reflexivity | discriminate] |].
    assert (Hw1 : w1 = snd (run (handleCsAcceptChat 1 "ada") Scenario.raceWorld))
      by (rewrite Hrun; reflexivity).
    destruct (findConn 2 w1) as [conn2 |] eqn:E2.
    + exact (proj1 (proj2 (Hnext 2%nat conn2 E2))).
    + exfalso. rewrite Hw1 in E2. vm_compute in E2. discriminate E2.
Defined.

(** C1.  The accept handler guards on the session status and answers
    [ALREADY_ASSIGNED] to a late accept, but two accepts whose store
    operations interleave both pass the guard.  Run one after the other, the
    second accept of A2 is refused: its socket gets [ALREADY_ASSIGNED] and
    its counter stays 0.  Under the schedule in which A1 and A2 both read
    the session while it is waiting and then write, both handlers end
    normally, both sockets receive [chat:accepted], no error frame is sent,
    both counters become 1, and the session is active and assigned to A2
    alone: A1 is charged a chat it does not serve. *)
Theorem accept_race_both_commit :
  let seq := snd (run (handleCsAcceptChat 2 "ada")
                    (snd (run (handleCsAcceptChat 1 "ada") Scenario.raceWorld))) in
  let '(p, q, w) :=
    race Scenario.raceSchedule
         (handleCsAcceptChat 1 "ada") (handleCsAcceptChat 2 "ada")
         Scenario.raceWorld in
  (map data (filter isErrorFrame (inboxOf 2 seq))
   = [PError "ALREADY_ASSIGNED" "Chat sudah ditangani CS lain"]
   /\ chatsOf "A1" seq = Some 1 /\ chatsOf "A2" seq = Some 0
   /\ option_map assignedCsId (findSession "ada" (db seq)) = Some (Some "A1"))
  /\ p = Ret tt /\ q = Ret tt
  /\ errorFrames w = []
  /\ filter (String.eqb "chat:accepted") (eventsOf 1 w) = ["chat:accepted"]
  /\ filter (String.eqb "chat:accepted") (eventsOf 2 w) = ["chat:accepted"]
  /\ chatsOf "A1" w = Some 1
  /\ chatsOf "A2" w = Some 1
  /\ option_map status (findSession "ada" (db w)) = Some active
  /\ option_map assignedCsId (findSession "ada" (db w)) = Some (Some "A2")
  /\ activeChatsOf "A1" (db w) = 0
  /\ activeChatsOf "A2" (db w) = 1.
Proof. vm_compute. repeat split; reflexivity. Qed.

(** ** Capacity *)

(** C9 (amended).  An agent whose [currentChats] has reached [maxChats], or
    that is not online, is refused before the session is read: the handler
    ends normally, the store is unchanged (neither the counter nor the
    session changes), and its socket receives exactly one more frame, a
    [system:error] whose code is [NOT_ONLINE] when the agent is not online,
    whatever its load, and [AT_CAPACITY] when it is online. *)
Theorem accept_at_capacity_refused
    (w : World) (ws : nat) (conn : Conn) (uid sid : Id) (c : CsStatus) :
  findConn ws w = Some conn ->
  wsUserId conn = Some uid ->
  uid <> "" ->
  findCsStatus uid (db w) = Some c ->
  csState c <> online \/ maxChats c <= currentChats c ->
  let r := run (handleCsAcceptChat ws sid) w in
  fst r = Ok tt
  /\ db (snd r) = db w
  /\ exists t,
       inboxOf ws (snd r) =
       inbox conn ++
       [mkFrame "system:error"
          (match csState c with
           | online =>
               PError "AT_CAPACITY" "Anda sudah mencapai batas chat maksimal"
           | _ =>
               PError "NOT_ONLINE" "Anda harus online untuk menerima chat"
           end) t].
Proof.
  intros Hconn Huid Hne Hc H r. subst r.
  unfold handleCsAcceptChat.
  rewrite run_try_catch, run_sync_bind, wsData_fst, wsData_snd, Hconn, Huid.
  rewrite (isEmpty_false uid Hne).
  unfold getCsStatus. rewrite run_query_bind, Hc.
  assert (Hsend : forall code msg,
            let r := match run (sync (wsSendError ws code msg)) (advance w) with
                     | (Ok a, w') => (Ok a, w')
                     | (Thrown, w') =>
                         run (serverError ws "Terjadi kesalahan server") w'
                     end in
            fst r = Ok tt
            /\ db (snd r) = db w
            /\ exists t,
                 inboxOf ws (snd r)
                 = inbox conn ++ [mkFrame "system:error" (PError code msg) t]).
  { intros code msg. cbv zeta. rewrite run_sync. cbn [fst snd].
    split; [reflexivity |]. split.
    - unfold wsSendError. rewrite db_wsSend. apply db_advance.
    - eexists. unfold wsSendError.
      apply inboxOf_wsSend. rewrite findConn_advance. exact Hconn. }
  destruct (csState c) eqn:Est; cbn [CsState_eqb negb].
  - destruct H as [H | H]; [contradiction |].
    destruct (Z.geb_spec (currentChats c) (maxChats c)) as [_ | Hlt]; [| lia].
    apply Hsend.
  - apply Hsend.
  - apply Hsend.
Qed.

Lemma accept_at_capacity_refused_witness :
  let r := run (handleCsAcceptChat 1 "ada") Scenario.onlineFullWorld in
  fst r = Ok tt
  /\ db (snd r) = db Scenario.onlineFullWorld
  /\ exists t,
       inboxOf 1 (snd r) =
       inbox (Scenario.csSocket 1 "A1") ++
       [mkFrame "system:error"
          (PError "AT_CAPACITY" "Anda sudah mencapai batas chat maksimal") t].
Proof.
  apply (accept_at_capacity_refused
           Scenario.onlineFullWorld 1 (Scenario.csSocket 1 "A1") "A1" "ada"
           (mkCsStatus "A1" online 1 1 10)).
  - reflexivity.
  - reflexivity.
  - discriminate.
  - reflexivity.
  - right. simpl; lia.
Defined.

(** C9 (counterexample).  Agent A1 has [currentChats = maxChats] but is busy:
    its accept is refused with [NOT_ONLINE], not [AT_CAPACITY]. *)
Lemma accept_at_capacity_while_busy :
  option_map (fun c => Z.eqb (currentChats c) (maxChats c))
             (findCsStatus "A1" (db Scenario.busyFullWorld)) = Some true
  /\ map data (inboxOf 1 (snd (run (handleCsAcceptChat 1 "ada")
                                    Scenario.busyFullWorld)))
     = [PError "NOT_ONLINE" "Anda harus online untuk menerima chat"].
Proof. vm_compute. split; reflexivity. Qed.

(** ** Resolving twice *)

(** C2.  After an accept and two resolves of the same chat by the same
    agent, run one after the other, the agent's [currentChats] is [-1]: it is
    below zero and differs from the number of active sessions assigned to
    the agent, which is [0]. *)
Theorem double_resolve_breaks_capacity_invariant :
  let w1 := snd (run (handleCsAcceptChat 1 "ada") Scenario.raceWorld) in
  let w2 := snd (run (handleCsResolveChat 1 "ada") w1) in
  let w3 := snd (run (handleCsResolveChat 1 "ada") w2) in
  (chatsOf "A1" w1 = Some 1 /\ activeChatsOf "A1" (db w1) = 1)
  /\ (chatsOf "A1" w2 = Some 0 /\ activeChatsOf "A1" (db w2) = 0)
  /\ (chatsOf "A1" w3 = Some (-1) /\ activeChatsOf "A1" (db w3) = 0).
Proof. vm_compute. repeat split; reflexivity. Qed.

(** C3.  A second [resolveChat] by the same agent on a session it has
    already resolved is accepted: it returns the updated session, the
    handler answers [chat:resolved] and sends no error frame, [resolvedAt]
    is overwritten with a later time, a second "Chat has been resolved"
    message is appended, and the agent's [currentChats] is decremented
    again. *)
Theorem duplicate_resolve_is_accepted :
  let w2 := Scenario.resolvedWorld in
  let r := run (resolveChat "ada" "A1") w2 in
  let w3 := snd (run (handleCsResolveChat 1 "ada") w2) in
  option_map status (findSession "ada" (db w2)) = Some resolved
  /\ (exists s', fst r = Ok (Some s'))
  /\ errorFrames w3 = []
  /\ eventsOf 1 w3 = eventsOf 1 w2 ++ ["chat:resolved"; "chat:resolved"]
  /\ option_map resolvedAt (findSession "ada" (db w2)) = Some (Some 5007)
  /\ option_map resolvedAt (findSession "ada" (db w3)) = Some (Some 5013)
  /\ List.length (messages (db w3)) = S (List.length (messages (db w2)))
  /\ chatsOf "A1" w2 = Some 0
  /\ chatsOf "A1" w3 = Some (-1).
Proof.
  vm_compute. repeat split; try reflexivity. eexists; reflexivity.
Qed.

(** ** Ordered queries *)

Section Ordering.

Context {A : Type}.
Variable key : A -> Z.

Let le_key (x y : A) : Prop := key x <= key y.

Lemma insertBy_perm (x : A) (l : list A) : Permutation (x :: l) (insertBy key x l).
Proof.
  induction l as [| y l IH]; simpl; [apply Permutation_refl |].
  destruct (key x <=? key y); [apply Permutation_refl |].
  eapply perm_trans; [apply perm_swap | apply perm_skip; exact IH].
Qed.

Lemma sortBy_perm (l : list A) : Permutation l (sortBy key l).
Proof.
  induction l as [| x l IH]; simpl; [apply perm_nil |].
  eapply perm_trans; [apply perm_skip; exact IH | apply insertBy_perm].
Qed.

Lemma sortBy_In (x : A) (l : list A) : In x (sortBy key l) <-> In x l.
Proof.
  split; intros H.
  - eapply Permutation_in; [apply Permutation_sym, sortBy_perm | exact H].
  - eapply Permutation_in; [apply sortBy_perm | exact H].
Qed.

Lemma insertBy_sorted (x : A) (l : list A) :
  StronglySorted le_key l -> StronglySorted le_key (insertBy key x l).
Proof.
  induction 1 as [| y l Hl IH Hy]; simpl.
  - constructor; constructor.
  - destruct (Z.leb_spec (key x) (key y)) as [Hxy | Hyx].
    + constructor; [constructor; assumption |].
      constructor; [exact Hxy |].
      eapply Forall_impl; [| exact Hy].
      intros z Hz; unfold le_key in *; lia.
    + constructor; [exact IH |].
      eapply Permutation_Forall; [apply insertBy_perm |].
      constructor; [unfold le_key; lia | exact Hy].
Qed.

Lemma sortBy_sorted (l : list A) : StronglySorted le_key (sortBy key l).
Proof.
  induction l as [| x l IH]; simpl; [constructor | apply insertBy_sorted, IH].
Qed.

Lemma filter_sorted (p : A -> bool) (l : list A) :
  StronglySorted le_key l -> StronglySorted le_key (filter p l).
Proof.
  induction 1 as [| y l Hl IH Hy]; simpl; [constructor |].
  destruct (p y); [| exact IH].
  constructor; [exact IH |].
  apply Forall_forall; intros z Hz.
  apply filter_In in Hz. rewrite Forall_forall in Hy. apply Hy, Hz.
Qed.

(** The first row of a filtered ordered query has the least key among the
    rows that pass the filter. *)
Lemma first_of_sorted_filter (p : A -> bool) (l rest : list A) (x y : A) :
  filter p (sortBy key l) = x :: rest ->
  In y l -> p y = true -> key x <= key y.
Proof.
  intros Hf Hy Hp.
  pose proof (filter_sorted p _ (sortBy_sorted l)) as Hs.
  rewrite Hf in Hs.
  assert (Hin : In y (x :: rest)).
  { rewrite <- Hf. apply filter_In. split; [apply sortBy_In; exact Hy | exact Hp]. }
  destruct Hin as [<- | Hin]; [lia |].
  apply StronglySorted_inv in Hs. destruct Hs as [_ Hall].
  rewrite Forall_forall in Hall. apply Hall, Hin.
Qed.



End Ordering.

(** ** Reconnection *)

Lemma findConn_patchConn (ws : nat) (g : Conn -> Conn) (w : World) (c : Conn) :
  (forall c, connId (g c) = connId c) ->
  findConn ws w = Some c ->
  findConn ws (patchConn ws g w) = Some (g c).
Proof.
  intros Hg Hc. unfold findConn, patchConn in *. cbn [conns withConns].
  rewrite find_patchConn by exact Hg.
  rewrite Hc. cbn [option_map].
  apply find_some in Hc. destruct Hc as [_ Hc]. rewrite Hc. reflexivity.
Qed.

Lemma connId_addTopic (t : string) (c : Conn) : connId (addTopic t c) = connId c.
Proof. unfold addTopic; destruct (hasTopic t c); reflexivity. Qed.



Lemma endChat_terminal_is_noop_witness :
  (fst (run (endChat "ada") Scenario.closedWorld)
   = Ok (findSession "ada" (db Scenario.closedWorld))
   /\ db (snd (run (endChat "ada") Scenario.closedWorld))
      = db Scenario.closedWorld)
  /\ errorFrames (snd (run (handleCustomerEndChat 3 "ada") Scenario.closedWorld))
     = errorFrames Scenario.closedWorld.
Proof.
  destruct (endChat_terminal_is_noop
              Scenario.closedWorld 3 Scenario.adaSocket "cust_ada" "ada"
              (setClosed resolved 7000 (setAssigned "A1" 5002 Scenario.ada)))
    as [[H1 H2] (_ & _ & H3)].
  - vm_compute; reflexivity.
  - reflexivity.
  - vm_compute; reflexivity.
  - reflexivity.
  - reflexivity.
  - discriminate.
  - split; [split; [exact H1 | exact H2] | exact H3].
Defined.

(** ** Closing a chat *)

Lemma clock_withDb (w : World) (d : Db) : clock (withDb w d) = clock w.
Proof. reflexivity. Qed.

Lemma sId_setClosed (st : ChatStatus) (t : Z) (s : ChatSession) :
  sId (setClosed st t s) = sId s.
Proof. reflexivity. Qed.

Lemma run_sendMessage_terminal (w : World) (sid : Id) (s : ChatSession)
    (st : SenderType) (text : string) (sender : option Id) (mt : MessageType) :
  findSession sid (db w) = Some s ->
  isTerminal (status s) = true ->
  run (sendMessage sid st text sender mt) w
  = (Ok (mkSend false "Chat has ended" None), advance w).
Proof.
  intros Hs Ht. unfold sendMessage.
  rewrite run_try_catch, run_query_bind, Hs.
  unfold isTerminal in Ht. rewrite Ht. reflexivity.
Qed.

(** [resolveChat] by the agent recorded in [assignedCsId], whatever the
    status of the session. *)
Lemma run_resolveChat_owner (w : World) (sid uid : Id) (s : ChatSession)
    (c : CsStatus) :
  findSession sid (db w) = Some s ->
  assignedCsId s = Some uid ->
  findCsStatus uid (db w) = Some c ->
  let w1 := advance w in
  let w4 := advance (advance (advance w1)) in
  run (resolveChat sid uid) w
  = (Ok (Some (setClosed resolved (clock w1) s)),
     withDb (advance w4)
       (mkDb (patchSession sid (setClosed resolved (clock w1)) (sessions (db w)))
             (messages (db w) ++
              [mkMessage (List.length (messages (db w))) sid sender_system None
                         "Chat has been resolved" mt_system false (clock w4)])
             (patchCs uid (addChats (-1)) (csStatuses (db w)))
             (users (db w))
             (activityLogs (db w) ++ [mkLog uid "chat_resolved" sid]))).
Proof.
  intros Hs Ha Hc w1 w4. subst w1 w4. unfold resolveChat.
  rewrite run_query_bind, Hs, Ha.
  unfold optId_eqb. rewrite String.eqb_refl. cbn [negb].
  rewrite run_sync_bind. cbn [readClock fst snd].
  rewrite run_await_bind. unfold updateSession. rewrite !db_advance, Hs.
  rewrite run_await_bind. unfold updateCs. rewrite advance_withDb, db_withDb.
  unfold findCsStatus in *. cbn [setSessions csStatuses]. rewrite Hc.
  rewrite run_await_bind. unfold createMessage.
  rewrite withDb_withDb, advance_withDb.
  rewrite run_await_bind. unfold createLog.
  rewrite withDb_withDb, advance_withDb.
  reflexivity.
Qed.

(** [endChat] on a session that is still waiting or active. *)
Lemma run_endChat_open (w : World) (sid : Id) (s : ChatSession) :
  findSession sid (db w) = Some s ->
  isOpen (status s) = true ->
  (forall u, assignedCsId s = Some u -> u <> "" ->
             findCsStatus u (db w) <> None) ->
  let w1 := advance w in
  exists w3,
    clock w1 <= clock w3
    /\ run (endChat sid) w
       = (Ok (Some (setClosed abandoned (clock w1) s)),
          withDb w3
            (mkDb (patchSession sid (setClosed abandoned (clock w1))
                     (sessions (db w)))
                  (messages (db w) ++
                   [mkMessage (List.length (messages (db w))) sid sender_system
                              None "Customer has left the chat" mt_system false
                              (clock w3)])
                  (match assignedCsId s with
                   | Some u =>
                       if isEmpty u then csStatuses (db w)
                       else patchCs u (addChats (-1)) (csStatuses (db w))
                   | None => csStatuses (db w)
                   end)
                  (users (db w)) (activityLogs (db w)))).
Proof.
  intros Hs Ho Hcs w1. subst w1. unfold endChat.
  rewrite run_query_bind, Hs, Ho.
  rewrite run_sync_bind. cbn [readClock fst snd].
  rewrite run_await_bind. unfold updateSession. rewrite !db_advance, Hs.
  rewrite run_bind.
  destruct (assignedCsId s) as [u |] eqn:Ea.
  - destruct (isEmpty u) eqn:Ee.
    + cbn [run].
      rewrite run_await_bind. unfold createMessage.
      rewrite advance_withDb.
      eexists. split; [| reflexivity].
      rewrite clock_withDb. clock_mono.
    + destruct (findCsStatus u (db w)) as [c |] eqn:Ec;
        [| exfalso; apply (Hcs u eq_refl);
           [intros E; rewrite E in Ee; discriminate Ee | exact Ec]].
      rewrite run_await_bind. unfold updateCs. rewrite advance_withDb, db_withDb.
      unfold findCsStatus in *. cbn [setSessions csStatuses]. rewrite Ec.
      cbn [run].
      rewrite run_await_bind. unfold createMessage.
      rewrite withDb_withDb, advance_withDb.
      eexists. split; [| reflexivity].
      rewrite clock_withDb. clock_mono.
  - cbn [run].
    rewrite run_await_bind. unfold createMessage.
    rewrite advance_withDb.
    eexists. split; [| reflexivity].
    rewrite clock_withDb. clock_mono.
Qed.

(** C4 (amended).  For a stored session: (a) once it is resolved or
    abandoned, [sendMessage] refuses the append with "Chat has ended" and
    writes nothing; (b) a resolve by the assigned agent and (c) a customer
    end-chat on an open session close the session with a [resolvedAt] that
    is not earlier than the clock at the call, and append the system message
    of the transition in a later store write, whose [createdAt] is at or
    after [resolvedAt]. *)
Theorem closing_times_and_append_guard
    (w : World) (sid : Id) (s : ChatSession) :
  findSession sid (db w) = Some s ->
  (isTerminal (status s) = true ->
   forall st text sender mt,
     fst (run (sendMessage sid st text sender mt) w)
     = Ok (mkSend false "Chat has ended" None)
     /\ db (snd (run (sendMessage sid st text sender mt) w)) = db w)
  /\ (forall uid c,
        assignedCsId s = Some uid ->
        findCsStatus uid (db w) = Some c ->
        exists s' m w' t,
          run (resolveChat sid uid) w = (Ok (Some s'), w')
          /\ findSession sid (db w') = Some s'
          /\ status s' = resolved
          /\ messages (db w') = messages (db w) ++ [m]
          /\ mSessionId m = sid /\ senderType m = sender_system
          /\ resolvedAt s' = Some t
          /\ clock w <= t /\ t <= mCreatedAt m)
  /\ (isOpen (status s) = true ->
      (forall u, assignedCsId s = Some u -> findCsStatus u (db w) <> None) ->
      exists s' m w' t,
        run (endChat sid) w = (Ok (Some s'), w')
        /\ findSession sid (db w') = Some s'
        /\ status s' = abandoned
        /\ messages (db w') = messages (db w) ++ [m]
        /\ mSessionId m = sid /\ senderType m = sender_system
        /\ resolvedAt s' = Some t
        /\ clock w <= t /\ t <= mCreatedAt m).
Proof.
  intros Hs. split; [| split].
  - intros Ht st text sender mt.
    rewrite (run_sendMessage_terminal w sid s st text sender mt Hs Ht).
    split; [reflexivity | apply db_advance].
  - intros uid c Ha Hc.
    pose proof (run_resolveChat_owner w sid uid s c Hs Ha Hc) as Hrun.
    cbv zeta in Hrun.
    do 4 eexists. split; [exact Hrun |].
    rewrite db_withDb.
    split.
    { unfold findSession in *. cbn [sessions].
      rewrite find_patchSession by (intros; reflexivity).
      rewrite Hs. cbn [option_map].
      rewrite (find_idIs_sId _ _ _ Hs). reflexivity. }
    split; [reflexivity |]. split; [reflexivity |].
    split; [reflexivity |]. split; [reflexivity |].
    split; [reflexivity |]. cbn [mCreatedAt].
    split; clock_mono.
  - intros Ho Hcs.
    destruct (run_endChat_open w sid s Hs Ho (fun u H _ => Hcs u H))
      as (w3 & Hle & Hrun).
    do 4 eexists. split; [exact Hrun |].
    rewrite db_withDb.
    split.
    { unfold findSession in *. cbn [sessions].
      rewrite find_patchSession by (intros; reflexivity).
      rewrite Hs. cbn [option_map].
      rewrite (find_idIs_sId _ _ _ Hs). reflexivity. }
    split; [reflexivity |]. split; [reflexivity |].
    split; [reflexivity |]. split; [reflexivity |].
    split; [reflexivity |]. cbn [mCreatedAt].
    split; [apply clock_advance | exact Hle].
Qed.

Lemma closing_times_and_append_guard_witness :
  (fst (run (sendMessage "ada" sender_customer "hello" None mt_text)
            Scenario.closedWorld)
   = Ok (mkSend false "Chat has ended" None))
  /\ exists s' w',
       run (resolveChat "ada" "A1") Scenario.activeWorld = (Ok (Some s'), w')
       /\ status s' = resolved.
Proof.
  split.
  - destruct (closing_times_and_append_guard
                Scenario.closedWorld "ada"
                (setClosed resolved 7000 (setAssigned "A1" 5002 Scenario.ada)))
      as (Ha & _ & _); [vm_compute; reflexivity |].
    exact (proj1 (Ha eq_refl sender_customer "hello" None mt_text)).
  - destruct (closing_times_and_append_guard
                Scenario.activeWorld "ada" (setAssigned "A1" 5002 Scenario.ada))
      as (_ & Hb & _); [vm_compute; reflexivity |].
    destruct (Hb "A1" (mkCsStatus "A1" online 1 1 10) eq_refl)
      as (s' & m & w' & t & Hrun & _ & Hst & _);
      [vm_compute; reflexivity |].
    exists s', w'. split; assumption.
Defined.

(** C4 (counterexample).  A1 resolves Ada's chat while the clock advances by
    one millisecond at each await: the session is resolved with
    [resolvedAt = 6001] and its transcript ends with the system message
    "Chat has been resolved", whose [createdAt] is [6004]. *)
Lemma resolve_message_after_resolvedAt :
  let w' := snd (run (resolveChat "ada" "A1") Scenario.activeWorld) in
  option_map status (findSession "ada" (db w')) = Some resolved
  /\ option_map resolvedAt (findSession "ada" (db w')) = Some (Some 6001)
  /\ map (fun m => (content m, mCreatedAt m)) (sessionMessages "ada" (db w'))
     = [("Chat started. Waiting for customer service...", 1000);
        ("Agent One has joined the chat", 5005);
        ("Chat has been resolved", 6004)]
  /\ 6001 < 6004.
Proof. vm_compute. repeat split; reflexivity. Qed.

(** ** Auto-assignment *)

Lemma in_onlineCs (d : Db) (u : User) (c : CsStatus) :
  In (u, c) (onlineCs d) <->
  In u (users d) /\ role u = role_cs /\ isActive u = true
  /\ findCsStatus (uId u) d = Some c /\ csState c = online.
Proof.
  unfold onlineCs. rewrite sortBy_In, in_flat_map. split.
  - intros (u' & Hin & Hu).
    destruct (role u') eqn:Er; [destruct Hu |].
    destruct (isActive u') eqn:Ea; [| destruct Hu].
    destruct (findCsStatus (uId u') d) as [c' |] eqn:Ec; [| destruct Hu].
    destruct (CsState_eqb (csState c') online) eqn:Eo; [| destruct Hu].
    destruct Hu as [Hu | []]. inversion Hu; subst u' c'.
    repeat split; try assumption.
    destruct (csState c); try discriminate; reflexivity.
  - intros (Hin & Hr & Ha & Hc & Ho).
    exists u. split; [exact Hin |].
    rewrite Hr, Ha, Hc, Ho. left; reflexivity.
Qed.

Lemma hasCapacity_true (u : User) (c : CsStatus) :
  hasCapacity (u, c) = true <-> currentChats c < maxChats c.
Proof. unfold hasCapacity; cbn [snd]. apply Z.ltb_lt. Qed.

(** C5 (counterexample).  A1 and A2 are both available with no chat; A2 has
    the earlier [lastActiveAt] (10 against 20), yet the dispatcher assigns
    Ada to A1.  With the two [lastActiveAt] values exchanged it assigns her
    to A1 as well. *)
Lemma autoAssign_ignores_lastActiveAt :
  map (fun c => (userId c, currentChats c, lastActiveAt c))
      (csStatuses (db Scenario.tieWorld))
  = [("A1", 0, 20); ("A2", 0, 10)]
  /\ match fst (run (autoAssignChat "ada") Scenario.tieWorld) with
     | Ok (Some a) => ciId (snd a) = "A1"
     | _ => False
     end
  /\ map (fun c => (userId c, currentChats c, lastActiveAt c))
         (csStatuses (db Scenario.raceWorld))
     = [("A1", 0, 10); ("A2", 0, 20)]
  /\ match fst (run (autoAssignChat "ada") Scenario.raceWorld) with
     | Ok (Some a) => ciId (snd a) = "A1"
     | _ => False
     end.
Proof. vm_compute. repeat split; reflexivity. Qed.

(** ** The idle reaper *)

Lemma idIs_refl (i : Id) : idIs i i = true.
Proof. apply String.eqb_refl. Qed.

Lemma idIs_eq (i j : Id) : idIs i j = true -> i = j.
Proof. apply String.eqb_eq. Qed.

Lemma findSession_In (d : Db) (s : ChatSession) :
  In s (sessions d) -> findSession (sId s) d <> None.
Proof.
  intros Hin Hnone. unfold findSession in Hnone.
  pose proof (find_none _ _ Hnone s Hin) as H. cbn beta in H.
  rewrite idIs_refl in H. discriminate.
Qed.

Lemma hd_error_In {A : Type} (l : list A) (x : A) : hd_error l = Some x -> In x l.
Proof. destruct l; simpl; [discriminate | intros H; inversion H; left; reflexivity]. Qed.

(** Every chat returned by the query of [checkIdleChats] passes the check
    made again in the loop. *)
Lemma findIdleChats_stale (thr : Z) (d : Db) (chat : IdleChat) :
  In chat (findIdleChats thr d) -> isStale thr chat = true.
Proof.
  unfold findIdleChats. rewrite in_map_iff.
  intros (s & <- & Hin). apply filter_In in Hin. destruct Hin as [_ Hf].
  apply andb_true_iff in Hf. destruct Hf as [_ Hall].
  unfold isStale. cbn [icLastMessage].
  destruct (hd_error (sortByDesc mCreatedAt (sessionMessages (sId s) d)))
    as [m |] eqn:Eh; [| reflexivity].
  apply hd_error_In in Eh. unfold sortByDesc in Eh. rewrite sortBy_In in Eh.
  rewrite forallb_forall in Hall. apply Hall, Eh.
Qed.

Lemma findIdleChats_stored (thr : Z) (d : Db) (chat : IdleChat) :
  In chat (findIdleChats thr d) -> findSession (chatId chat) d <> None.
Proof.
  unfold findIdleChats. rewrite in_map_iff.
  intros (s & <- & Hin). apply filter_In in Hin. destruct Hin as [Hin _].
  apply findSession_In, Hin.
Qed.

(** The decrement of the reaper never fails the loop: a rejection is
    swallowed by [.catch(() => {})]. *)
Lemma run_caught_decrement (csId : Id) (w : World) :
  exists w',
    run (try_catch (_ <- await (updateCs csId (addChats (-1))) ;; Ret tt)
                   (Ret tt)) w = (Ok tt, w')
    /\ sessions (db w') = sessions (db w).
Proof.
  rewrite run_try_catch, run_await_bind. unfold updateCs.
  destruct (findCsStatus csId (db (advance w))) as [c |]; cbn [run].
  - eexists; split; [reflexivity |].
    rewrite db_withDb. cbn [setCsStatuses sessions]. rewrite db_advance.
    reflexivity.
  - eexists; split; [reflexivity |]. rewrite db_advance. reflexivity.
Qed.

(** One turn of the loop on a stale chat whose session is stored. *)
Lemma reapChats_step (thr : Z) (chat : IdleChat) (rest : list IdleChat)
    (acc : list Id) (w : World) :
  isStale thr chat = true ->
  findSession (chatId chat) (db w) <> None ->
  exists w1 t,
    run (reapChats thr (chat :: rest) acc) w
    = run (reapChats thr rest (acc ++ [chatId chat])) w1
    /\ sessions (db w1)
       = patchSession (chatId chat) (setClosed abandoned t) (sessions (db w)).
Proof.
  intros Hst Hs.
  destruct (findSession (chatId chat) (db w)) as [s |] eqn:Es;
    [clear Hs | contradiction].
  cbn [reapChats]. rewrite Hst.
  rewrite run_sync_bind. cbn [readClock fst snd].
  rewrite run_await_bind. unfold updateSession.
  fold (chatId chat). rewrite db_advance, Es.
  rewrite run_bind.
  set (w0 := withDb (advance w)
               (setSessions (db w)
                  (patchSession (chatId chat) (setClosed abandoned (clock w))
                     (sessions (db w))))).
  assert (H0 : sessions (db w0)
               = patchSession (chatId chat) (setClosed abandoned (clock w))
                   (sessions (db w))) by reflexivity.
  destruct (assignedCsId (icSession chat)) as [csId |].
  - destruct (isEmpty csId).
    + cbn [run]. rewrite run_await_bind. unfold createMessage.
      do 2 eexists. split; [reflexivity |].
      rewrite db_withDb. cbn [setMessages sessions].
      rewrite db_advance, H0. reflexivity.
    + destruct (run_caught_decrement csId w0) as (w' & Hrun & Hsess).
      rewrite Hrun. rewrite run_await_bind. unfold createMessage.
      do 2 eexists. split; [reflexivity |].
      rewrite db_withDb. cbn [setMessages sessions].
      rewrite db_advance, Hsess, H0. reflexivity.
  - cbn [run]. rewrite run_await_bind. unfold createMessage.
    do 2 eexists. split; [reflexivity |].
    rewrite db_withDb. cbn [setMessages sessions].
    rewrite db_advance, H0. reflexivity.
Qed.

Lemma findSession_patched (sid sid' : Id) (f : ChatSession -> ChatSession)
    (d d' : Db) :
  (forall s, sId (f s) = sId s) ->
  sessions d' = patchSession sid' f (sessions d) ->
  findSession sid d'
  = option_map (fun s => if idIs sid' (sId s) then f s else s)
               (findSession sid d).
Proof.
  intros Hf Hd. unfold findSession. rewrite Hd. apply find_patchSession, Hf.
Qed.

(** The loop abandons exactly the sessions of the chats it is given. *)
Lemma run_reapChats (thr : Z) (chats : list IdleChat) :
  forall (acc : list Id) (w : World),
    (forall chat, In chat chats -> isStale thr chat = true) ->
    (forall chat, In chat chats -> findSession (chatId chat) (db w) <> None) ->
    exists w',
      run (reapChats thr chats acc) w = (Ok (acc ++ map chatId chats), w')
      /\ (forall sid, In sid (map chatId chats) ->
            option_map status (findSession sid (db w'))
            = option_map (fun _ => abandoned) (findSession sid (db w)))
      /\ (forall sid, ~ In sid (map chatId chats) ->
            findSession sid (db w') = findSession sid (db w)).
Proof.
  induction chats as [| chat rest IH]; intros acc w Hst Hs.
  - exists w. cbn [reapChats run map]. rewrite app_nil_r.
    split; [reflexivity |]. split; [intros sid [] | reflexivity].
  - destruct (reapChats_step thr chat rest acc w
                (Hst chat (or_introl eq_refl)) (Hs chat (or_introl eq_refl)))
      as (w1 & t & Hrun & Hsess).
    assert (Hfind : forall sid,
               findSession sid (db w1)
               = option_map (fun s => if idIs (chatId chat) (sId s)
                                      then setClosed abandoned t s else s)
                            (findSession sid (db w)))
      by (intros sid; apply findSession_patched;
          [intros; reflexivity | exact Hsess]).
    destruct (IH (acc ++ [chatId chat]) w1) as (w' & Hrun' & Hin & Hout).
    + intros c Hc. apply Hst. right; exact Hc.
    + intros c Hc. rewrite Hfind.
      pose proof (Hs c (or_intror Hc)) as Hne.
      destruct (findSession (chatId c) (db w)); [discriminate | contradiction].
    + exists w'. rewrite Hrun, Hrun'. rewrite <- app_assoc. cbn [map app].
      split; [reflexivity |]. split.
      * intros sid Hsid.
        destruct (in_dec string_dec sid (map chatId rest)) as [Hr | Hr].
        -- rewrite (Hin sid Hr), Hfind.
           destruct (findSession sid (db w)); reflexivity.
        -- rewrite (Hout sid Hr), Hfind.
           destruct Hsid as [Hh | Hr']; [| contradiction].
           destruct (findSession sid (db w)) as [s |] eqn:Es; [| reflexivity].
           cbn [option_map]. unfold findSession in Es.
           pose proof (find_idIs_sId _ _ _ Es) as Hid.
           apply idIs_eq in Hid. rewrite Hh, Hid, idIs_refl. reflexivity.
      * intros sid Hsid.
        assert (Hr : ~ In sid (map chatId rest))
          by (intros Hr; apply Hsid; right; exact Hr).
        rewrite (Hout sid Hr), Hfind.
        destruct (findSession sid (db w)) as [s |] eqn:Es; [| reflexivity].
        cbn [option_map]. unfold findSession in Es.
        pose proof (find_idIs_sId _ _ _ Es) as Hid. apply idIs_eq in Hid.
        destruct (idIs (chatId chat) (sId s)) eqn:E; [| reflexivity].
        exfalso. apply Hsid. left. apply idIs_eq in E. congruence.
Qed.

(** C6 (amended).  [checkIdleChats] always completes.  An open session all
    of whose messages are strictly older than [now - chatIdleTimeout * 1000]
    is abandoned and reported; an open session with a message at that
    instant or later - in particular one whose last message is aged exactly
    [chatIdleTimeout] - is left as it is. *)
Theorem reaper_abandons_strictly_older
    (w : World) (sid : Id) (s : ChatSession) :
  findSession sid (db w) = Some s ->
  isOpen (status s) = true ->
  let idleThreshold := clock w - chatIdleTimeout (config w) * 1000 in
  exists ids w',
    run checkIdleChats w = (Ok ids, w')
    /\ ((forall m, In m (sessionMessages sid (db w)) ->
                   mCreatedAt m < idleThreshold) ->
        option_map status (findSession sid (db w')) = Some abandoned
        /\ In sid ids)
    /\ ((exists m, In m (sessionMessages sid (db w))
                   /\ idleThreshold <= mCreatedAt m) ->
        findSession sid (db w') = Some s /\ ~ In sid ids).
Proof.
  intros Hs Ho thr.
  unfold checkIdleChats.
  rewrite run_sync_bind. cbn [readClock fst snd].
  rewrite run_sync_bind. cbn [readConfig fst snd].
  rewrite run_query_bind. fold thr.
  destruct (run_reapChats thr (findIdleChats thr (db w)) [] (advance w))
    as (w' & Hrun & Hin & Hout).
  { intros chat Hc. eapply findIdleChats_stale; exact Hc. }
  { intros chat Hc. rewrite db_advance. eapply findIdleChats_stored; exact Hc. }
  cbn [app] in Hrun.
  exists (map chatId (findIdleChats thr (db w))), w'.
  split; [exact Hrun |].
  pose proof (find_idIs_sId _ _ _ Hs) as Hid. apply idIs_eq in Hid.
  split.
  - intros Hold.
    assert (Hm : In sid (map chatId (findIdleChats thr (db w)))).
    { apply in_map_iff. exists (mkIdle s (hd_error (sortByDesc mCreatedAt
                                   (sessionMessages (sId s) (db w))))).
      split; [unfold chatId; cbn [icSession]; symmetry; exact Hid |].
      unfold findIdleChats. apply in_map_iff. exists s.
      split; [reflexivity |]. apply filter_In.
      split; [apply (find_some _ _ Hs) |].
      rewrite Ho. cbn [andb]. apply forallb_forall.
      intros m Hmin. apply Z.ltb_lt. apply Hold. rewrite Hid. exact Hmin. }
    split; [| exact Hm].
    rewrite (Hin sid Hm), db_advance, Hs. reflexivity.
  - intros (m & Hmin & Hnew).
    assert (Hm : ~ In sid (map chatId (findIdleChats thr (db w)))).
    { intros Hm. apply in_map_iff in Hm. destruct Hm as (chat & Hc & Hcin).
      unfold findIdleChats in Hcin. apply in_map_iff in Hcin.
      destruct Hcin as (s' & <- & Hf). apply filter_In in Hf.
      destruct Hf as [_ Hf]. apply andb_true_iff in Hf. destruct Hf as [_ Hall].
      unfold chatId in Hc. cbn [icSession] in Hc. rewrite Hc in Hall.
      rewrite forallb_forall in Hall. specialize (Hall m Hmin).
      apply Z.ltb_lt in Hall. lia. }
    split; [| exact Hm].
    rewrite (Hout sid Hm), db_advance. exact Hs.
Qed.

Lemma reaper_abandons_strictly_older_witness :
  exists ids w',
    run checkIdleChats Scenario.lateWorld = (Ok ids, w')
    /\ option_map status (findSession "ada" (db w')) = Some abandoned
    /\ In "ada" ids.
Proof.
  destruct (reaper_abandons_strictly_older
              Scenario.lateWorld "ada" (setAssigned "A1" 5002 Scenario.ada))
    as (ids & w' & Hrun & Hold & _).
  - vm_compute; reflexivity.
  - reflexivity.
  - exists ids, w'. split; [exact Hrun |].
    apply Hold. intros m Hm. vm_compute in Hm.
    destruct Hm as [<- | [<- | []]]; vm_compute; reflexivity.
Defined.

(** C6 (counterexample).  Ada's last message was written at 5005 and the
    timeout is 1800 seconds.  A reaper run at exactly 5005 + 1800000
    abandons nothing and leaves the session active; a run one millisecond
    later abandons it. *)
Lemma reaper_skips_exact_timeout :
  map mCreatedAt (sessionMessages "ada" (db Scenario.boundaryWorld))
  = [1000; 5005]
  /\ clock Scenario.boundaryWorld
     = 5005 + chatIdleTimeout (config Scenario.boundaryWorld) * 1000
  /\ fst (run checkIdleChats Scenario.boundaryWorld) = Ok []
  /\ option_map status
       (findSession "ada" (db (snd (run checkIdleChats Scenario.boundaryWorld))))
     = Some active
  /\ fst (run checkIdleChats Scenario.lateWorld) = Ok ["ada"]
  /\ option_map status
       (findSession "ada" (db (snd (run checkIdleChats Scenario.lateWorld))))
     = Some abandoned.
Proof. vm_compute. repeat split; reflexivity. Qed.

(** ** Starting a chat *)

Lemma config_advance (w : World) : config (advance w) = config w.
Proof. unfold advance; destruct (ticks w); reflexivity. Qed.

Lemma serverInstance_advance (w : World) :
  serverInstance (advance w) = serverInstance w.
Proof. unfold advance; destruct (ticks w); reflexivity. Qed.

Lemma config_publish (topic ev : string) (d : Payload) (w : World) :
  config (snd (publishToTopic topic ev d w)) = config w.
Proof. unfold publishToTopic; destruct (serverInstance w); reflexivity. Qed.

Lemma serverInstance_publish (topic ev : string) (d : Payload) (w : World) :
  serverInstance (snd (publishToTopic topic ev d w)) = serverInstance w.
Proof. unfold publishToTopic; destruct (serverInstance w) eqn:E; simpl; congruence. Qed.

Lemma db_subscribeByUser (uid sid : Id) (w : World) :
  db (snd (subscribeCsToSessionByUserId uid sid w)) = db w.
Proof.
  unfold subscribeCsToSessionByUserId.
  destruct (existsb (isUserConn uid) (conns w)); reflexivity.
Qed.

Lemma serverInstance_subscribeByUser (uid sid : Id) (w : World) :
  serverInstance (snd (subscribeCsToSessionByUserId uid sid w))
  = serverInstance w.
Proof.
  unfold subscribeCsToSessionByUserId.
  destruct (existsb (isUserConn uid) (conns w)); reflexivity.
Qed.

(** Sockets are neither opened nor closed by the effects of a handler. *)
Lemma findConn_map (ws : nat) (g : Conn -> Conn) (w : World) (c : Conn) :
  (forall c, connId (g c) = connId c) ->
  findConn ws w = Some c ->
  exists c', findConn ws (withConns w (map g (conns w))) = Some c'.
Proof.
  intros Hg Hc. unfold findConn in *. cbn [conns withConns].
  induction (conns w) as [| c0 l IH]; simpl in *; [discriminate |].
  rewrite Hg. destruct (Nat.eqb ws (connId c0)); [eexists; reflexivity |].
  apply IH, Hc.
Qed.

Lemma findConn_publish (ws : nat) (topic ev : string) (d : Payload)
    (w : World) (c : Conn) :
  findConn ws w = Some c ->
  exists c', findConn ws (snd (publishToTopic topic ev d w)) = Some c'.
Proof.
  intros Hc. unfold publishToTopic.
  destruct (serverInstance w); cbn [snd]; [| eexists; exact Hc].
  eapply findConn_map; [| exact Hc].
  intros c0. destruct (hasTopic topic c0); reflexivity.
Qed.

Lemma findConn_subscribeByUser (ws : nat) (uid sid : Id) (w : World) (c : Conn) :
  findConn ws w = Some c ->
  exists c', findConn ws (snd (subscribeCsToSessionByUserId uid sid w)) = Some c'.
Proof.
  intros Hc. unfold subscribeCsToSessionByUserId.
  destruct (existsb (isUserConn uid) (conns w)); cbn [snd];
    [| eexists; exact Hc].
  eapply findConn_map; [| exact Hc].
  intros c0. destruct (isUserConn uid c0);
    [apply connId_addTopic | reflexivity].
Qed.

Lemma findConn_withDb (ws : nat) (w : World) (d : Db) :
  findConn ws (withDb w d) = findConn ws w.
Proof. reflexivity. Qed.

Lemma findConn_notifyChatAssigned (ws : nat) (sid uid : Id) (nm : string)
    (av : option string) (w : World) (c : Conn) :
  findConn ws w = Some c ->
  exists c', findConn ws (snd (notifyChatAssigned sid uid nm av w)) = Some c'.
Proof.
  intros Hc. unfold notifyChatAssigned, andThen, notifyCustomer, notifyCS, notifyQueue.
  destruct (findConn_publish ws (topicSession sid) "chat:assigned"
              (PChatAssigned sid (mkCsInfo uid nm av)) w c Hc) as [c1 H1].
  destruct (findConn_publish ws (topicCs uid) "chat:new_assigned"
              (PNewAssigned sid) _ c1 H1) as [c2 H2].
  eapply findConn_publish; exact H2.
Qed.

(** ** Delivery to the subscribers of a topic *)

Lemma received_map (topic : string) (fr : Frame) (g : Conn -> Conn)
    (w : World) :
  (forall c, topics (g c) = topics c /\ incl (inbox c) (inbox (g c))) ->
  received topic fr w ->
  received topic fr (withConns w (map g (conns w))).
Proof.
  intros Hg Hr c Hc Ht. cbn [conns withConns] in Hc.
  apply in_map_iff in Hc. destruct Hc as (c0 & <- & Hc0).
  destruct (Hg c0) as [Htop Hinc]. apply Hinc. apply (Hr c0 Hc0).
  unfold hasTopic in *. rewrite <- Htop. exact Ht.
Qed.

Lemma deliver_grows (fr : Frame) (c : Conn) :
  topics (deliver fr c) = topics c /\ incl (inbox c) (inbox (deliver fr c)).
Proof. split; [reflexivity | cbn [deliver inbox]; apply incl_appl, incl_refl]. Qed.

Lemma received_keep_publish (topic topic' ev : string) (fr : Frame)
    (d : Payload) (w : World) :
  received topic fr w ->
  received topic fr (snd (publishToTopic topic' ev d w)).
Proof.
  intros Hr. unfold publishToTopic.
  destruct (serverInstance w); cbn [snd]; [| exact Hr].
  apply received_map; [| exact Hr].
  intros c. destruct (hasTopic topic' c);
    [apply deliver_grows | split; [reflexivity | apply incl_refl]].
Qed.

Lemma received_keep_wsSend (topic ev : string) (fr : Frame) (ws : nat)
    (d : Payload) (w : World) :
  received topic fr w ->
  received topic fr (snd (wsSend ws ev d w)).
Proof.
  intros Hr. unfold wsSend, patchConn. cbn [snd].
  apply received_map; [| exact Hr].
  intros c. destruct (Nat.eqb ws (connId c));
    [apply deliver_grows | split; [reflexivity | apply incl_refl]].
Qed.

(** A publication reaches every connection subscribed to its topic. *)
Lemma received_publish (topic ev : string) (d : Payload) (w : World) :
  serverInstance w = true ->
  received topic (mkFrame ev d (clock w)) (snd (publishToTopic topic ev d w)).
Proof.
  intros Hsrv c Hc Ht. unfold publishToTopic in Hc. rewrite Hsrv in Hc.
  cbn [snd conns withConns] in Hc.
  apply in_map_iff in Hc. destruct Hc as (c0 & Hg & Hc0).
  destruct (hasTopic topic c0) eqn:E; subst c.
  - cbn [deliver inbox]. apply in_or_app. right. left. reflexivity.
  - rewrite E in Ht. discriminate.
Qed.

Lemma run_initChat (w : World) (newId : Id) (tok : string)
    (cname cemail : option string) :
  run (initChat newId tok cname cemail) w
  = (Ok (mkInit true "Chat started successfully" (Some newId) (Some tok)),
     withDb (advance (advance w))
       (initDb newId tok cname cemail (clock (advance w))
               (clock (advance (advance w))) (db w))).
Proof.
  unfold initChat. rewrite run_try_catch, run_await_bind.
  unfold createSession. rewrite run_await_bind. unfold createMessage.
  rewrite advance_withDb, withDb_withDb, db_withDb, clock_withDb.
  cbn [run sId setSessions messages]. rewrite db_advance. reflexivity.
Qed.

(** [autoAssignChat] when the filtered query has a first row. *)
Lemma run_autoAssignChat_assigns (w : World) (sid : Id) (s : ChatSession)
    (u : User) (c : CsStatus) (rest : list (User * CsStatus)) :
  autoAssignEnabled (config w) = true ->
  findSession sid (db w) = Some s ->
  filter hasCapacity (onlineCs (db w)) = (u, c) :: rest ->
  exists t0 t1 who W,
    run (autoAssignChat sid) w
    = (Ok (Some (setAssigned (uId u) t0 s,
                 option_map csInfoOf (findUser (uId u) (db w)),
                 csInfoOf u)),
       snd (notifyChatAssigned sid (uId u) (name u) (avatarUrl u) W))
    /\ db W = assignedDb sid (uId u) t0 t1 who (db w)
    /\ serverInstance W = serverInstance w
    /\ (forall ws c0, findConn ws w = Some c0 ->
                      exists c', findConn ws W = Some c').
Proof.
  intros Hen Hs Hf.
  assert (Hin : In (u, c) (filter hasCapacity (onlineCs (db w))))
    by (rewrite Hf; left; reflexivity).
  apply filter_In in Hin. destruct Hin as [Hin _].
  apply in_onlineCs in Hin. destruct Hin as (_ & _ & _ & Hc & _).
  unfold autoAssignChat.
  rewrite run_sync_bind. cbn [readConfig fst snd]. rewrite Hen. cbn [negb].
  rewrite run_query_bind, Hf. cbn [fst]. rewrite run_bind.
  rewrite (run_assignChat (advance w) sid (uId u) s c)
    by (rewrite db_advance; assumption).
  rewrite run_sync_bind, run_sync_bind. cbn [run].
  do 4 eexists. split; [rewrite db_advance; reflexivity |].
  split; [rewrite db_subscribeByUser, db_withDb; reflexivity |].
  split.
  - rewrite serverInstance_subscribeByUser. cbn [withDb serverInstance].
    rewrite !serverInstance_advance. reflexivity.
  - intros ws c0 H0. eapply findConn_subscribeByUser.
    rewrite findConn_withDb, !findConn_advance. exact H0.
Qed.

(** ** The agent picked by the dispatcher *)

Lemma run_assignChat_missing (w : World) (sid uid : Id) :
  findSession sid (db w) = None ->
  fst (run (assignChat sid uid) w) = Thrown.
Proof.
  intros H. unfold assignChat.
  rewrite run_sync_bind. cbn [readClock fst snd].
  rewrite run_await_bind. unfold updateSession. rewrite db_advance, H.
  reflexivity.
Qed.

(** C5 (amended).  Whenever [autoAssignChat] assigns a session, the agent
    [u] it picks is available (a stored user with role cs, active, whose
    status row is online with [currentChats < maxChats]) and no available
    agent has fewer current chats; [lastActiveAt] plays no part.  The pick
    is what is returned and what is stored: the session row becomes active
    with [assignedCsId] that agent, the agent's [currentChats] grows by one
    with the rest of its row kept, and no other status row changes.
    Conversely, with auto-assignment enabled, a stored session and at least
    one available agent, [autoAssignChat] does assign the session. *)
Theorem autoAssign_picks_least_loaded (w : World) (sid : Id) :
  (forall a w',
      run (autoAssignChat sid) w = (Ok (Some a), w') ->
      exists u c s t,
        (In u (users (db w)) /\ role u = role_cs /\ isActive u = true
         /\ findCsStatus (uId u) (db w) = Some c
         /\ csState c = online /\ currentChats c < maxChats c)
        /\ (forall u' c',
              In u' (users (db w)) -> role u' = role_cs ->
              isActive u' = true ->
              findCsStatus (uId u') (db w) = Some c' ->
              csState c' = online -> currentChats c' < maxChats c' ->
              currentChats c <= currentChats c')
        /\ snd a = mkCsInfo (uId u) (name u) (avatarUrl u)
        /\ findSession sid (db w) = Some s
        /\ findSession sid (db w')
           = Some (mkSession (sId s) (customerName s) (customerEmail s)
                             (customerToken s) active (Some (uId u))
                             (sCreatedAt s) (Some t) (resolvedAt s)
                             (rating s) (feedback s))
        /\ findCsStatus (uId u) (db w')
           = Some (mkCsStatus (userId c) (csState c) (maxChats c)
                              (currentChats c + 1) (lastActiveAt c))
        /\ (forall x, x <> uId u ->
                      findCsStatus x (db w') = findCsStatus x (db w)))
  /\ (autoAssignEnabled (config w) = true ->
      findSession sid (db w) <> None ->
      (exists u c,
          In u (users (db w)) /\ role u = role_cs /\ isActive u = true
          /\ findCsStatus (uId u) (db w) = Some c
          /\ csState c = online /\ currentChats c < maxChats c) ->
      exists a w', run (autoAssignChat sid) w = (Ok (Some a), w')).
Proof.
  split.
  - intros a w' Hrun.
    assert (Hen : autoAssignEnabled (config w) = true).
    { destruct (autoAssignEnabled (config w)) eqn:E; [reflexivity |].
      unfold autoAssignChat in Hrun. rewrite run_sync_bind in Hrun.
      cbn [readConfig fst snd] in Hrun. rewrite E in Hrun.
      cbn [negb run] in Hrun. discriminate Hrun. }
    destruct (filter hasCapacity (onlineCs (db w))) as [| [u c] rest] eqn:Ef.
    { unfold autoAssignChat in Hrun. rewrite run_sync_bind in Hrun.
      cbn [readConfig fst snd] in Hrun. rewrite Hen in Hrun.
      cbn [negb] in Hrun. rewrite run_query_bind, Ef in Hrun.
      cbn [run] in Hrun. discriminate Hrun. }
    destruct (findSession sid (db w)) as [s |] eqn:Es.
    2:{ unfold autoAssignChat in Hrun. rewrite run_sync_bind in Hrun.
        cbn [readConfig fst snd] in Hrun. rewrite Hen in Hrun.
        cbn [negb] in Hrun. rewrite run_query_bind, Ef in Hrun.
        cbn [fst] in Hrun. rewrite run_bind in Hrun.
        pose proof (run_assignChat_missing (advance w) sid (uId u)) as Hm.
        rewrite db_advance in Hm. specialize (Hm Es).
        destruct (run (assignChat sid (uId u)) (advance w)) as [[x |] w2];
          [cbn [fst] in Hm; discriminate Hm | discriminate Hrun]. }
    destruct (run_autoAssignChat_assigns w sid s u c rest Hen Es Ef)
      as (t0 & t1 & who & W & Hrun' & HdbW & _).
    rewrite Hrun' in Hrun. injection Hrun as Ha Hw'. subst a w'.
    assert (Hin : In (u, c) (filter hasCapacity (onlineCs (db w))))
      by (rewrite Ef; left; reflexivity).
    apply filter_In in Hin. destruct Hin as [Hin Hcap].
    apply in_onlineCs in Hin. destruct Hin as (H1 & H2 & H3 & H4 & H5).
    apply hasCapacity_true in Hcap.
    exists u, c, s, t0.
    split; [repeat split; assumption |].
    split.
    { intros u' c' G1 G2 G3 G4 G5 G6.
      assert (Hin' : In (u', c') (onlineCs (db w)))
        by (apply in_onlineCs; repeat split; assumption).
      unfold onlineCs in Ef, Hin'. rewrite sortBy_In in Hin'.
      apply (first_of_sorted_filter (fun uc => currentChats (snd uc))
               hasCapacity _ rest (u, c) (u', c') Ef Hin').
      apply hasCapacity_true; exact G6. }
    split; [reflexivity |].
    split; [reflexivity |].
    rewrite db_notifyChatAssigned, HdbW.
    split; [apply findSession_assignedDb; exact Es |].
    split.
    { rewrite findCsStatus_assignedDb, H4. cbn [option_map].
      unfold findCsStatus in H4. rewrite (find_idIs_userId _ _ _ H4).
      reflexivity. }
    intros x Hx. rewrite findCsStatus_assignedDb.
    destruct (findCsStatus x (db w)) as [cx |] eqn:Ex; [| reflexivity].
    cbn [option_map]. unfold findCsStatus in Ex.
    pose proof (find_idIs_userId _ _ _ Ex) as Hid. unfold idIs in *.
    apply String.eqb_eq in Hid. subst x.
    destruct (String.eqb_spec (uId u) (userId cx)) as [E | _];
      [symmetry in E; contradiction | reflexivity].
  - intros Hen Hs (u0 & c0 & G1 & G2 & G3 & G4 & G5 & G6).
    destruct (findSession sid (db w)) as [s |] eqn:Es; [| contradiction].
    destruct (filter hasCapacity (onlineCs (db w))) as [| [u c] rest] eqn:Ef.
    + exfalso.
      assert (Hin : In (u0, c0) (filter hasCapacity (onlineCs (db w)))).
      { apply filter_In. split.
        - apply in_onlineCs; repeat split; assumption.
        - apply hasCapacity_true; exact G6. }
      rewrite Ef in Hin. destruct Hin.
    + destruct (run_autoAssignChat_assigns w sid s u c rest Hen Es Ef)
        as (t0 & t1 & who & W & Hrun' & _).
      do 2 eexists. exact Hrun'.
Qed.

Lemma autoAssign_picks_least_loaded_witness :
  exists a w',
    run (autoAssignChat "ada") Scenario.raceWorld = (Ok (Some a), w')
    /\ snd a = mkCsInfo "A1" "Agent One" None
    /\ option_map assignedCsId (findSession "ada" (db w')) = Some (Some "A1")
    /\ chatsOf "A1" w' = Some 1
    /\ chatsOf "A2" w' = Some 0.
Proof.
  destruct (proj2 (autoAssign_picks_least_loaded Scenario.raceWorld "ada"))
    as (a & w' & Hrun).
  - reflexivity.
  - vm_compute; discriminate.
  - exists Scenario.agent1, (mkCsStatus "A1" online 1 0 10).
    repeat split; try reflexivity. left; reflexivity.
  - assert (Hw' : w' = snd (run (autoAssignChat "ada") Scenario.raceWorld))
      by (rewrite Hrun; reflexivity).
    assert (Ha : a = match fst (run (autoAssignChat "ada") Scenario.raceWorld) with
                     | Ok (Some x) => x
                     | _ => a
                     end) by (rewrite Hrun; reflexivity).
    exists a, w'. split; [exact Hrun |].
    rewrite Ha, Hw'. vm_compute. repeat split; reflexivity.
Defined.

Lemma find_app_last {A : Type} (p : A -> bool) (l : list A) (x : A) :
  p x = true -> exists y, find p (l ++ [x]) = Some y.
Proof.
  intros Hx. induction l as [| a l IH]; simpl.
  - rewrite Hx. eexists; reflexivity.
  - destruct (p a); [eexists; reflexivity | exact IH].
Qed.

Lemma db_notifyNewChatInQueue (sid : Id) (cname : option string) (w : World) :
  db (snd (notifyNewChatInQueue sid cname w)) = db w.
Proof.
  unfold notifyNewChatInQueue, andThen, notifyQueue, notifyAdmins.
  rewrite !db_publish. reflexivity.
Qed.

Lemma config_notifyNewChatInQueue (sid : Id) (cname : option string) (w : World) :
  config (snd (notifyNewChatInQueue sid cname w)) = config w.
Proof.
  unfold notifyNewChatInQueue, andThen, notifyQueue, notifyAdmins.
  rewrite !config_publish. reflexivity.
Qed.

Lemma serverInstance_notifyNewChatInQueue (sid : Id) (cname : option string)
    (w : World) :
  serverInstance (snd (notifyNewChatInQueue sid cname w)) = serverInstance w.
Proof.
  unfold notifyNewChatInQueue, andThen, notifyQueue, notifyAdmins.
  rewrite !serverInstance_publish. reflexivity.
Qed.

Lemma findConn_notifyNewChatInQueue (ws : nat) (sid : Id)
    (cname : option string) (w : World) (c : Conn) :
  findConn ws w = Some c ->
  exists c', findConn ws (snd (notifyNewChatInQueue sid cname w)) = Some c'.
Proof.
  intros Hc. unfold notifyNewChatInQueue, andThen, notifyQueue, notifyAdmins.
  destruct (findConn_publish ws topicQueue "queue:new_chat"
              (PNewChat sid cname) w c Hc) as [c1 H1].
  eapply findConn_publish; exact H1.
Qed.

(** C8 (amended).  When a customer starts a chat while auto-assignment is
    enabled and an agent is available, the handler ends normally and the
    last two frames on the customer's socket are [chat:assigned], carrying
    the picked agent, followed by [chat:started], carrying the session id and
    the token; every connection subscribed to the agent's topic has received
    [chat:new_assigned] with the session id. *)
Theorem startChat_assigned_then_started
    (w : World) (ws : nat) (conn : Conn) (newId : Id) (tok : string)
    (cname cemail : option string)
    (u : User) (c : CsStatus) (rest : list (User * CsStatus)) :
  findConn ws w = Some conn ->
  newId <> "" ->
  tok <> "" ->
  serverInstance w = true ->
  autoAssignEnabled (config w) = true ->
  filter hasCapacity (onlineCs (db w)) = (u, c) :: rest ->
  exists w' pre t1 t2 t3,
    run (handleCustomerStartChat ws newId tok cname cemail) w = (Ok tt, w')
    /\ inboxOf ws w' =
       pre ++ [mkFrame "chat:assigned" (PChatAssigned newId (csInfoOf u)) t1;
               mkFrame "chat:started" (PChatStarted newId tok) t2]
    /\ received (topicCs (uId u))
                (mkFrame "chat:new_assigned" (PNewAssigned newId) t3) w'.
Proof.
  intros Hconn Hid Htok Hsrv Hen Hf.
  unfold handleCustomerStartChat.
  rewrite run_try_catch, run_bind, run_initChat.
  assert (Hids : initIds (mkInit true "Chat started successfully"
                            (Some newId) (Some tok)) = Some (newId, tok)).
  { unfold initIds, isEmpty. cbn [initSuccess initSessionId initCustomerToken].
    destruct (String.eqb_spec newId ""); [contradiction |].
    destruct (String.eqb_spec tok ""); [contradiction | reflexivity]. }
  rewrite Hids.
  rewrite run_sync_bind. cbn [fst snd].
  rewrite run_sync_bind. rewrite run_sync_bind.
  set (Wa := withDb (advance (advance w))
               (initDb newId tok cname cemail (clock (advance w))
                  (clock (advance (advance w))) (db w))).
  set (Wb := snd (notifyNewChatInQueue newId cname
                    (snd (subscribeCustomerToSession ws newId
                            (patchConn ws
                               (fun c0 => setWsToken tok (setWsSession newId c0))
                               Wa))))).
  assert (Hdb : db Wb = db Wa)
    by (unfold Wb; rewrite db_notifyNewChatInQueue; reflexivity).
  assert (Hcfg : config Wb = config w).
  { unfold Wb. rewrite config_notifyNewChatInQueue.
    unfold subscribeCustomerToSession, patchConn, Wa.
    cbn [snd config withConns withDb]. rewrite !config_advance. reflexivity. }
  assert (Hsrvb : serverInstance Wb = true).
  { unfold Wb. rewrite serverInstance_notifyNewChatInQueue.
    unfold subscribeCustomerToSession, patchConn, Wa.
    cbn [snd serverInstance withConns withDb].
    rewrite !serverInstance_advance. exact Hsrv. }
  assert (Hcb : exists cb, findConn ws Wb = Some cb).
  { unfold Wb. eapply findConn_notifyNewChatInQueue.
    unfold subscribeCustomerToSession. cbn [snd].
    apply (findConn_patchConn ws
             (fun c0 => addTopic (topicSession newId) (setWsSession newId c0)));
      [intros; rewrite connId_addTopic; reflexivity |].
    apply (findConn_patchConn ws
             (fun c0 => setWsToken tok (setWsSession newId c0)));
      [intros; reflexivity |].
    unfold Wa. rewrite findConn_withDb, !findConn_advance. exact Hconn. }
  destruct Hcb as [cb Hcb].
  assert (Hsb : exists s, findSession newId (db Wb) = Some s).
  { rewrite Hdb. unfold Wa. rewrite db_withDb.
    unfold findSession, initDb. cbn [sessions].
    apply find_app_last. cbn [sId]. apply idIs_refl. }
  destruct Hsb as [s Hsb].
  assert (Hfb : filter hasCapacity (onlineCs (db Wb)) = (u, c) :: rest)
    by (rewrite Hdb; exact Hf).
  destruct (run_autoAssignChat_assigns Wb newId s u c rest
              (eq_trans (f_equal autoAssignEnabled Hcfg) Hen) Hsb Hfb)
    as (t0 & t1 & who & W & Hrun & _ & HsrvW & HconnW).
  rewrite run_bind, Hrun.
  rewrite run_bind, run_sync, run_sync. cbn [fst snd].
  destruct (HconnW ws cb Hcb) as [cW HcW].
  destruct (findConn_notifyChatAssigned ws newId (uId u) (name u) (avatarUrl u)
              W cW HcW) as [c1 Hc1].
  set (W1 := snd (notifyChatAssigned newId (uId u) (name u) (avatarUrl u) W))
    in *.
  do 5 eexists. split; [reflexivity |]. split.
  - rewrite (inboxOf_wsSend ws _ _ _
               (deliver (mkFrame "chat:assigned"
                           (PChatAssigned newId (csInfoOf u)) (clock W1)) c1)).
    + cbn [deliver inbox]. rewrite <- app_assoc. reflexivity.
    + unfold wsSend. cbn [snd].
      apply (findConn_patchConn ws
               (deliver (mkFrame "chat:assigned"
                           (PChatAssigned newId (csInfoOf u)) (clock W1))));
        [intros; reflexivity | exact Hc1].
  - apply received_keep_wsSend, received_keep_wsSend.
    unfold W1, notifyChatAssigned, andThen, notifyQueue, notifyCS.
    apply received_keep_publish.
    apply received_publish.
    unfold notifyCustomer. rewrite serverInstance_publish, HsrvW. exact Hsrvb.
Qed.

Lemma startChat_assigned_then_started_witness :
  exists w' pre t1 t2,
    run (handleCustomerStartChat 3 "ada" "cust_ada" (Some "Ada") None)
        Scenario.startWorld = (Ok tt, w')
    /\ inboxOf 3 w' =
       pre ++ [mkFrame "chat:assigned"
                 (PChatAssigned "ada" (csInfoOf Scenario.agent1)) t1;
               mkFrame "chat:started" (PChatStarted "ada" "cust_ada") t2].
Proof.
  destruct (startChat_assigned_then_started
              Scenario.startWorld 3 Scenario.freshSocket "ada" "cust_ada"
              (Some "Ada") None
              Scenario.agent1 (mkCsStatus "A1" online 5 0 10) [])
    as (w' & pre & t1 & t2 & _ & Hrun & Hin & _).
  - reflexivity.
  - discriminate.
  - discriminate.
  - reflexivity.
  - reflexivity.
  - vm_compute; reflexivity.
  - exists w', pre, t1, t2. split; assumption.
Defined.

(** C8 (counterexample).  In scenario S1 the customer's socket receives, in
    this order, the published [chat:assigned], the [chat:assigned] sent by
    the handler, and only then [chat:started]; the agent's socket, subscribed
    to the session by then, receives [chat:assigned] and
    [chat:new_assigned]. *)
Lemma startChat_started_comes_last :
  let w' := snd (run (handleCustomerStartChat 3 "ada" "cust_ada" (Some "Ada") None)
                     Scenario.startWorld) in
  eventsOf 3 w' = ["chat:assigned"; "chat:assigned"; "chat:started"]
  /\ eventsOf 1 w'
     = ["queue:new_chat"; "chat:assigned"; "chat:new_assigned"; "queue:update"]
  /\ option_map status (findSession "ada" (db w')) = Some active.
Proof. vm_compute. repeat split; reflexivity. Qed.

(** * Further properties *)

(** ** Accepting never overfills an agent *)

Lemma run_accept_session_missing (w : World) (ws : nat) (conn : Conn)
    (uid sid : Id) (c : CsStatus) :
  findConn ws w = Some conn ->
  wsUserId conn = Some uid ->
  uid <> "" ->
  findCsStatus uid (db w) = Some c ->
  csState c = online ->
  currentChats c < maxChats c ->
  findSession sid (db w) = None ->
  rejectedWith ws "SESSION_NOT_FOUND" w (run (handleCsAcceptChat ws sid) w).
Proof.
  intros Hconn Huid Hne Hc Hon Hcap Hs. unfold handleCsAcceptChat.
  rewrite run_try_catch, run_sync_bind, wsData_fst, wsData_snd, Hconn, Huid.
  rewrite (isEmpty_false uid Hne).
  unfold getCsStatus. rewrite run_query_bind, Hc, Hon. cbn [CsState_eqb negb].
  destruct (Z.geb_spec (currentChats c) (maxChats c)) as [Hge | _]; [lia |].
  unfold getSessionById. rewrite run_query_bind, db_advance, Hs.
  cbn [option_map]. rewrite run_sync.
  do 2 eexists; split; [reflexivity |].
  split; [rewrite !db_advance | rewrite !conns_advance]; reflexivity.
Qed.

(** The accept handler either refuses, or is the accept of a waiting session
    by an online agent with spare capacity. *)
Lemma run_accept_cases (w : World) (ws : nat) (sid : Id) :
  (exists code, rejectedWith ws code w (run (handleCsAcceptChat ws sid) w))
  \/ (exists conn uid c s,
         findConn ws w = Some conn /\ wsUserId conn = Some uid
         /\ uid <> ""
         /\ findCsStatus uid (db w) = Some c /\ csState c = online
         /\ currentChats c < maxChats c
         /\ findSession sid (db w) = Some s /\ status s = waiting).
Proof.
  destruct (findConn ws w) as [conn |] eqn:Econn;
    [| left; exists "UNAUTHORIZED"; apply run_accept_no_user;
       rewrite Econn; reflexivity].
  destruct (wsUserId conn) as [uid |] eqn:Eu;
    [| left; exists "UNAUTHORIZED"; apply run_accept_no_user;
       rewrite Econn, Eu; reflexivity].
  destruct (isEmpty uid) eqn:Ee;
    [left; exists "UNAUTHORIZED"; apply run_accept_no_user;
     rewrite Econn, Eu; exact Ee |].
  assert (Hne : uid <> "") by (intros E; rewrite E in Ee; discriminate Ee).
  destruct (findCsStatus uid (db w)) as [c |] eqn:Ec;
    [| left; exists "NOT_ONLINE";
       eapply run_accept_not_online; try eassumption;
       rewrite Ec; reflexivity].
  destruct (CsState_eqb (csState c) online) eqn:Eon;
    [| left; exists "NOT_ONLINE";
       eapply run_accept_not_online; try eassumption;
       rewrite Ec, Eon; reflexivity].
  assert (Hon : csState c = online)
    by (destruct (csState c); try discriminate; reflexivity).
  destruct (Z_lt_le_dec (currentChats c) (maxChats c)) as [Hlt | Hge];
    [| left; exists "AT_CAPACITY";
       eapply run_accept_at_capacity; eassumption].
  destruct (findSession sid (db w)) as [s |] eqn:Es;
    [| left; exists "SESSION_NOT_FOUND";
       eapply run_accept_session_missing; eassumption].
  destruct (ChatStatus_eqb (status s) waiting) eqn:Ew.
  - assert (Hw : status s = waiting)
      by (destruct (status s); try discriminate; reflexivity).
    right. exists conn, uid, c, s. repeat split; assumption.
  - left. exists "ALREADY_ASSIGNED".
    eapply run_accept_already_assigned; try eassumption.
    intros Hw. rewrite Hw in Ew. discriminate.
Qed.

(** X1.  Whatever the socket and the session, one run of the accept handler
    ends normally and keeps every agent within its limit: a status row with
    [currentChats <= maxChats] before the call is still there after it, with
    the same [maxChats], [currentChats] equal or one higher, and still
    [currentChats <= maxChats]. *)
Theorem accept_keeps_capacity_bound
    (w : World) (ws : nat) (sid uid : Id) (c : CsStatus) :
  findCsStatus uid (db w) = Some c ->
  currentChats c <= maxChats c ->
  let r := run (handleCsAcceptChat ws sid) w in
  fst r = Ok tt
  /\ exists c',
       findCsStatus uid (db (snd r)) = Some c'
       /\ maxChats c' = maxChats c
       /\ currentChats c <= currentChats c' <= currentChats c + 1
       /\ currentChats c' <= maxChats c'.
Proof.
  intros Hc Hle r. subst r.
  destruct (run_accept_cases w ws sid)
    as [[code Hrej]
       | (conn & uid0 & c0 & s & H1 & H2 & Hn & H3 & H4 & H5 & H6 & H7)].
  - destruct (rejectedWith_db _ _ _ _ Hrej) as [Hok Hdb].
    split; [exact Hok |]. exists c. rewrite Hdb.
    split; [exact Hc |]. split; [reflexivity |]. split; lia.
  - destruct (run_accept_success w ws conn uid0 sid c0 s H1 H2 Hn H3 H4 H5 H6 H7)
      as (w' & t0 & t1 & who & Hrun & Hdb & _).
    rewrite Hrun. cbn [fst snd]. split; [reflexivity |].
    rewrite Hdb, findCsStatus_assignedDb, Hc. cbn [option_map].
    destruct (idIs uid0 (userId c)) eqn:E.
    + exists (addChats 1 c). split; [reflexivity |]. split; [reflexivity |].
      cbn [addChats currentChats maxChats].
      apply idIs_eq in E.
      pose proof (find_idIs_userId uid (csStatuses (db w)) c Hc) as Hu.
      apply idIs_eq in Hu.
      assert (Heq : c0 = c) by (rewrite <- E in Hu; rewrite Hu in Hc; congruence).
      subst c0. split; lia.
    + exists c. split; [reflexivity |]. split; [reflexivity |]. split; lia.
Qed.

Lemma accept_keeps_capacity_bound_witness :
  exists c',
    findCsStatus "A1"
      (db (snd (run (handleCsAcceptChat 1 "ada") Scenario.raceWorld))) = Some c'
    /\ currentChats c' <= maxChats c'.
Proof.
  destruct (accept_keeps_capacity_bound Scenario.raceWorld 1 "ada" "A1"
              (mkCsStatus "A1" online 1 0 10))
    as (_ & c' & H1 & _ & _ & H2).
  - reflexivity.
  - simpl; lia.
  - exists c'. split; assumption.
Defined.

(** ** Resolving and transferring somebody else's chat *)

Lemma run_resolveChat_refused (w : World) (sid uid : Id) :
  match findSession sid (db w) with
  | Some s => assignedCsId s <> Some uid
  | None => True
  end ->
  run (resolveChat sid uid) w = (Ok None, advance w).
Proof.
  intros H. unfold resolveChat. rewrite run_query_bind.
  destruct (findSession sid (db w)) as [s |]; [| reflexivity].
  assert (E : optId_eqb (assignedCsId s) (Some uid) = false).
  { unfold optId_eqb. destruct (assignedCsId s) as [a |]; [| reflexivity].
    destruct (String.eqb_spec a uid); [subst; contradiction | reflexivity]. }
  rewrite E. reflexivity.
Qed.

(** X2.  An agent that is not the one recorded in [assignedCsId] (or that
    names a session that does not exist) cannot resolve the chat:
    [resolveChat] returns null, the handler answers with exactly one frame,
    the [RESOLVE_FAILED] error, and nothing is written to the store. *)
Theorem resolve_refused_for_non_owner
    (w : World) (ws : nat) (conn : Conn) (uid sid : Id) :
  findConn ws w = Some conn ->
  wsUserId conn = Some uid ->
  uid <> "" ->
  match findSession sid (db w) with
  | Some s => assignedCsId s <> Some uid
  | None => True
  end ->
  let r := run (handleCsResolveChat ws sid) w in
  fst (run (resolveChat sid uid) w) = Ok None
  /\ fst r = Ok tt
  /\ db (snd r) = db w
  /\ exists t,
       inboxOf ws (snd r) =
       inbox conn ++
       [mkFrame "system:error"
          (PError "RESOLVE_FAILED"
             "Gagal menyelesaikan chat atau bukan milik Anda") t].
Proof.
  intros Hconn Huid Hne Hs r. subst r.
  split; [rewrite (run_resolveChat_refused w sid uid Hs); reflexivity |].
  unfold handleCsResolveChat.
  rewrite run_try_catch, run_sync_bind, wsData_fst, wsData_snd, Hconn, Huid.
  rewrite (isEmpty_false uid Hne).
  rewrite run_bind, (run_resolveChat_refused w sid uid Hs), run_sync.
  cbn [fst snd]. split; [reflexivity |]. split.
  - unfold wsSendError. rewrite db_wsSend. apply db_advance.
  - eexists. unfold wsSendError. apply inboxOf_wsSend.
    rewrite findConn_advance. exact Hconn.
Qed.

Lemma resolve_refused_for_non_owner_witness :
  fst (run (resolveChat "ada" "A2") Scenario.activeWorld) = Ok None
  /\ db (snd (run (handleCsResolveChat 2 "ada") Scenario.activeWorld))
     = db Scenario.activeWorld.
Proof.
  destruct (resolve_refused_for_non_owner
              Scenario.activeWorld 2 (Scenario.csSocket 2 "A2") "A2" "ada")
    as (H1 & _ & H2 & _).
  - reflexivity.
  - reflexivity.
  - discriminate.
  - vm_compute. discriminate.
  - split; assumption.
Defined.

Lemma findCsStatus_patched (uid uid' : Id) (f : CsStatus -> CsStatus) (d d' : Db) :
  (forall c, userId (f c) = userId c) ->
  csStatuses d' = patchCs uid' f (csStatuses d) ->
  findCsStatus uid d'
  = option_map (fun c => if idIs uid' (userId c) then f c else c)
               (findCsStatus uid d).
Proof.
  intros Hf Hd. unfold findCsStatus. rewrite Hd. apply find_patchCs, Hf.
Qed.

Lemma idIs_neq (i j : Id) : i <> j -> idIs i j = false.
Proof. intros H. unfold idIs. destruct (String.eqb_spec i j); [contradiction | reflexivity]. Qed.

Lemma updateCs_found (uid : Id) (f : CsStatus -> CsStatus) (w : World)
    (c : CsStatus) :
  findCsStatus uid (db w) = Some c ->
  updateCs uid f w
  = (Ok (f c),
     withDb w (setCsStatuses (db w) (patchCs uid f (csStatuses (db w))))).
Proof. intros H. unfold updateCs. rewrite H. reflexivity. Qed.

(** The store after the writes of [transferChat]. *)
Lemma run_transferChat_owner (w : World) (sid from to : Id)
    (s : ChatSession) (u : User) (cf ct : CsStatus) :
  findSession sid (db w) = Some s ->
  assignedCsId s = Some from ->
  findUser to (db w) = Some u ->
  findCsStatus from (db w) = Some cf ->
  findCsStatus to (db w) = Some ct ->
  exists w6,
    run (transferChat sid from to) w
    = (Ok (Some (setAssignedCs to s)),
       withDb w6
         (mkDb (patchSession sid (setAssignedCs to) (sessions (db w)))
               (messages (db w) ++
                [mkMessage (List.length (messages (db w))) sid sender_system
                           None (String.append "Chat transferred to " (name u))
                           mt_system false (clock w6)])
               (patchCs to (addChats 1)
                  (patchCs from (addChats (-1)) (csStatuses (db w))))
               (users (db w)) (activityLogs (db w)))).
Proof.
  intros Hs Ha Hu Hf Ht. unfold transferChat.
  rewrite run_query_bind, Hs, Ha.
  unfold optId_eqb. rewrite String.eqb_refl. cbn [negb].
  rewrite run_query_bind, db_advance, Hu.
  rewrite run_await_bind. unfold updateSession. rewrite !db_advance, Hs.
  rewrite run_await_bind. unfold promiseAll. cbv zeta.
  rewrite advance_withDb.
  rewrite (updateCs_found from (addChats (-1)) _ cf) by (rewrite db_withDb; exact Hf).
  cbn [fst snd]. rewrite withDb_withDb, db_withDb.
  rewrite (updateCs_found to (addChats 1) _
             (if idIs from (userId ct) then addChats (-1) ct else ct)).
  2:{ rewrite db_withDb.
      rewrite (findCsStatus_patched to from (addChats (-1)) (db w))
        by (intros; reflexivity).
      rewrite Ht. reflexivity. }
  cbn [fst snd]. rewrite withDb_withDb, db_withDb.
  rewrite run_await_bind. unfold createMessage.
  rewrite advance_withDb, withDb_withDb, db_withDb, clock_withDb.
  cbn [run]. eexists. reflexivity.
Qed.

(** X3.  A transfer by the agent recorded in [assignedCsId] to an existing
    user, both with a status row and distinct, returns the updated session
    row: the stored row with [assignedCsId] the target and every other
    field, the status among them, as it was.  Afterwards that row is the
    stored one, the source's [currentChats] is one lower and the target's
    one higher with the rest of both rows kept, no other agent's row has
    changed, and the transcript has one more system message naming the
    target. *)
Theorem transfer_moves_one_chat
    (w : World) (sid from to : Id)
    (s : ChatSession) (u : User) (cf ct : CsStatus) :
  findSession sid (db w) = Some s ->
  assignedCsId s = Some from ->
  findUser to (db w) = Some u ->
  findCsStatus from (db w) = Some cf ->
  findCsStatus to (db w) = Some ct ->
  from <> to ->
  let s' := mkSession (sId s) (customerName s) (customerEmail s)
                      (customerToken s) (status s) (Some to) (sCreatedAt s)
                      (assignedAt s) (resolvedAt s) (rating s) (feedback s) in
  exists w' m,
    run (transferChat sid from to) w = (Ok (Some s'), w')
    /\ findSession sid (db w') = Some s'
    /\ findCsStatus from (db w')
       = Some (mkCsStatus (userId cf) (csState cf) (maxChats cf)
                          (currentChats cf - 1) (lastActiveAt cf))
    /\ findCsStatus to (db w')
       = Some (mkCsStatus (userId ct) (csState ct) (maxChats ct)
                          (currentChats ct + 1) (lastActiveAt ct))
    /\ (forall x, x <> from -> x <> to ->
                  findCsStatus x (db w') = findCsStatus x (db w))
    /\ (forall sid', sid' <> sid ->
                     findSession sid' (db w') = findSession sid' (db w))
    /\ messages (db w') = messages (db w) ++ [m]
    /\ mSessionId m = sid /\ senderType m = sender_system
    /\ content m = String.append "Chat transferred to " (name u).
Proof.
  intros Hs Ha Hu Hf Ht Hne s'. subst s'.
  destruct (run_transferChat_owner w sid from to s u cf ct Hs Ha Hu Hf Ht)
    as (w6 & Hrun).
  pose proof (find_idIs_userId from (csStatuses (db w)) cf Hf) as Hidf.
  pose proof (find_idIs_userId to (csStatuses (db w)) ct Ht) as Hidt.
  apply idIs_eq in Hidf. apply idIs_eq in Hidt.
  do 2 eexists. split; [exact Hrun |]. rewrite db_withDb.
  split.
  { unfold findSession in *. cbn [sessions].
    rewrite find_patchSession by (intros; reflexivity).
    rewrite Hs. cbn [option_map].
    rewrite (find_idIs_sId _ _ _ Hs). reflexivity. }
  split.
  { unfold findCsStatus in *. cbn [csStatuses].
    rewrite !find_patchCs by (intros; reflexivity).
    rewrite Hf. cbn [option_map]. rewrite <- Hidf, idIs_refl.
    cbn [addChats userId]. rewrite <- Hidf.
    rewrite (idIs_neq to from) by (intros E; apply Hne; symmetry; exact E).
    unfold addChats. rewrite <- ?Hidf. reflexivity. }
  split.
  { unfold findCsStatus in *. cbn [csStatuses].
    rewrite !find_patchCs by (intros; reflexivity).
    rewrite Ht. cbn [option_map]. rewrite <- Hidt.
    rewrite (idIs_neq from to Hne). rewrite <- Hidt, idIs_refl.
    unfold addChats. rewrite <- ?Hidt. reflexivity. }
  split.
  { intros x Hxf Hxt. unfold findCsStatus in *. cbn [csStatuses].
    rewrite !find_patchCs by (intros; reflexivity).
    destruct (find (fun c => idIs x (userId c)) (csStatuses (db w)))
      as [cx |] eqn:Ex; [| reflexivity].
    cbn [option_map].
    pose proof (find_idIs_userId x (csStatuses (db w)) cx Ex) as Hidx.
    apply idIs_eq in Hidx. rewrite <- Hidx.
    rewrite (idIs_neq from x) by (intros E; apply Hxf; symmetry; exact E).
    rewrite <- Hidx.
    rewrite (idIs_neq to x) by (intros E; apply Hxt; symmetry; exact E).
    reflexivity. }
  split.
  { intros sid' Hsid. unfold findSession in *. cbn [sessions].
    rewrite find_patchSession by (intros; reflexivity).
    destruct (find (fun s0 => idIs sid' (sId s0)) (sessions (db w)))
      as [sx |] eqn:Ex; [| reflexivity].
    cbn [option_map].
    pose proof (find_idIs_sId sid' (sessions (db w)) sx Ex) as Hidx.
    apply idIs_eq in Hidx. rewrite <- Hidx.
    rewrite (idIs_neq sid sid') by (intros E; apply Hsid; symmetry; exact E).
    reflexivity. }
  repeat split.
Qed.

Lemma transfer_moves_one_chat_witness :
  exists w',
    run (transferChat "ada" "A1" "A2") Scenario.activeWorld
    = (Ok (Some (mkSession "ada" (Some "Ada") None "cust_ada" active
                           (Some "A2") 1000 (Some 5002) None None None)), w')
    /\ option_map assignedCsId (findSession "ada" (db w')) = Some (Some "A2")
    /\ chatsOf "A1" w' = Some 0
    /\ chatsOf "A2" w' = Some 1.
Proof.
  destruct (transfer_moves_one_chat
              Scenario.activeWorld "ada" "A1" "A2"
              (setAssigned "A1" 5002 Scenario.ada) Scenario.agent2
              (mkCsStatus "A1" online 1 1 10) (mkCsStatus "A2" online 1 0 20))
    as (w' & m & Hrun & Hs & Hf & Ht & _).
  - reflexivity.
  - reflexivity.
  - reflexivity.
  - reflexivity.
  - reflexivity.
  - discriminate.
  - exists w'. split; [exact Hrun |].
    split; [rewrite Hs; reflexivity |].
    unfold chatsOf. rewrite Hf, Ht. split; reflexivity.
Defined.

(** X29.  The two counter updates of a transfer are issued together and
    are not undone when one of them fails.  When the agent recorded in
    [assignedCsId] has no status row, [transferChat] throws (the handler
    answers [SERVER_ERROR]), yet the session is already reassigned to the
    target, the target's [currentChats] has grown by one, and no system
    message has been written. *)
Theorem transfer_without_source_row
    (w : World) (sid from to : Id)
    (s : ChatSession) (u : User) (ct : CsStatus) :
  findSession sid (db w) = Some s ->
  assignedCsId s = Some from ->
  findUser to (db w) = Some u ->
  findCsStatus from (db w) = None ->
  findCsStatus to (db w) = Some ct ->
  exists w',
    run (transferChat sid from to) w = (Thrown, w')
    /\ findSession sid (db w')
       = Some (mkSession (sId s) (customerName s) (customerEmail s)
                         (customerToken s) (status s) (Some to) (sCreatedAt s)
                         (assignedAt s) (resolvedAt s) (rating s) (feedback s))
    /\ findCsStatus to (db w')
       = Some (mkCsStatus (userId ct) (csState ct) (maxChats ct)
                          (currentChats ct + 1) (lastActiveAt ct))
    /\ findCsStatus from (db w') = None
    /\ messages (db w') = messages (db w).
Proof.
  intros Hs Ha Hu Hf Ht. unfold transferChat.
  rewrite run_query_bind, Hs, Ha.
  unfold optId_eqb. rewrite String.eqb_refl. cbn [negb].
  rewrite run_query_bind, db_advance, Hu.
  rewrite run_await_bind. unfold updateSession. rewrite !db_advance, Hs.
  rewrite run_await_bind. unfold promiseAll. cbv zeta.
  rewrite advance_withDb.
  assert (Hfrom : forall W,
             db W = setSessions (db w)
                      (patchSession sid (setAssignedCs to) (sessions (db w))) ->
             updateCs from (addChats (-1)) W = (Thrown, W)).
  { intros W HW. unfold updateCs. rewrite HW.
    change (findCsStatus from (setSessions (db w)
              (patchSession sid (setAssignedCs to) (sessions (db w)))))
      with (findCsStatus from (db w)).
    rewrite Hf. reflexivity. }
  rewrite Hfrom by (rewrite db_withDb; reflexivity).
  cbn [fst snd].
  rewrite (updateCs_found to (addChats 1) _ ct) by (rewrite db_withDb; exact Ht).
  cbn [fst snd]. rewrite withDb_withDb, db_withDb.
  eexists. split; [reflexivity |]. rewrite db_withDb.
  pose proof (find_idIs_userId to (csStatuses (db w)) ct Ht) as Hidt.
  split.
  { unfold findSession in *. cbn [sessions setSessions setCsStatuses].
    rewrite find_patchSession by (intros; reflexivity).
    rewrite Hs. cbn [option_map].
    rewrite (find_idIs_sId _ _ _ Hs). reflexivity. }
  split.
  { unfold findCsStatus in *. cbn [csStatuses setSessions setCsStatuses].
    rewrite find_patchCs by (intros; reflexivity).
    rewrite Ht. cbn [option_map]. rewrite Hidt. reflexivity. }
  split.
  { unfold findCsStatus in *. cbn [csStatuses setSessions setCsStatuses].
    rewrite find_patchCs by (intros; reflexivity).
    rewrite Hf. reflexivity. }
  reflexivity.
Qed.

(** The status row of A1 is missing while A1 still holds Ada's chat. *)
Lemma transfer_without_source_row_witness :
  let w := withDb Scenario.activeWorld
             (mkDb (sessions (db Scenario.activeWorld))
                   (messages (db Scenario.activeWorld))
                   [mkCsStatus "A2" online 1 0 20]
                   (users (db Scenario.activeWorld)) []) in
  exists w',
    run (transferChat "ada" "A1" "A2") w = (Thrown, w')
    /\ option_map assignedCsId (findSession "ada" (db w')) = Some (Some "A2")
    /\ chatsOf "A2" w' = Some 1.
Proof.
  destruct (transfer_without_source_row
              (withDb Scenario.activeWorld
                 (mkDb (sessions (db Scenario.activeWorld))
                       (messages (db Scenario.activeWorld))
                       [mkCsStatus "A2" online 1 0 20]
                       (users (db Scenario.activeWorld)) []))
              "ada" "A1" "A2"
              (setAssigned "A1" 5002 Scenario.ada) Scenario.agent2
              (mkCsStatus "A2" online 1 0 20))
    as (w' & Hrun & Hs & Ht & _).
  - reflexivity.
  - reflexivity.
  - reflexivity.
  - reflexivity.
  - reflexivity.
  - exists w'. split; [exact Hrun |].
    split; [rewrite Hs; reflexivity |].
    unfold chatsOf. rewrite Ht. reflexivity.
Defined.

(** X4.  A transfer whose target has no status row, is not online, or has
    reached its limit is refused before anything is written: the handler
    answers with exactly one error frame, [TARGET_NOT_ONLINE] or
    [TARGET_AT_CAPACITY], and the store is unchanged. *)
Theorem transfer_refused_for_unavailable_target
    (w : World) (ws : nat) (conn : Conn) (uid sid to : Id) :
  findConn ws w = Some conn ->
  wsUserId conn = Some uid ->
  uid <> "" ->
  match findCsStatus to (db w) with
  | Some c => csState c <> online \/ maxChats c <= currentChats c
  | None => True
  end ->
  let r := run (handleCsTransferChat ws sid to) w in
  fst r = Ok tt
  /\ db (snd r) = db w
  /\ exists code msg t,
       inboxOf ws (snd r) =
       inbox conn ++ [mkFrame "system:error" (PError code msg) t]
       /\ (code = "TARGET_NOT_ONLINE" \/ code = "TARGET_AT_CAPACITY").
Proof.
  intros Hconn Huid Hne Ht r. subst r. unfold handleCsTransferChat.
  rewrite run_try_catch, run_sync_bind, wsData_fst, wsData_snd, Hconn, Huid.
  rewrite (isEmpty_false uid Hne).
  unfold getCsStatus. rewrite run_query_bind.
  assert (Hc' : findConn ws (advance w) = Some conn)
    by (rewrite findConn_advance; exact Hconn).
  destruct (findCsStatus to (db w)) as [c |].
  - destruct (CsState_eqb (csState c) online) eqn:Eon; cbn [negb].
    + assert (Hon : csState c = online)
        by (destruct (csState c); try discriminate; reflexivity).
      destruct Ht as [Hn | Hcap]; [contradiction |].
      destruct (Z.geb_spec (currentChats c) (maxChats c)) as [_ | Hlt]; [| lia].
      rewrite run_sync. cbn [fst snd]. split; [reflexivity |].
      split; [unfold wsSendError; rewrite db_wsSend; apply db_advance |].
      do 3 eexists. split;
        [unfold wsSendError; apply inboxOf_wsSend; exact Hc' | right; reflexivity].
    + rewrite run_sync. cbn [fst snd]. split; [reflexivity |].
      split; [unfold wsSendError; rewrite db_wsSend; apply db_advance |].
      do 3 eexists. split;
        [unfold wsSendError; apply inboxOf_wsSend; exact Hc' | left; reflexivity].
  - rewrite run_sync. cbn [fst snd]. split; [reflexivity |].
    split; [unfold wsSendError; rewrite db_wsSend; apply db_advance |].
    do 3 eexists. split;
      [unfold wsSendError; apply inboxOf_wsSend; exact Hc' | left; reflexivity].
Qed.

Lemma transfer_refused_for_unavailable_target_witness :
  db (snd (run (handleCsTransferChat 1 "ada" "A2") Scenario.busyFullWorld))
  = db Scenario.busyFullWorld.
Proof.
  destruct (transfer_refused_for_unavailable_target
              Scenario.busyFullWorld 1 (Scenario.csSocket 1 "A1") "A1" "ada" "A2")
    as (_ & H & _).
  - reflexivity.
  - reflexivity.
  - discriminate.
  - vm_compute. exact I.
  - exact H.
Defined.

(** ** Appending messages *)

(** X5.  [sendMessage] has three outcomes.  For an unknown session it
    answers "Chat session not found" and writes nothing; for a resolved or
    abandoned session it answers "Chat has ended" and writes nothing; for a
    waiting or active session it appends exactly one message, unread, with
    the given session, sender, content and type, stamped not earlier than
    the call, returns that message's id, and leaves the sessions alone. *)
Theorem sendMessage_outcomes
    (w : World) (sid : Id) (st : SenderType) (text : string)
    (sender : option Id) (mt : MessageType) :
  match findSession sid (db w) with
  | None =>
      run (sendMessage sid st text sender mt) w
      = (Ok (mkSend false "Chat session not found" None), advance w)
  | Some s =>
      if isOpen (status s) then
        exists t w',
          let m := mkMessage (List.length (messages (db w))) sid st sender
                             text mt false t in
          run (sendMessage sid st text sender mt) w
          = (Ok (mkSend true "Message sent" (Some (mId m))), w')
          /\ messages (db w') = messages (db w) ++ [m]
          /\ sessions (db w') = sessions (db w)
          /\ csStatuses (db w') = csStatuses (db w)
          /\ clock w <= t
      else
        run (sendMessage sid st text sender mt) w
        = (Ok (mkSend false "Chat has ended" None), advance w)
  end.
Proof.
  unfold sendMessage. rewrite run_try_catch, run_query_bind.
  destruct (findSession sid (db w)) as [s |]; [| reflexivity].
  destruct (isOpen (status s)); cbn [negb]; [| reflexivity].
  rewrite run_await_bind. unfold createMessage. cbn [run mId].
  rewrite !db_advance.
  do 2 eexists. cbv zeta. split; [reflexivity |].
  rewrite db_withDb. cbn [setMessages messages sessions csStatuses].
  repeat split. clock_mono.
Qed.

(** ** Starting a chat and reading it back *)

Lemma find_app_none {A : Type} (p : A -> bool) (l : list A) (x : A) :
  find p l = None -> p x = true -> find p (l ++ [x]) = Some x.
Proof.
  intros Hn Hx. induction l as [| a l IH]; simpl in *.
  - rewrite Hx. reflexivity.
  - destruct (p a); [discriminate | apply IH, Hn].
Qed.

(** X6.  Round trip of [initChat] and [getSessionByToken]: when the token is
    not in use and no stored message carries the new id, the session read
    back by the token has the new id, the customer's name and email, status
    waiting, no agent, no rating, and a transcript made of the single
    system welcome message. *)
Theorem initChat_then_getSessionByToken
    (w : World) (newId : Id) (tok : string) (cname cemail : option string) :
  findSessionByToken tok (db w) = None ->
  sessionMessages newId (db w) = [] ->
  let w1 := snd (run (initChat newId tok cname cemail) w) in
  exists full,
    fst (run (getSessionByToken tok) w1) = Ok (Some full)
    /\ db (snd (run (getSessionByToken tok) w1)) = db w1
    /\ sId (fSession full) = newId
    /\ customerName (fSession full) = cname
    /\ customerEmail (fSession full) = cemail
    /\ customerToken (fSession full) = tok
    /\ status (fSession full) = waiting
    /\ assignedCsId (fSession full) = None
    /\ rating (fSession full) = None
    /\ fAssignedCs full = None
    /\ map (fun v => (vSenderType v, vContent v)) (fMessages full)
       = [(sender_system, "Chat started. Waiting for customer service...")].
Proof.
  intros Htok Hmsgs w1. subst w1.
  rewrite run_initChat. cbn [snd].
  unfold getSessionByToken. rewrite run_query. cbn [fst snd].
  rewrite db_advance, db_withDb.
  unfold findSessionByToken, initDb in *. cbn [sessions].
  rewrite (find_app_none _ _ _ Htok) by (cbn [customerToken]; apply String.eqb_refl).
  cbn [option_map]. eexists. split; [reflexivity |].
  split; [reflexivity |].
  cbn [withIncludes fSession fAssignedCs fMessages sId customerName
       customerEmail customerToken status assignedCsId rating
       includeAssignedCs includeMessages].
  repeat (split; [reflexivity |]).
  unfold includeMessages, sessionMessages in *. cbn [messages sId].
  rewrite filter_app, Hmsgs. cbn [filter mSessionId app].
  rewrite idIs_refl. reflexivity.
Qed.

Lemma initChat_then_getSessionByToken_witness :
  exists full,
    fst (run (getSessionByToken "cust_bob")
             (snd (run (initChat "bob" "cust_bob" (Some "Bob") None)
                       Scenario.activeWorld))) = Ok (Some full)
    /\ customerName (fSession full) = Some "Bob"
    /\ status (fSession full) = waiting.
Proof.
  destruct (initChat_then_getSessionByToken
              Scenario.activeWorld "bob" "cust_bob" (Some "Bob") None)
    as (full & H1 & _ & _ & H2 & _ & _ & H3 & _).
  - reflexivity.
  - reflexivity.
  - exists full. repeat split; assumption.
Defined.

(** ** The customer leaves *)

(** X7.  A customer end-chat on a waiting or active session abandons it:
    the stored row gets status abandoned and a [resolvedAt] not before the
    call, and keeps every other field, its agent among them.  Capacity is
    released exactly where it was held: the row of the assigned agent (a
    non-empty id) has [currentChats] one lower and is otherwise kept, and
    every other status row is unchanged, as are all rows when the session
    has no agent. *)
Theorem endChat_releases_assigned_agent
    (w : World) (sid : Id) (s : ChatSession) :
  findSession sid (db w) = Some s ->
  isOpen (status s) = true ->
  (forall u, assignedCsId s = Some u -> u <> "" ->
             findCsStatus u (db w) <> None) ->
  exists t w',
    let s' := mkSession (sId s) (customerName s) (customerEmail s)
                        (customerToken s) abandoned (assignedCsId s)
                        (sCreatedAt s) (assignedAt s) (Some t)
                        (rating s) (feedback s) in
    clock w <= t
    /\ run (endChat sid) w = (Ok (Some s'), w')
    /\ findSession sid (db w') = Some s'
    /\ (forall u c,
          assignedCsId s = Some u -> u <> "" ->
          findCsStatus u (db w) = Some c ->
          findCsStatus u (db w')
          = Some (mkCsStatus (userId c) (csState c) (maxChats c)
                             (currentChats c - 1) (lastActiveAt c)))
    /\ (forall u,
          assignedCsId s <> Some u \/ u = "" ->
          findCsStatus u (db w') = findCsStatus u (db w)).
Proof.
  intros Hs Ho Hcs.
  destruct (run_endChat_open w sid s Hs Ho Hcs) as (w3 & _ & Hrun).
  exists (clock (advance w)). eexists. cbv zeta.
  split; [apply clock_advance |].
  split; [exact Hrun |]. rewrite db_withDb.
  split.
  { unfold findSession in *. cbn [sessions].
    rewrite find_patchSession by (intros; reflexivity).
    rewrite Hs. cbn [option_map].
    rewrite (find_idIs_sId _ _ _ Hs). reflexivity. }
  split.
  - intros u c Ha Hne Hc. unfold findCsStatus in *. cbn [csStatuses].
    rewrite Ha, (isEmpty_false u Hne).
    rewrite find_patchCs by (intros; reflexivity).
    rewrite Hc. cbn [option_map].
    rewrite (find_idIs_userId _ _ _ Hc). reflexivity.
  - intros u Hu. unfold findCsStatus. cbn [csStatuses].
    destruct (assignedCsId s) as [a |]; [| reflexivity].
    destruct (isEmpty a) eqn:Ea; [reflexivity |].
    rewrite find_patchCs by (intros; reflexivity).
    destruct (find (fun c => idIs u (userId c)) (csStatuses (db w)))
      as [c |] eqn:Ec; [| reflexivity].
    cbn [option_map]. pose proof (find_idIs_userId _ _ _ Ec) as Hid.
    apply idIs_eq in Hid. rewrite <- Hid.
    assert (Hau : a <> u).
    { intros E. subst a. destruct Hu as [Hu | Hu];
        [apply Hu; reflexivity | rewrite Hu in Ea; discriminate Ea]. }
    rewrite (idIs_neq a u Hau). reflexivity.
Qed.

Lemma endChat_releases_assigned_agent_witness :
  exists t w',
    run (endChat "ada") Scenario.activeWorld
    = (Ok (Some (mkSession "ada" (Some "Ada") None "cust_ada" abandoned
                           (Some "A1") 1000 (Some 5002) (Some t) None None)),
       w')
    /\ chatsOf "A1" w' = Some 0
    /\ chatsOf "A2" w' = Some 0.
Proof.
  destruct (endChat_releases_assigned_agent
              Scenario.activeWorld "ada" (setAssigned "A1" 5002 Scenario.ada))
    as (t & w' & _ & Hrun & _ & Hdec & Hkeep).
  - reflexivity.
  - reflexivity.
  - intros u Hu _. inversion Hu; subst u. vm_compute. discriminate.
  - exists t, w'. split; [exact Hrun |].
    unfold chatsOf.
    rewrite (Hdec "A1" (mkCsStatus "A1" online 1 1 10));
      [| reflexivity | discriminate | reflexivity].
    rewrite (Hkeep "A2") by (left; discriminate).
    split; reflexivity.
Defined.

(** ** The queue *)

Lemma queueItems_ids (now i : Z) (l : list WaitingChat) :
  map qSessionId (queueItems now i l) = map (fun c => sId (wcSession c)) l.
Proof.
  revert i; induction l as [| c l IH]; intros i; simpl; [reflexivity |].
  rewrite IH. reflexivity.
Qed.

Lemma queueItems_createdAt (now i : Z) (l : list WaitingChat) :
  map qCreatedAt (queueItems now i l)
  = map (fun c => sCreatedAt (wcSession c)) l.
Proof.
  revert i; induction l as [| c l IH]; intros i; simpl; [reflexivity |].
  rewrite IH. reflexivity.
Qed.

Lemma queueItems_position (now : Z) (l : list WaitingChat) :
  forall (i : Z) (k : nat) (item : QueueItem),
    nth_error (queueItems now i l) k = Some item ->
    position item = i + Z.of_nat k + 1.
Proof.
  induction l as [| c l IH]; intros i k item H.
  - destruct k; discriminate.
  - destruct k as [| k]; simpl in H.
    + inversion H; subst item. cbn [position]. lia.
    + rewrite (IH (i + 1) k item H). lia.
Qed.

Lemma StronglySorted_map_key {A : Type} (key : A -> Z) (l : list A) :
  StronglySorted (fun x y => key x <= key y) l ->
  StronglySorted Z.le (map key l).
Proof.
  induction 1 as [| x l Hl IH Hx]; simpl; constructor; [exact IH |].
  apply Forall_forall. intros z Hz. apply in_map_iff in Hz.
  destruct Hz as (y & <- & Hy). rewrite Forall_forall in Hx. apply Hx, Hy.
Qed.

(** The waiting sessions, oldest first, as [getWaitingChats] lists them. *)
Lemma waiting_sessions_of_query (d : Db) (f : ChatSession -> option Message) :
  map wcSession
      (map (fun s => mkWaiting s (f s))
           (sortBy sCreatedAt (filter isWaiting (sessions d))))
  = sortBy sCreatedAt (filter isWaiting (sessions d)).
Proof. rewrite map_map. cbn [wcSession]. apply map_id. Qed.

Lemma run_getQueue (w : World) :
  exists f,
    run getQueue w
    = (Ok (queueItems (clock (advance w)) 0
             (map (fun s => mkWaiting s (f s))
                  (sortBy sCreatedAt (filter isWaiting (sessions (db w)))))),
       advance w).
Proof.
  unfold getQueue, getWaitingChats.
  rewrite run_query_bind, run_sync_bind. cbn [readClock fst snd run].
  eexists (fun s => _). reflexivity.
Qed.

Lemma getQueue_spec (w : World) :
  exists items,
    run getQueue w = (Ok items, advance w)
    /\ map qSessionId items
       = map sId (sortBy sCreatedAt (filter isWaiting (sessions (db w))))
    /\ (forall k item, nth_error items k = Some item ->
                       position item = Z.of_nat k + 1)
    /\ StronglySorted Z.le (map qCreatedAt items)
    /\ (forall sid,
          In sid (map qSessionId items) <->
          exists s, In s (sessions (db w)) /\ sId s = sid /\ status s = waiting).
Proof.
  destruct (run_getQueue w) as [f Hrun].
  eexists. split; [exact Hrun |].
  split.
  { rewrite queueItems_ids, map_map. reflexivity. }
  split.
  { intros k item H. rewrite (queueItems_position _ _ 0 k item H). lia. }
  split.
  { rewrite queueItems_createdAt, map_map. cbn [wcSession].
    apply StronglySorted_map_key, sortBy_sorted. }
  intros sid. rewrite queueItems_ids, map_map. cbn [wcSession].
  rewrite in_map_iff. split.
  - intros (s & Hid & Hin). rewrite sortBy_In in Hin.
    apply filter_In in Hin. destruct Hin as [Hin Hw].
    exists s. repeat split; try assumption.
    unfold isWaiting in Hw. destruct (status s); try discriminate; reflexivity.
  - intros (s & Hin & Hid & Hw). exists s. split; [exact Hid |].
    rewrite sortBy_In. apply filter_In. split; [exact Hin |].
    unfold isWaiting. rewrite Hw. reflexivity.
Qed.

(** X8.  [getQueue] lists exactly the waiting sessions, ordered by
    [createdAt] ascending, and numbers them 1, 2, 3, ... in that order; it
    writes nothing. *)
Theorem getQueue_lists_waiting_in_order (w : World) :
  exists items,
    run getQueue w = (Ok items, advance w)
    /\ map qSessionId items
       = map sId (sortBy sCreatedAt (filter isWaiting (sessions (db w))))
    /\ (forall k item, nth_error items k = Some item ->
                       position item = Z.of_nat k + 1)
    /\ StronglySorted Z.le (map qCreatedAt items)
    /\ (forall sid,
          In sid (map qSessionId items) <->
          exists s, In s (sessions (db w)) /\ sId s = sid /\ status s = waiting).
Proof. exact (getQueue_spec w). Qed.

Lemma length_sortBy {A : Type} (key : A -> Z) (l : list A) :
  List.length (sortBy key l) = List.length l.
Proof. symmetry. apply Permutation_length, sortBy_perm. Qed.

Lemma length_queueItems (now i : Z) (l : list WaitingChat) :
  List.length (queueItems now i l) = List.length l.
Proof.
  revert i; induction l as [| c l IH]; intros i; simpl; [reflexivity |].
  rewrite IH. reflexivity.
Qed.

(** X9.  [getQueuePosition] answers null exactly for the ids that no waiting
    session carries; otherwise the position lies between 1 and the number
    of waiting sessions. *)
Theorem getQueuePosition_range (w : World) (sid : Id) :
  match fst (run (getQueuePosition sid) w) with
  | Ok (Some p) =>
      1 <= p <= Z.of_nat (List.length (filter isWaiting (sessions (db w))))
      /\ exists s, In s (sessions (db w)) /\ sId s = sid /\ status s = waiting
  | Ok None =>
      forall s, In s (sessions (db w)) -> sId s = sid -> status s <> waiting
  | Thrown => False
  end.
Proof.
  destruct (getQueue_spec w)
    as (items & Hrun & Hids & Hpos & _ & Hmem).
  unfold getQueuePosition. rewrite run_bind, Hrun. cbn [run fst].
  destruct (find (fun q => idIs (qSessionId q) sid) items) as [q |] eqn:Ef;
    cbn [option_map].
  - apply find_some in Ef. destruct Ef as [Hin Hid]. apply idIs_eq in Hid.
    destruct (In_nth_error _ _ Hin) as [k Hk].
    rewrite (Hpos k q Hk).
    assert (Hlt : (k < List.length items)%nat)
      by (apply nth_error_Some; rewrite Hk; discriminate).
    assert (Hlen : List.length items
                   = List.length (filter isWaiting (sessions (db w)))).
    { rewrite <- (length_map qSessionId items), Hids, length_map.
      apply length_sortBy. }
    split; [lia |].
    apply Hmem. rewrite <- Hid. apply in_map, Hin.
  - intros s Hin Hid Hw.
    assert (Hm : In sid (map qSessionId items))
      by (apply Hmem; exists s; repeat split; assumption).
    apply in_map_iff in Hm. destruct Hm as (q & Hq & Hqin).
    pose proof (find_none _ _ Ef q Hqin) as Hf. cbn beta in Hf.
    rewrite Hq, idIs_refl in Hf. discriminate.
Qed.

(** ** Moving a chat to the front of the queue *)

Lemma position_of_front (w : World) (sid : Id) (h : ChatSession)
    (rest : list ChatSession) :
  sortBy sCreatedAt (filter isWaiting (sessions (db w))) = h :: rest ->
  sId h = sid ->
  run (getQueuePosition sid) w = (Ok (Some 1), advance w).
Proof.
  intros HL Hid. unfold getQueuePosition.
  destruct (run_getQueue w) as [f Hrun].
  rewrite run_bind, Hrun, HL.
  cbn [map queueItems run find qSessionId wcSession].
  rewrite Hid, idIs_refl. reflexivity.
Qed.

Lemma filter_patchSession (sid : Id) (t : Z) (l : list ChatSession) :
  filter isWaiting (patchSession sid (setCreatedAt t) l)
  = patchSession sid (setCreatedAt t) (filter isWaiting l).
Proof.
  induction l as [| x l IH]; simpl; [reflexivity |].
  destruct (idIs sid (sId x)) eqn:E.
  - change (isWaiting (setCreatedAt t x)) with (isWaiting x).
    destruct (isWaiting x); simpl; [rewrite E, IH | rewrite IH]; reflexivity.
  - destruct (isWaiting x); simpl; [rewrite E, IH | rewrite IH]; reflexivity.
Qed.

Lemma sorted_head_least (l rest : list ChatSession) (o x : ChatSession) :
  sortBy sCreatedAt l = o :: rest -> In x l -> sCreatedAt o <= sCreatedAt x.
Proof.
  intros HL Hx.
  pose proof (sortBy_sorted sCreatedAt l) as Hs. rewrite HL in Hs.
  assert (Hin : In x (o :: rest))
    by (rewrite <- HL; apply sortBy_In; exact Hx).
  destruct Hin as [<- | Hin]; [lia |].
  apply StronglySorted_inv in Hs. destruct Hs as [_ Hall].
  rewrite Forall_forall in Hall. apply Hall, Hin.
Qed.

(** A session whose [createdAt] is set below that of every other row comes
    first in the ordered query. *)
Lemma patched_session_comes_first (l : list ChatSession) (sid : Id)
    (tn to : Z) (s : ChatSession) :
  In s l -> sId s = sid ->
  (forall x, In x l -> to <= sCreatedAt x) ->
  tn < to ->
  exists h rest,
    sortBy sCreatedAt (patchSession sid (setCreatedAt tn) l) = h :: rest
    /\ sId h = sid.
Proof.
  intros Hs Hid Hall Hlt.
  set (g := fun x => if idIs sid (sId x) then setCreatedAt tn x else x).
  assert (Hgs : In (setCreatedAt tn s) (patchSession sid (setCreatedAt tn) l)).
  { unfold patchSession. apply in_map_iff. exists s.
    split; [rewrite Hid, idIs_refl; reflexivity | exact Hs]. }
  destruct (sortBy sCreatedAt (patchSession sid (setCreatedAt tn) l))
    as [| h rest] eqn:EL.
  - exfalso. apply (sortBy_In sCreatedAt) in Hgs. rewrite EL in Hgs.
    destruct Hgs.
  - exists h, rest. split; [reflexivity |].
    pose proof (sorted_head_least _ _ h _ EL Hgs) as Hle.
    cbn [setCreatedAt sCreatedAt] in Hle.
    assert (Hh : In h (patchSession sid (setCreatedAt tn) l)).
    { apply (sortBy_In sCreatedAt). rewrite EL. left; reflexivity. }
    unfold patchSession in Hh. apply in_map_iff in Hh.
    destruct Hh as (x & Hx & Hxin).
    destruct (idIs sid (sId x)) eqn:E.
    + subst h. cbn [setCreatedAt sId]. apply idIs_eq in E. symmetry; exact E.
    + subst h. pose proof (Hall x Hxin). lia.
Qed.

(** X10.  [prioritizeChat] answers null and writes nothing for an unknown
    session or one that is not waiting.  For a waiting session it answers
    position 1: the session is first in the queue afterwards, and no session
    with another id is changed. *)
Theorem prioritizeChat_moves_to_front (w : World) (sid : Id) :
  match findSession sid (db w) with
  | None => run (prioritizeChat sid) w = (Ok None, advance w)
  | Some s =>
      if isWaiting s then
        fst (run (prioritizeChat sid) w) = Ok (Some 1)
        /\ (exists h rest,
               sortBy sCreatedAt
                 (filter isWaiting
                    (sessions (db (snd (run (prioritizeChat sid) w)))))
               = h :: rest /\ sId h = sid)
        /\ forall sid', sid' <> sid ->
             findSession sid' (db (snd (run (prioritizeChat sid) w)))
             = findSession sid' (db w)
      else run (prioritizeChat sid) w = (Ok None, advance w)
  end.
Proof.
  unfold prioritizeChat. rewrite run_query_bind.
  destruct (findSession sid (db w)) as [s |] eqn:Hs; [| reflexivity].
  destruct (isWaiting s) eqn:Hw; cbn [negb]; [| reflexivity].
  pose proof (find_some _ _ Hs) as [Hin Hid]. apply idIs_eq in Hid.
  assert (HinF : In s (filter isWaiting (sessions (db w))))
    by (apply filter_In; split; assumption).
  rewrite run_query_bind, db_advance. unfold oldestWaiting.
  destruct (sortBy sCreatedAt (filter isWaiting (sessions (db w))))
    as [| o rest] eqn:EL.
  { exfalso. apply (sortBy_In sCreatedAt) in HinF. rewrite EL in HinF.
    destruct HinF. }
  cbn [hd_error]. rewrite run_bind.
  destruct (idIs (sId o) sid) eqn:E; cbn [negb].
  - cbn [run].
    assert (HL : sortBy sCreatedAt
                   (filter isWaiting (sessions (db (advance (advance w)))))
                 = o :: rest) by (rewrite !db_advance; exact EL).
    apply idIs_eq in E.
    rewrite (position_of_front _ sid o rest HL E). cbn [fst snd].
    rewrite !db_advance. split; [reflexivity |].
    split; [exists o, rest; split; assumption | reflexivity].
  - rewrite run_await_bind. unfold updateSession. rewrite !db_advance, Hs.
    cbn [run].
    destruct (patched_session_comes_first
                (filter isWaiting (sessions (db w))) sid
                (sCreatedAt o - 1000) (sCreatedAt o) s HinF (eq_sym Hid))
      as (h & rest' & HL' & Hh).
    { intros x Hx. eapply sorted_head_least; [exact EL | exact Hx]. }
    { lia. }
    rewrite <- filter_patchSession in HL'.
    set (W := withDb (advance (advance (advance w)))
                (setSessions (db w)
                   (patchSession sid (setCreatedAt (sCreatedAt o - 1000))
                      (sessions (db w))))).
    assert (HLW : sortBy sCreatedAt (filter isWaiting (sessions (db W)))
                  = h :: rest') by exact HL'.
    rewrite (position_of_front W sid h rest' HLW Hh). cbn [fst snd].
    rewrite db_advance.
    split; [reflexivity |].
    split; [exists h, rest'; split; assumption |].
    intros sid' Hne. unfold W. rewrite db_withDb.
    unfold findSession. cbn [setSessions sessions].
    rewrite find_patchSession by (intros; reflexivity).
    destruct (find (fun s0 => idIs sid' (sId s0)) (sessions (db w)))
      as [s1 |] eqn:E1; [| reflexivity].
    cbn [option_map]. pose proof (find_idIs_sId _ _ _ E1) as H1.
    apply idIs_eq in H1. rewrite <- H1.
    rewrite (idIs_neq sid sid') by (intros E'; apply Hne; symmetry; exact E').
    reflexivity.
Qed.

(** ** Rating *)





(** ** Presence *)

Lemma db_notifyCsStatusChanged (uid : Id) (nm : string) (st : CsState)
    (w : World) :
  db (snd (notifyCsStatusChanged uid nm st w)) = db w.
Proof.
  unfold notifyCsStatusChanged, andThen, notifyQueue, notifyAdmins.
  rewrite !db_publish. reflexivity.
Qed.

(** The presence update of a user that exists and has a status row. *)
Lemma run_updateCsStatus_existing (w : World) (uid : Id) (st : CsState)
    (u : User) (c : CsStatus) :
  findUser uid (db w) = Some u ->
  findCsStatus uid (db w) = Some c ->
  run (updateCsStatus uid st) w
  = (Ok (Some (setState st (clock (advance w)) c)),
     withDb (advance (advance (advance w)))
       (mkDb (sessions (db w)) (messages (db w))
             (patchCs uid (setState st (clock (advance w))) (csStatuses (db w)))
             (users (db w))
             (activityLogs (db w)
              ++ [mkLog uid "status_changed" (stateName st)]))).
Proof.
  intros Hu Hc. unfold updateCsStatus.
  rewrite run_try_catch, run_query_bind, Hu.
  rewrite run_sync_bind. cbn [readClock fst snd].
  rewrite run_await_bind. unfold upsertCs. rewrite !db_advance, Hc.
  rewrite run_await_bind. unfold createLog.
  rewrite advance_withDb, withDb_withDb, db_withDb.
  reflexivity.
Qed.

(** X12.  When the socket of an agent closes, the agent's status row is set
    to offline and nothing else about capacity or assignment changes: its
    [currentChats] and [maxChats] are kept, the rows of the other agents are
    untouched, and every session keeps its status and its agent. *)
Theorem disconnect_keeps_assignments
    (w : World) (ws : nat) (conn : Conn) (uid : Id) (u : User) (c : CsStatus) :
  findConn ws w = Some conn ->
  wsUserId conn = Some uid ->
  uid <> "" ->
  findUser uid (db w) = Some u ->
  findCsStatus uid (db w) = Some c ->
  let r := run (handleCsDisconnect ws) w in
  fst r = Ok tt
  /\ sessions (db (snd r)) = sessions (db w)
  /\ messages (db (snd r)) = messages (db w)
  /\ (exists t, findCsStatus uid (db (snd r))
                = Some (mkCsStatus uid offline (maxChats c) (currentChats c) t))
  /\ forall u', u' <> uid ->
       findCsStatus u' (db (snd r)) = findCsStatus u' (db w).
Proof.
  intros Hconn Huid Hne Hu Hc r. subst r. unfold handleCsDisconnect.
  rewrite run_try_catch, run_sync_bind, wsData_fst, wsData_snd, Hconn, Huid.
  assert (Htr : truthy (Some uid) = true).
  { unfold truthy, isEmpty. destruct (String.eqb_spec uid "");
      [contradiction | reflexivity]. }
  rewrite Htr. cbn [negb].
  rewrite run_bind, (run_updateCsStatus_existing w uid offline u c Hu Hc).
  rewrite run_query_bind, run_sync_bind. cbn [run fst snd].
  rewrite db_notifyCsStatusChanged, db_advance, !db_withDb.
  cbn [sessions messages].
  split; [reflexivity |]. split; [reflexivity |]. split; [reflexivity |].
  pose proof (find_idIs_userId uid (csStatuses (db w)) c Hc) as Hid.
  apply idIs_eq in Hid.
  split.
  - eexists. unfold findCsStatus in *. cbn [csStatuses].
    rewrite find_patchCs by (intros; reflexivity).
    rewrite Hc. cbn [option_map]. rewrite <- Hid, idIs_refl.
    unfold setState. rewrite <- Hid. reflexivity.
  - intros u' Hne'. unfold findCsStatus. cbn [csStatuses].
    rewrite find_patchCs by (intros; reflexivity).
    destruct (find (fun c0 => idIs u' (userId c0)) (csStatuses (db w)))
      as [c' |] eqn:Ec'; [| reflexivity].
    cbn [option_map]. pose proof (find_idIs_userId _ _ _ Ec') as H'.
    apply idIs_eq in H'. rewrite <- H'.
    rewrite (idIs_neq uid u') by (intros E; apply Hne'; symmetry; exact E).
    reflexivity.
Qed.

Lemma disconnect_keeps_assignments_witness :
  let r := run (handleCsDisconnect 1) Scenario.activeWorld in
  sessions (db (snd r)) = sessions (db Scenario.activeWorld)
  /\ exists t, findCsStatus "A1" (db (snd r))
               = Some (mkCsStatus "A1" offline 1 1 t).
Proof.
  destruct (disconnect_keeps_assignments
              Scenario.activeWorld 1 (Scenario.csSocket 1 "A1") "A1"
              Scenario.agent1 (mkCsStatus "A1" online 1 1 10))
    as (_ & H1 & _ & H2 & _).
  - reflexivity.
  - reflexivity.
  - discriminate.
  - reflexivity.
  - reflexivity.
  - split; [exact H1 | exact H2].
Defined.

(** X13.  The close of a customer's socket never writes to the store: the
    handler ends normally on every connection and in every state, so a
    disconnect alone neither abandons a chat nor releases capacity. *)
Theorem customer_disconnect_writes_nothing (w : World) (ws : nat) :
  fst (run (handleCustomerDisconnect ws) w) = Ok tt
  /\ db (snd (run (handleCustomerDisconnect ws) w)) = db w.
Proof.
  unfold handleCustomerDisconnect.
  rewrite run_try_catch, run_sync_bind, wsData_fst, wsData_snd.
  rewrite run_sync_bind, wsData_fst, wsData_snd.
  destruct (match findConn ws w with
            | Some c => wsSessionId c
            | None => None
            end) as [sid |]; [| split; reflexivity].
  destruct (match findConn ws w with
            | Some c => wsCustomerToken c
            | None => None
            end) as [tok |]; [| split; reflexivity].
  destruct (isEmpty sid || isEmpty tok); [split; reflexivity |].
  unfold getSessionByToken. rewrite run_query_bind.
  destruct (option_map (withIncludes (db w)) (findSessionByToken tok (db w)))
    as [s |]; [| cbn [run fst snd]; split; [reflexivity | apply db_advance]].
  destruct (isOpen (status (fSession s)) && truthy (assignedCsId (fSession s))).
  - rewrite run_sync_bind. cbn [run fst snd].
    rewrite db_notifyCustomerLeft. split; [reflexivity | apply db_advance].
  - cbn [run fst snd]. split; [reflexivity | apply db_advance].
Qed.

(** ** Read marks *)

Lemma isUnreadFrom_markRead (sid : Id) (st : SenderType) (m : Message) :
  isUnreadFrom sid st (markRead m) = false.
Proof.
  unfold isUnreadFrom, markRead. cbn [isRead negb]. apply andb_false_r.
Qed.

Lemma unread_after_mark (sid sid' : Id) (st st' : SenderType)
    (l : list Message) :
  filter (isUnreadFrom sid' st')
         (map (fun m => if isUnreadFrom sid st m then markRead m else m) l)
  = filter (fun m => isUnreadFrom sid' st' m && negb (isUnreadFrom sid st m)) l.
Proof.
  induction l as [| m l IH]; simpl; [reflexivity |].
  destruct (isUnreadFrom sid st m) eqn:E.
  - rewrite isUnreadFrom_markRead, andb_false_r. exact IH.
  - rewrite andb_true_r. destruct (isUnreadFrom sid' st' m); rewrite IH; reflexivity.
Qed.

Lemma isUnreadFrom_other (sid sid' : Id) (st st' : SenderType) (m : Message) :
  sid' <> sid \/ st' <> st ->
  isUnreadFrom sid st m = true -> isUnreadFrom sid' st' m = false.
Proof.
  intros Hne H. unfold isUnreadFrom in *.
  apply andb_true_iff in H. destruct H as [H _].
  apply andb_true_iff in H. destruct H as [H1 H2].
  apply idIs_eq in H1.
  destruct Hne as [Hs | Hs].
  - rewrite (idIs_neq sid' (mSessionId m)) by (rewrite <- H1; exact Hs).
    reflexivity.
  - assert (E : SenderType_eqb (senderType m) st' = false).
    { destruct (senderType m), st, st'; try discriminate; try reflexivity;
        exfalso; apply Hs; reflexivity. }
    rewrite E, andb_false_r. reflexivity.
Qed.

Lemma run_markMessagesAsRead (w : World) (sid : Id) (uid : option Id) :
  run (markMessagesAsRead sid uid) w
  = (Ok tt,
     withDb (advance w)
       (setMessages (db w)
          (map (fun m =>
                  if isUnreadFrom sid
                       (if truthy uid then sender_customer else sender_cs) m
                  then markRead m else m)
               (messages (db w))))).
Proof.
  unfold markMessagesAsRead, await. cbn [run]. rewrite !db_advance. reflexivity.
Qed.

(** X14.  After [markMessagesAsRead] for a session, the unread count of the
    other party's messages in that session is 0 (the customer's messages
    when an agent id is given, the agent's otherwise); the unread count of
    any other session or sender is what it was, and no message is added,
    removed or altered in anything but its read flag. *)
Theorem markMessagesAsRead_clears_unread
    (w : World) (sid : Id) (uid : option Id) :
  let st := if truthy uid then sender_customer else sender_cs in
  let w1 := snd (run (markMessagesAsRead sid uid) w) in
  fst (run (getUnreadCount sid st) w1) = Ok 0
  /\ (forall sid' st',
        sid' <> sid \/ st' <> st ->
        fst (run (getUnreadCount sid' st') w1)
        = fst (run (getUnreadCount sid' st') w))
  /\ map (fun m => (mId m, mSessionId m, senderType m, senderId m, content m,
                    messageType m, mCreatedAt m)) (messages (db w1))
     = map (fun m => (mId m, mSessionId m, senderType m, senderId m, content m,
                      messageType m, mCreatedAt m)) (messages (db w))
  /\ sessions (db w1) = sessions (db w).
Proof.
  intros st w1. subst w1.
  rewrite (run_markMessagesAsRead w sid uid). fold st. cbn [snd].
  unfold getUnreadCount. rewrite !run_query. cbn [fst].
  rewrite !db_withDb. cbn [setMessages messages sessions].
  split.
  { rewrite unread_after_mark.
    replace (filter (fun m => isUnreadFrom sid st m && negb (isUnreadFrom sid st m))
                    (messages (db w))) with (@nil Message); [reflexivity |].
    symmetry. induction (messages (db w)) as [| m l IH]; simpl; [reflexivity |].
    rewrite andb_negb_r. exact IH. }
  split.
  { intros sid' st' Hne. rewrite !run_query. cbn [fst].
    rewrite db_withDb. cbn [setMessages messages].
    rewrite unread_after_mark. do 3 f_equal.
    apply filter_ext_in. intros m _.
    destruct (isUnreadFrom sid st m) eqn:E; cbn [negb].
    - rewrite (isUnreadFrom_other sid sid' st st' m Hne E). reflexivity.
    - apply andb_true_r. }
  split; [| reflexivity].
  rewrite map_map. apply map_ext. intros m.
  destruct (isUnreadFrom sid st m); reflexivity.
Qed.

(** ** Rooms *)

Lemma hasTopic_addTopic_same (t : string) (c : Conn) :
  hasTopic t (addTopic t c) = true.
Proof.
  unfold addTopic. destruct (hasTopic t c) eqn:E; [exact E |].
  unfold hasTopic. cbn [topics]. rewrite existsb_app. cbn [existsb].
  rewrite String.eqb_refl. apply orb_true_iff. right. reflexivity.
Qed.

Lemma hasTopic_addTopic_keep (t t' : string) (c : Conn) :
  hasTopic t c = true -> hasTopic t (addTopic t' c) = true.
Proof.
  intros H. unfold addTopic. destruct (hasTopic t' c); [exact H |].
  unfold hasTopic in *. cbn [topics]. rewrite existsb_app, H. reflexivity.
Qed.

Lemma addTopic_present (t : string) (c : Conn) :
  hasTopic t c = true -> addTopic t c = c.
Proof. intros H. unfold addTopic. rewrite H. reflexivity. Qed.

Lemma connRole_addTopic (t : string) (c : Conn) :
  connRole (addTopic t c) = connRole c.
Proof. unfold addTopic; destruct (hasTopic t c); reflexivity. Qed.

Lemma wsSessionId_addTopic (t : string) (c : Conn) :
  wsSessionId (addTopic t c) = wsSessionId c.
Proof. unfold addTopic; destruct (hasTopic t c); reflexivity. Qed.

Lemma wsUserId_addTopic (t : string) (c : Conn) :
  wsUserId (addTopic t c) = wsUserId c.
Proof. unfold addTopic; destruct (hasTopic t c); reflexivity. Qed.

Lemma subscribeToRooms_data (c : Conn) :
  connRole (subscribeToRooms c) = connRole c
  /\ wsSessionId (subscribeToRooms c) = wsSessionId c
  /\ wsUserId (subscribeToRooms c) = wsUserId c.
Proof.
  destruct c as [i r u s k tp ib]. unfold subscribeToRooms.
  rewrite connRole_addTopic, wsSessionId_addTopic, wsUserId_addTopic.
  destruct r; cbn [connRole wsSessionId wsUserId].
  - destruct s as [sid |]; [destruct (isEmpty sid) |];
      rewrite ?connRole_addTopic, ?wsSessionId_addTopic, ?wsUserId_addTopic;
      repeat split.
  - destruct u as [uid |]; [destruct (isEmpty uid) |];
      rewrite ?connRole_addTopic, ?wsSessionId_addTopic, ?wsUserId_addTopic;
      repeat split.
  - rewrite ?connRole_addTopic, ?wsSessionId_addTopic, ?wsUserId_addTopic.
    repeat split.
Qed.

(** X15.  Subscribing a connection to its rooms twice is the same as once,
    every connection ends up subscribed to [broadcast], and for a connection
    that had no subscription, unsubscribing from the rooms after subscribing
    leaves it with none. *)
Theorem rooms_subscribe_unsubscribe (c : Conn) :
  subscribeToRooms (subscribeToRooms c) = subscribeToRooms c
  /\ hasTopic topicBroadcast (subscribeToRooms c) = true
  /\ (topics c = [] -> topics (unsubscribeFromRooms (subscribeToRooms c)) = []).
Proof.
  split; [| split].
  - unfold subscribeToRooms at 1.
    destruct (subscribeToRooms_data c) as (Hr & Hs & Hu).
    rewrite Hr, Hs, Hu.
    assert (Hb : hasTopic topicBroadcast (subscribeToRooms c) = true)
      by (unfold subscribeToRooms; apply hasTopic_addTopic_same).
    destruct (connRole c) eqn:Er.
    + destruct (wsSessionId c) as [sid |] eqn:Es;
        [| apply addTopic_present, Hb].
      destruct (isEmpty sid) eqn:Ee; [apply addTopic_present, Hb |].
      assert (Ht : hasTopic (topicSession sid) (subscribeToRooms c) = true).
      { unfold subscribeToRooms. rewrite Er, Es, Ee.
        apply hasTopic_addTopic_keep, hasTopic_addTopic_same. }
      rewrite (addTopic_present _ _ Ht). apply addTopic_present, Hb.
    + destruct (wsUserId c) as [uid |] eqn:Es;
        [| apply addTopic_present, Hb].
      destruct (isEmpty uid) eqn:Ee; [apply addTopic_present, Hb |].
      assert (Ht : hasTopic (topicCs uid) (subscribeToRooms c) = true).
      { unfold subscribeToRooms. rewrite Er, Es, Ee.
        apply hasTopic_addTopic_keep, hasTopic_addTopic_keep,
              hasTopic_addTopic_same. }
      assert (Hq : hasTopic topicQueue (subscribeToRooms c) = true).
      { unfold subscribeToRooms. rewrite Er, Es, Ee.
        apply hasTopic_addTopic_keep, hasTopic_addTopic_same. }
      rewrite (addTopic_present _ _ Ht), (addTopic_present _ _ Hq).
      apply addTopic_present, Hb.
    + assert (Ht : hasTopic topicAdminStats (subscribeToRooms c) = true).
      { unfold subscribeToRooms. rewrite Er.
        apply hasTopic_addTopic_keep, hasTopic_addTopic_keep,
              hasTopic_addTopic_same. }
      assert (Hq : hasTopic topicQueue (subscribeToRooms c) = true).
      { unfold subscribeToRooms. rewrite Er.
        apply hasTopic_addTopic_keep, hasTopic_addTopic_same. }
      rewrite (addTopic_present _ _ Ht), (addTopic_present _ _ Hq).
      apply addTopic_present, Hb.
  - unfold subscribeToRooms. apply hasTopic_addTopic_same.
  - intros Hnil. destruct c as [i r u s k tp ib]. cbn [topics] in Hnil. subst tp.
    unfold subscribeToRooms, unsubscribeFromRooms.
    destruct r; cbn [connRole wsSessionId wsUserId].
    + destruct s as [sid |]; [destruct (isEmpty sid) eqn:Ee |];
        cbn; rewrite ?Ee; cbn; rewrite ?String.eqb_refl; reflexivity.
    + destruct u as [uid |]; [destruct (isEmpty uid) eqn:Ee |];
        cbn; rewrite ?Ee; cbn; rewrite ?String.eqb_refl; reflexivity.
    + reflexivity.
Qed.

Lemma rooms_subscribe_unsubscribe_witness :
  topics (subscribeToRooms (mkConn 7 conn_cs (Some "A1") None None [] []))
  = ["cs:A1"; "queue"; "broadcast"]
  /\ topics (unsubscribeFromRooms
               (subscribeToRooms (mkConn 7 conn_cs (Some "A1") None None [] [])))
     = [].
Proof.
  split; [reflexivity |].
  apply (proj2 (proj2 (rooms_subscribe_unsubscribe
                         (mkConn 7 conn_cs (Some "A1") None None [] [])))).
  reflexivity.
Defined.

(** ** The dispatcher without an available agent *)

Lemma run_autoAssignChat_none (w : World) (sid : Id) :
  autoAssignEnabled (config w) = false
  \/ filter hasCapacity (onlineCs (db w)) = [] ->
  exists w',
    run (autoAssignChat sid) w = (Ok None, w') /\ db w' = db w.
Proof.
  intros H. unfold autoAssignChat.
  rewrite run_sync_bind. cbn [readConfig fst snd].
  destruct (autoAssignEnabled (config w)) eqn:Een; cbn [negb].
  - destruct H as [H | H]; [discriminate |].
    rewrite run_query_bind, H. cbn [run].
    eexists; split; [reflexivity | apply db_advance].
  - cbn [run]. eexists; split; reflexivity.
Qed.

(** X16.  With auto-assignment disabled, or with no agent that is online
    below its limit, [processQueue] processes nothing: it returns 0 and the
    store is unchanged, whatever the queue holds. *)
Theorem processQueue_without_agents (w : World) :
  autoAssignEnabled (config w) = false
  \/ filter hasCapacity (onlineCs (db w)) = [] ->
  fst (run processQueue w) = Ok 0
  /\ db (snd (run processQueue w)) = db w.
Proof.
  intros H. unfold processQueue.
  rewrite run_sync_bind. cbn [readConfig fst snd].
  destruct (autoAssignEnabled (config w)) eqn:Een; cbn [negb];
    [| split; reflexivity].
  destruct H as [H | H]; [discriminate |].
  destruct (run_getQueue w) as [f Hq]. rewrite run_bind, Hq.
  destruct (queueItems (clock (advance w)) 0
              (map (fun s => mkWaiting s (f s))
                   (sortBy sCreatedAt (filter isWaiting (sessions (db w))))))
    as [| item rest].
  - cbn [processItems run fst snd]. split; [reflexivity | apply db_advance].
  - cbn [processItems]. rewrite run_bind.
    destruct (run_autoAssignChat_none (advance w) (qSessionId item))
      as (w' & Hrun & Hdb).
    { right. rewrite db_advance. exact H. }
    rewrite Hrun. cbn [run fst snd].
    split; [reflexivity | rewrite Hdb; apply db_advance].
Qed.

Lemma processQueue_without_agents_witness :
  fst (run processQueue Scenario.busyFullWorld) = Ok 0
  /\ db (snd (run processQueue Scenario.busyFullWorld))
     = db Scenario.busyFullWorld.
Proof.
  apply (processQueue_without_agents Scenario.busyFullWorld).
  right. reflexivity.
Defined.

(** ** The reaper and closed sessions *)

Lemma NoDup_sId_inj (l : list ChatSession) (x y : ChatSession) :
  NoDup (map sId l) -> In x l -> In y l -> sId x = sId y -> x = y.
Proof.
  induction l as [| a l IH]; intros Hnd Hx Hy Hid; [destruct Hx |].
  cbn [map] in Hnd. inversion Hnd as [| ? ? Hnot Hnd']; subst.
  destruct Hx as [<- | Hx], Hy as [<- | Hy].
  - reflexivity.
  - exfalso. apply Hnot. rewrite Hid. apply in_map, Hy.
  - exfalso. apply Hnot. rewrite <- Hid. apply in_map, Hx.
  - apply IH; assumption.
Qed.

(** X17.  With unique session ids, the idle reaper never touches a session
    that is already resolved or abandoned: after [checkIdleChats] the row is
    exactly what it was, and its id is not among the abandoned ids. *)
Theorem reaper_leaves_closed_sessions
    (w : World) (sid : Id) (s : ChatSession) :
  NoDup (map sId (sessions (db w))) ->
  findSession sid (db w) = Some s ->
  isTerminal (status s) = true ->
  exists ids w',
    run checkIdleChats w = (Ok ids, w')
    /\ findSession sid (db w') = Some s
    /\ ~ In sid ids.
Proof.
  intros Hnd Hs Ht.
  set (thr := clock w - chatIdleTimeout (config w) * 1000).
  unfold checkIdleChats.
  rewrite run_sync_bind. cbn [readClock fst snd].
  rewrite run_sync_bind. cbn [readConfig fst snd].
  rewrite run_query_bind. fold thr.
  destruct (run_reapChats thr (findIdleChats thr (db w)) [] (advance w))
    as (w' & Hrun & _ & Hout).
  { intros chat Hc. eapply findIdleChats_stale; exact Hc. }
  { intros chat Hc. rewrite db_advance. eapply findIdleChats_stored; exact Hc. }
  cbn [app] in Hrun.
  exists (map chatId (findIdleChats thr (db w))), w'.
  split; [exact Hrun |].
  pose proof (find_some _ _ Hs) as [Hin Hid]. apply idIs_eq in Hid.
  assert (Hm : ~ In sid (map chatId (findIdleChats thr (db w)))).
  { intros Hm. apply in_map_iff in Hm. destruct Hm as (chat & Hc & Hcin).
    unfold findIdleChats in Hcin. apply in_map_iff in Hcin.
    destruct Hcin as (s' & <- & Hf). apply filter_In in Hf.
    destruct Hf as [Hin' Hf]. apply andb_true_iff in Hf. destruct Hf as [Ho _].
    unfold chatId in Hc. cbn [icSession] in Hc.
    assert (E : s' = s)
      by (apply (NoDup_sId_inj _ _ _ Hnd Hin' Hin); congruence).
    subst s'. unfold isTerminal in Ht. rewrite Ho in Ht. discriminate. }
  split; [| exact Hm].
  rewrite (Hout sid Hm), db_advance. exact Hs.
Qed.

Lemma reaper_leaves_closed_sessions_witness :
  exists ids w',
    run checkIdleChats Scenario.closedWorld = (Ok ids, w')
    /\ option_map status (findSession "ada" (db w')) = Some resolved
    /\ ~ In "ada" ids.
Proof.
  destruct (reaper_leaves_closed_sessions
              Scenario.closedWorld "ada"
              (setClosed resolved 7000 (setAssigned "A1" 5002 Scenario.ada)))
    as (ids & w' & Hrun & Hs & Hnot).
  - cbn. constructor; [intros [] | constructor].
  - reflexivity.
  - reflexivity.
  - exists ids, w'. split; [exact Hrun |].
    split; [rewrite Hs; reflexivity | exact Hnot].
Defined.

(** ** Who may send a message *)

Section SendHandlers.

Variable trim : string -> string.

(** X18.  A message sent by an agent is stored only if it is not empty and
    the agent is the one assigned to the session: an empty message, an
    unknown session or somebody else's session all end with exactly one
    error frame ([EMPTY_MESSAGE] or [NOT_ASSIGNED]) and no write. *)
Theorem cs_send_requires_assignment
    (w : World) (ws : nat) (conn : Conn) (uid sid : Id) (text : string)
    (mt : MessageType) :
  findConn ws w = Some conn ->
  wsUserId conn = Some uid ->
  uid <> "" ->
  emptyContent trim text = true
  \/ match findSession sid (db w) with
     | Some s => assignedCsId s <> Some uid
     | None => True
     end ->
  let r := run (handleCsSendMessage trim ws sid text mt) w in
  fst r = Ok tt
  /\ db (snd r) = db w
  /\ exists code msg t,
       inboxOf ws (snd r)
       = inbox conn ++ [mkFrame "system:error" (PError code msg) t]
       /\ (code = "EMPTY_MESSAGE" \/ code = "NOT_ASSIGNED").
Proof.
  intros Hconn Huid Hne H r. subst r. unfold handleCsSendMessage.
  rewrite run_try_catch, run_sync_bind, wsData_fst, wsData_snd, Hconn, Huid.
  assert (Hn : isEmpty uid = false)
    by (unfold isEmpty; destruct (String.eqb_spec uid "");
        [contradiction | reflexivity]).
  rewrite Hn.
  destruct (emptyContent trim text) eqn:Ee.
  - rewrite run_sync. cbn [fst snd]. split; [reflexivity |].
    split; [unfold wsSendError; apply db_wsSend |].
    do 3 eexists. split;
      [unfold wsSendError; apply inboxOf_wsSend; exact Hconn | left; reflexivity].
  - destruct H as [H | H]; [discriminate |].
    unfold getSessionById. rewrite run_query_bind.
    assert (E : match option_map (withIncludes (db w)) (findSession sid (db w)) with
                | Some s => negb (optId_eqb (assignedCsId (fSession s)) (Some uid))
                | None => true
                end = true).
    { destruct (findSession sid (db w)) as [s |]; [| reflexivity].
      cbn [option_map withIncludes fSession].
      unfold optId_eqb. destruct (assignedCsId s) as [a |]; [| reflexivity].
      destruct (String.eqb_spec a uid); [subst; contradiction | reflexivity]. }
    rewrite E, run_sync. cbn [fst snd]. split; [reflexivity |].
    split; [unfold wsSendError; rewrite db_wsSend; apply db_advance |].
    do 3 eexists. split;
      [unfold wsSendError; apply inboxOf_wsSend; rewrite findConn_advance;
       exact Hconn | right; reflexivity].
Qed.

(** X19.  A customer can only write to the session its socket is bound to,
    and only a non-empty message: a session id that is empty or differs
    from [ws.data.sessionId], or an empty content, ends with exactly one
    error frame ([INVALID_SESSION] or [EMPTY_MESSAGE]) and no write. *)
Theorem customer_send_requires_bound_session
    (w : World) (ws : nat) (conn : Conn) (sid : Id) (text : string)
    (mt : MessageType) :
  findConn ws w = Some conn ->
  invalidSession sid (wsSessionId conn) = true
  \/ emptyContent trim text = true ->
  let r := run (handleCustomerSendMessage trim ws sid text mt) w in
  fst r = Ok tt
  /\ db (snd r) = db w
  /\ exists code msg t,
       inboxOf ws (snd r)
       = inbox conn ++ [mkFrame "system:error" (PError code msg) t]
       /\ (code = "INVALID_SESSION" \/ code = "EMPTY_MESSAGE").
Proof.
  intros Hconn H r. subst r. unfold handleCustomerSendMessage.
  rewrite run_try_catch, run_sync_bind, wsData_fst, wsData_snd, Hconn.
  destruct (invalidSession sid (wsSessionId conn)) eqn:Ei.
  - rewrite run_sync. cbn [fst snd]. split; [reflexivity |].
    split; [unfold wsSendError; apply db_wsSend |].
    do 3 eexists. split;
      [unfold wsSendError; apply inboxOf_wsSend; exact Hconn | left; reflexivity].
  - destruct H as [H | H]; [discriminate |]. rewrite H.
    rewrite run_sync. cbn [fst snd]. split; [reflexivity |].
    split; [unfold wsSendError; apply db_wsSend |].
    do 3 eexists. split;
      [unfold wsSendError; apply inboxOf_wsSend; exact Hconn | right; reflexivity].
Qed.

Lemma run_sendMessage_open (w : World) (sid : Id) (s : ChatSession)
    (st : SenderType) (text : string) (sender : option Id) (mt : MessageType) :
  findSession sid (db w) = Some s ->
  isOpen (status s) = true ->
  run (sendMessage sid st text sender mt) w
  = (Ok (mkSend true "Message sent" (Some (List.length (messages (db w))))),
     withDb (advance (advance w))
       (setMessages (db w)
          (messages (db w) ++
           [mkMessage (List.length (messages (db w))) sid st sender text mt
                      false (clock (advance (advance w)))]))).
Proof.
  intros Hs Ho. unfold sendMessage.
  rewrite run_try_catch, run_query_bind, Hs, Ho. cbn [negb].
  rewrite run_await_bind. unfold createMessage. rewrite !db_advance.
  reflexivity.
Qed.

(** X20.  A non-empty message from a customer on the socket bound to a
    waiting or active session is stored once, trimmed, as a customer message
    without sender id; the handler ends normally, the last frame on the
    customer's socket is [message:sent] with the id of the stored message,
    and no session changes. *)
Theorem customer_send_stores_trimmed_message
    (w : World) (ws : nat) (conn : Conn) (sid : Id) (tok : string)
    (s : ChatSession) (text : string) (mt : MessageType) :
  findConn ws w = Some conn ->
  wsSessionId conn = Some sid ->
  sid <> "" ->
  wsCustomerToken conn = Some tok ->
  emptyContent trim text = false ->
  findSession sid (db w) = Some s ->
  isOpen (status s) = true ->
  let r := run (handleCustomerSendMessage trim ws sid text mt) w in
  let n := List.length (messages (db w)) in
  fst r = Ok tt
  /\ (exists t,
         messages (db (snd r))
         = messages (db w) ++
           [mkMessage n sid sender_customer None (trim text) mt false t])
  /\ sessions (db (snd r)) = sessions (db w)
  /\ exists pre t,
       inboxOf ws (snd r)
       = pre ++ [mkFrame "message:sent" (PMessageSent (Some n) sid) t].
Proof.
  intros Hconn Hsid Hne Htok He Hs Ho r n. subst r n.
  unfold handleCustomerSendMessage.
  rewrite run_try_catch, run_sync_bind, wsData_fst, wsData_snd, Hconn, Hsid.
  assert (Hv : invalidSession sid (Some sid) = false).
  { unfold invalidSession, isEmpty, optId_eqb.
    rewrite String.eqb_refl. simpl.
    destruct (String.eqb_spec sid ""); [contradiction | reflexivity]. }
  rewrite Hv, He.
  rewrite run_bind,
    (run_sendMessage_open w sid s sender_customer (trim text) None mt Hs Ho).
  cbn [sendSuccess negb sendMessageId].
  set (W := withDb (advance (advance w))
              (setMessages (db w)
                 (messages (db w) ++
                  [mkMessage (List.length (messages (db w))) sid
                     sender_customer None (trim text) mt false
                     (clock (advance (advance w)))]))).
  assert (HcW : findConn ws W = Some conn)
    by (unfold W; rewrite findConn_withDb, !findConn_advance; exact Hconn).
  rewrite run_bind. unfold getSessionOfConn.
  rewrite run_sync_bind, wsData_fst, wsData_snd, HcW, Htok.
  unfold getSessionByToken. rewrite run_query.
  rewrite run_sync_bind. cbn [readClock fst snd].
  assert (HcW1 : findConn ws (advance W) = Some conn)
    by (rewrite findConn_advance; exact HcW).
  assert (HdbW : db (advance W)
                 = setMessages (db w)
                     (messages (db w) ++
                      [mkMessage (List.length (messages (db w))) sid
                         sender_customer None (trim text) mt false
                         (clock (advance (advance w)))]))
    by (rewrite db_advance; reflexivity).
  rewrite run_bind.
  destruct (option_map (withIncludes (db W)) (findSessionByToken tok (db W)))
    as [full |].
  - destruct (truthy (assignedCsId (fSession full))).
    + rewrite run_sync_bind. cbn [run]. rewrite run_sync. cbn [fst snd].
      split; [reflexivity |].
      unfold notifyNewMessage. rewrite db_wsSend, db_publish, HdbW.
      cbn [setMessages messages sessions].
      split; [eexists; reflexivity |]. split; [reflexivity |].
      destruct (findConn_publish ws (topicSession sid) "chat:message"
                  (PChatMessage sid (Some (List.length (messages (db w))))
                     (trim text) sender_customer None mt (clock (advance W)))
                  (advance W) conn HcW1) as [c' Hc'].
      do 2 eexists. apply inboxOf_wsSend. exact Hc'.
    + cbn [run]. rewrite run_sync. cbn [fst snd].
      split; [reflexivity |].
      rewrite db_wsSend, HdbW. cbn [setMessages messages sessions].
      split; [eexists; reflexivity |]. split; [reflexivity |].
      do 2 eexists. apply inboxOf_wsSend. exact HcW1.
  - cbn [run]. rewrite run_sync. cbn [fst snd].
    split; [reflexivity |].
    rewrite db_wsSend, HdbW. cbn [setMessages messages sessions].
    split; [eexists; reflexivity |]. split; [reflexivity |].
    do 2 eexists. apply inboxOf_wsSend. exact HcW1.
Qed.

End SendHandlers.

Lemma cs_send_requires_assignment_witness :
  db (snd (run (handleCsSendMessage (fun s => s) 2 "ada" "hello" mt_text)
               Scenario.activeWorld))
  = db Scenario.activeWorld.
Proof.
  destruct (cs_send_requires_assignment (fun s => s)
              Scenario.activeWorld 2 (Scenario.csSocket 2 "A2") "A2" "ada"
              "hello" mt_text) as (_ & H & _).
  - reflexivity.
  - reflexivity.
  - discriminate.
  - right. vm_compute. discriminate.
  - exact H.
Defined.

Lemma customer_send_requires_bound_session_witness :
  db (snd (run (handleCustomerSendMessage (fun s => s) 3 "bob" "hello" mt_text)
               Scenario.activeWorld))
  = db Scenario.activeWorld.
Proof.
  destruct (customer_send_requires_bound_session (fun s => s)
              Scenario.activeWorld 3 Scenario.adaSocket "bob" "hello" mt_text)
    as (_ & H & _).
  - reflexivity.
  - left. reflexivity.
  - exact H.
Defined.

Lemma customer_send_stores_trimmed_message_witness :
  exists t,
    messages (db (snd (run (handleCustomerSendMessage (fun s => s) 3 "ada"
                              "hello" mt_text) Scenario.activeWorld)))
    = messages (db Scenario.activeWorld) ++
      [mkMessage 2 "ada" sender_customer None "hello" mt_text false t].
Proof.
  destruct (customer_send_stores_trimmed_message (fun s => s)
              Scenario.activeWorld 3 Scenario.adaSocket "ada" "cust_ada"
              (setAssigned "A1" 5002 Scenario.ada) "hello" mt_text)
    as (_ & H & _).
  - reflexivity.
  - reflexivity.
  - discriminate.
  - reflexivity.
  - reflexivity.
  - reflexivity.
  - reflexivity.
  - exact H.
Defined.

(** ** The counter and the sessions it counts *)

Lemma activeCount_cons (u : Id) (a : ChatSession) (l : list ChatSession) :
  Z.of_nat (List.length
              (filter (fun s => ChatStatus_eqb (status s) active
                                && optId_eqb (assignedCsId s) (Some u))
                      (a :: l)))
  = serves u a
    + Z.of_nat (List.length
                  (filter (fun s => ChatStatus_eqb (status s) active
                                    && optId_eqb (assignedCsId s) (Some u))
                          l)).
Proof.
  unfold serves. cbn [filter].
  destruct (ChatStatus_eqb (status a) active
            && optId_eqb (assignedCsId a) (Some u)); cbn [List.length]; lia.
Qed.

Lemma patchSession_absent (sid : Id) (f : ChatSession -> ChatSession)
    (l : list ChatSession) :
  ~ In sid (map sId l) -> patchSession sid f l = l.
Proof.
  induction l as [| a l IH]; intros Hn; simpl; [reflexivity |].
  rewrite (idIs_neq sid (sId a)) by (intros E; apply Hn; left; symmetry; exact E).
  rewrite IH; [reflexivity |]. intros H; apply Hn; right; exact H.
Qed.

(** Rewriting the one row of a session changes the count of an agent by
    what the row contributed before and after. *)
Lemma activeChatsOf_patched (d d' : Db) (sid u : Id)
    (f : ChatSession -> ChatSession) (s : ChatSession) :
  NoDup (map sId (sessions d)) ->
  findSession sid d = Some s ->
  sessions d' = patchSession sid f (sessions d) ->
  activeChatsOf u d' = activeChatsOf u d - serves u s + serves u (f s).
Proof.
  unfold activeChatsOf, findSession. intros Hnd Hs ->.
  induction (sessions d) as [| a l IH]; [discriminate |].
  cbn [map] in Hnd. inversion Hnd as [| ? ? Hnot Hnd']; subst.
  cbn [find] in Hs. cbn [patchSession map].
  destruct (idIs sid (sId a)) eqn:E.
  - inversion Hs; subst a. apply idIs_eq in E.
    fold (patchSession sid f l).
    rewrite (patchSession_absent sid f l) by (rewrite E; exact Hnot).
    rewrite !activeCount_cons. lia.
  - fold (patchSession sid f l). rewrite !activeCount_cons.
    rewrite (IH Hnd' Hs). lia.
Qed.

Lemma serves_waiting (u : Id) (s : ChatSession) :
  status s = waiting -> serves u s = 0.
Proof. intros H. unfold serves. rewrite H. reflexivity. Qed.

Lemma serves_closed (u : Id) (st : ChatStatus) (t : Z) (s : ChatSession) :
  isOpen st = false -> serves u (setClosed st t s) = 0.
Proof. intros H. unfold serves. cbn [setClosed status]. destruct st; try discriminate; reflexivity. Qed.

Lemma serves_active (u a : Id) (s : ChatSession) :
  status s = active -> assignedCsId s = Some a ->
  serves u s = if idIs a u then 1 else 0.
Proof. intros H1 H2. unfold serves. rewrite H1, H2. reflexivity. Qed.

(** X21.  Accepting a waiting session keeps the counters in step with the
    sessions: with unique session ids, if before the accept every status row
    holds the number of active sessions assigned to its agent, the same is
    true after the accept of a waiting session by an online agent (a socket
    with a non-empty user id) with spare capacity, and that agent serves one
    session more. *)
Theorem accept_keeps_counters_in_step
    (w : World) (ws : nat) (conn : Conn) (uid sid : Id)
    (c : CsStatus) (s : ChatSession) :
  findConn ws w = Some conn ->
  wsUserId conn = Some uid ->
  uid <> "" ->
  findCsStatus uid (db w) = Some c ->
  csState c = online ->
  currentChats c < maxChats c ->
  findSession sid (db w) = Some s ->
  status s = waiting ->
  NoDup (map sId (sessions (db w))) ->
  countsActiveChats (db w) ->
  fst (run (handleCsAcceptChat ws sid) w) = Ok tt
  /\ countsActiveChats (db (snd (run (handleCsAcceptChat ws sid) w)))
  /\ activeChatsOf uid (db (snd (run (handleCsAcceptChat ws sid) w)))
     = activeChatsOf uid (db w) + 1.
Proof.
  intros Hconn Huid Hne Hc Hon Hcap Hs Hw Hnd Hinv.
  destruct (run_accept_success w ws conn uid sid c s
              Hconn Huid Hne Hc Hon Hcap Hs Hw)
    as (w' & t0 & t1 & who & Hrun & Hdb & _).
  rewrite Hrun. cbn [fst snd]. split; [reflexivity |].
  assert (Hcount : forall u,
             activeChatsOf u (db w')
             = activeChatsOf u (db w) + (if idIs uid u then 1 else 0)).
  { intros u.
    rewrite (activeChatsOf_patched (db w) (db w') sid u (setAssigned uid t0) s
               Hnd Hs) by (rewrite Hdb; reflexivity).
    rewrite (serves_waiting u s Hw).
    rewrite (serves_active u uid (setAssigned uid t0 s)) by reflexivity. lia. }
  split.
  - intros u cu' Hcu'. rewrite Hdb, findCsStatus_assignedDb in Hcu'.
    destruct (findCsStatus u (db w)) as [cu |] eqn:Ecu; [| discriminate].
    cbn [option_map] in Hcu'. inversion Hcu'; subst cu'. clear Hcu'.
    pose proof (find_idIs_userId u (csStatuses (db w)) cu Ecu) as Hid.
    apply idIs_eq in Hid. rewrite <- Hid.
    rewrite Hcount, <- (Hinv u cu Ecu).
    destruct (idIs uid u); cbn [addChats currentChats]; lia.
  - rewrite Hcount, idIs_refl. reflexivity.
Qed.

Lemma countsActiveChats_raceWorld : countsActiveChats (db Scenario.raceWorld).
Proof.
  intros u c H. unfold findCsStatus in H. cbn in H.
  destruct (idIs u "A1") eqn:E1.
  - inversion H; subst c. apply idIs_eq in E1. subst u. reflexivity.
  - destruct (idIs u "A2") eqn:E2; [| discriminate].
    inversion H; subst c. apply idIs_eq in E2. subst u. reflexivity.
Qed.

Lemma accept_keeps_counters_in_step_witness :
  countsActiveChats (db (snd (run (handleCsAcceptChat 1 "ada") Scenario.raceWorld)))
  /\ activeChatsOf "A1"
       (db (snd (run (handleCsAcceptChat 1 "ada") Scenario.raceWorld))) = 1.
Proof.
  destruct (accept_keeps_counters_in_step
              Scenario.raceWorld 1 (Scenario.csSocket 1 "A1") "A1" "ada"
              (mkCsStatus "A1" online 1 0 10) Scenario.ada)
    as (_ & H1 & H2).
  - reflexivity.
  - reflexivity.
  - discriminate.
  - reflexivity.
  - reflexivity.
  - reflexivity.
  - reflexivity.
  - reflexivity.
  - cbn. constructor; [intros [] | constructor].
  - exact countsActiveChats_raceWorld.
  - split; [exact H1 | rewrite H2; reflexivity].
Defined.

(** X22.  Resolving a session that is active keeps the counters in step
    with the sessions: with unique session ids, if every status row holds the
    number of active sessions of its agent before the assigned agent
    resolves an active session, it does so afterwards, and that agent serves
    one session fewer. *)
Theorem resolve_active_keeps_counters_in_step
    (w : World) (sid uid : Id) (s : ChatSession) (c : CsStatus) :
  findSession sid (db w) = Some s ->
  assignedCsId s = Some uid ->
  status s = active ->
  findCsStatus uid (db w) = Some c ->
  NoDup (map sId (sessions (db w))) ->
  countsActiveChats (db w) ->
  (exists s', fst (run (resolveChat sid uid) w) = Ok (Some s'))
  /\ countsActiveChats (db (snd (run (resolveChat sid uid) w)))
  /\ activeChatsOf uid (db (snd (run (resolveChat sid uid) w)))
     = activeChatsOf uid (db w) - 1.
Proof.
  intros Hs Ha Hst Hc Hnd Hinv.
  pose proof (run_resolveChat_owner w sid uid s c Hs Ha Hc) as Hrun.
  cbv zeta in Hrun. rewrite Hrun. cbn [fst snd]. rewrite db_withDb.
  split; [eexists; reflexivity |].
  assert (Hcount : forall u d',
             sessions d'
             = patchSession sid (setClosed resolved (clock (advance w)))
                 (sessions (db w)) ->
             activeChatsOf u d'
             = activeChatsOf u (db w) - (if idIs uid u then 1 else 0)).
  { intros u d' Hd'.
    rewrite (activeChatsOf_patched (db w) d' sid u
               (setClosed resolved (clock (advance w))) s Hnd Hs Hd').
    rewrite (serves_active u uid s Hst Ha).
    assert (E0 : serves u (setClosed resolved (clock (advance w)) s) = 0)
      by (apply serves_closed; reflexivity).
    lia. }
  split.
  - intros u cu' Hcu'.
    rewrite Hcount by reflexivity.
    unfold findCsStatus in Hcu'. cbn [csStatuses] in Hcu'.
    rewrite find_patchCs in Hcu' by (intros; reflexivity).
    destruct (find (fun c0 => idIs u (userId c0)) (csStatuses (db w)))
      as [cu |] eqn:Ecu; [| discriminate].
    cbn [option_map] in Hcu'. inversion Hcu'; subst cu'. clear Hcu'.
    pose proof (find_idIs_userId u (csStatuses (db w)) cu Ecu) as Hid.
    apply idIs_eq in Hid. rewrite <- Hid.
    rewrite <- (Hinv u cu Ecu).
    destruct (idIs uid u); cbn [addChats currentChats]; lia.
  - rewrite Hcount by reflexivity. rewrite idIs_refl. reflexivity.
Qed.

Lemma countsActiveChats_activeWorld : countsActiveChats (db Scenario.activeWorld).
Proof.
  intros u c H. unfold findCsStatus in H. cbn in H.
  destruct (idIs u "A1") eqn:E1.
  - inversion H; subst c. apply idIs_eq in E1. subst u. reflexivity.
  - destruct (idIs u "A2") eqn:E2; [| discriminate].
    inversion H; subst c. apply idIs_eq in E2. subst u. reflexivity.
Qed.

Lemma resolve_active_keeps_counters_in_step_witness :
  countsActiveChats (db (snd (run (resolveChat "ada" "A1") Scenario.activeWorld)))
  /\ activeChatsOf "A1"
       (db (snd (run (resolveChat "ada" "A1") Scenario.activeWorld))) = 0.
Proof.
  destruct (resolve_active_keeps_counters_in_step
              Scenario.activeWorld "ada" "A1"
              (setAssigned "A1" 5002 Scenario.ada)
              (mkCsStatus "A1" online 1 1 10))
    as (_ & H1 & H2).
  - reflexivity.
  - reflexivity.
  - reflexivity.
  - reflexivity.
  - cbn. constructor; [intros [] | constructor].
  - exact countsActiveChats_activeWorld.
  - split; [exact H1 | rewrite H2; reflexivity].
Defined.

(** ** Draining the queue *)

Lemma config_subscribeByUser (uid sid : Id) (w : World) :
  config (snd (subscribeCsToSessionByUserId uid sid w)) = config w.
Proof.
  unfold subscribeCsToSessionByUserId.
  destruct (existsb (isUserConn uid) (conns w)); reflexivity.
Qed.

Lemma config_notifyChatAssigned (sid uid : Id) (nm : string)
    (av : option string) (w : World) :
  config (snd (notifyChatAssigned sid uid nm av w)) = config w.
Proof.
  unfold notifyChatAssigned, andThen, notifyCustomer, notifyCS, notifyQueue.
  rewrite !config_publish. reflexivity.
Qed.

(** One successful turn of the loop of [processQueue]. *)
Lemma run_autoAssignChat_step (w : World) (sid : Id) (s : ChatSession)
    (u : User) (c : CsStatus) (rest : list (User * CsStatus)) :
  autoAssignEnabled (config w) = true ->
  findSession sid (db w) = Some s ->
  filter hasCapacity (onlineCs (db w)) = (u, c) :: rest ->
  exists a w' t0 t1 who,
    run (autoAssignChat sid) w = (Ok (Some a), w')
    /\ db w' = assignedDb sid (uId u) t0 t1 who (db w)
    /\ config w' = config w
    /\ (forall ws c0, findConn ws w = Some c0 ->
                      exists c', findConn ws w' = Some c').
Proof.
  intros Hen Hs Hf.
  assert (Hin : In (u, c) (filter hasCapacity (onlineCs (db w))))
    by (rewrite Hf; left; reflexivity).
  apply filter_In in Hin. destruct Hin as [Hin _].
  apply in_onlineCs in Hin. destruct Hin as (_ & _ & _ & Hc & _).
  unfold autoAssignChat.
  rewrite run_sync_bind. cbn [readConfig fst snd]. rewrite Hen. cbn [negb].
  rewrite run_query_bind, Hf. cbn [fst]. rewrite run_bind.
  rewrite (run_assignChat (advance w) sid (uId u) s c)
    by (rewrite db_advance; assumption).
  rewrite run_sync_bind, run_sync_bind. cbn [run].
  do 5 eexists. split; [reflexivity |]. split; [| split].
  - rewrite db_notifyChatAssigned, db_subscribeByUser, db_withDb, db_advance.
    reflexivity.
  - rewrite config_notifyChatAssigned, config_subscribeByUser.
    cbn [withDb config]. rewrite !config_advance. reflexivity.
  - intros ws c0 H0.
    destruct (findConn_subscribeByUser ws (uId u) sid
                (withDb (advance (advance (advance (advance w))))
                   (assignedDb sid (uId u) (clock (advance w))
                      (clock (advance (advance (advance (advance w)))))
                      (joinedName
                         (option_map csInfoOf (findUser (uId u) (db (advance w)))))
                      (db (advance w)))) c0) as [c1 H1].
    { rewrite findConn_withDb, !findConn_advance. exact H0. }
    eapply findConn_notifyChatAssigned. exact H1.
Qed.

(** A turn that finds no agent. *)
Lemma run_autoAssignChat_idle (w : World) (sid : Id) :
  filter hasCapacity (onlineCs (db w)) = [] ->
  exists w',
    run (autoAssignChat sid) w = (Ok None, w')
    /\ db w' = db w
    /\ forall ws, findConn ws w' = findConn ws w.
Proof.
  intros H. unfold autoAssignChat.
  rewrite run_sync_bind. cbn [readConfig fst snd].
  destruct (autoAssignEnabled (config w)); cbn [negb].
  - rewrite run_query_bind, H. cbn [run].
    eexists; split; [reflexivity |].
    split; [apply db_advance | intros ws; apply findConn_advance].
  - cbn [run]. eexists; split; [reflexivity |]. split; reflexivity.
Qed.

Lemma findSession_assignedDb_other (sid sid' uid : Id) (t0 t1 : Z)
    (who : string) (d : Db) :
  sid' <> sid ->
  findSession sid' (assignedDb sid uid t0 t1 who d) = findSession sid' d.
Proof.
  intros Hne.
  rewrite (findSession_patched sid' sid (setAssigned uid t0) d
             (assignedDb sid uid t0 t1 who d)
             (sId_setAssigned uid t0) eq_refl).
  destruct (findSession sid' d) as [s |] eqn:Es; [| reflexivity].
  cbn [option_map].
  pose proof (find_idIs_sId sid' (sessions d) s Es) as Hid.
  apply idIs_eq in Hid. rewrite <- Hid.
  rewrite (idIs_neq sid sid') by (intros E; apply Hne; symmetry; exact E).
  reflexivity.
Qed.

Lemma findSession_assignedDb_some (sid sid' uid : Id) (t0 t1 : Z)
    (who : string) (d : Db) :
  findSession sid' d <> None ->
  findSession sid' (assignedDb sid uid t0 t1 who d) <> None.
Proof.
  intros H.
  rewrite (findSession_patched sid' sid (setAssigned uid t0) d
             (assignedDb sid uid t0 t1 who d)
             (sId_setAssigned uid t0) eq_refl).
  destruct (findSession sid' d); [discriminate | exact H].
Qed.

(** The loop of [processQueue], run from a store in which every queued
    session exists: it assigns a prefix of the queue and stops at the first
    session for which no agent is left. *)
Lemma processItems_spec (items : list QueueItem) :
  forall (w : World) (acc : Z),
    autoAssignEnabled (config w) = true ->
    (forall sid, In sid (map qSessionId items) ->
                 findSession sid (db w) <> None) ->
    exists (k : nat) (w' : World),
      run (processItems items acc) w = (Ok (acc + Z.of_nat k), w')
      /\ (k <= List.length items)%nat
      /\ (forall sid, In sid (firstn k (map qSessionId items)) ->
            exists s' u,
              findSession sid (db w') = Some s'
              /\ status s' = active /\ assignedCsId s' = Some u)
      /\ (forall sid, ~ In sid (firstn k (map qSessionId items)) ->
            findSession sid (db w') = findSession sid (db w))
      /\ ((k < List.length items)%nat ->
            filter hasCapacity (onlineCs (db w')) = [])
      /\ (forall uid c,
            findCsStatus uid (db w) = Some c ->
            exists c',
              findCsStatus uid (db w') = Some c'
              /\ csState c' = csState c
              /\ maxChats c' = maxChats c
              /\ currentChats c <= currentChats c'
              /\ (currentChats c <= maxChats c ->
                  currentChats c' <= maxChats c'))
      /\ (forall ws c0, findConn ws w = Some c0 ->
                        exists c', findConn ws w' = Some c').
Proof.
  induction items as [| item rest IH]; intros w acc Hen Hex.
  - exists 0%nat, w. cbn [processItems run]. rewrite Z.add_0_r.
    split; [reflexivity |]. split; [apply Nat.le_refl |].
    split; [intros sid [] |]. split; [reflexivity |].
    split; [cbn [List.length]; intros H; inversion H |].
    split; [| intros ws c0 H0; exists c0; exact H0].
    intros uid c Hc. exists c.
    split; [exact Hc |]. split; [reflexivity |]. split; [reflexivity |].
    split; [lia | intros H; exact H].
  - cbn [processItems]. rewrite run_bind.
    destruct (filter hasCapacity (onlineCs (db w))) as [| [u c0] more] eqn:Ef.
    + destruct (run_autoAssignChat_idle w (qSessionId item) Ef)
        as (w1 & Hrun & Hdb & Hconn).
      rewrite Hrun. cbn [run]. exists 0%nat, w1. rewrite Z.add_0_r, Hdb.
      split; [reflexivity |]. split; [apply Nat.le_0_l |].
      split; [intros sid [] |]. split; [reflexivity |].
      split; [intros _; exact Ef |].
      split; [| intros ws c1 H1; exists c1; rewrite Hconn; exact H1].
      intros uid c Hc. exists c.
      split; [exact Hc |]. split; [reflexivity |]. split; [reflexivity |].
      split; [lia | intros H; exact H].
    + destruct (findSession (qSessionId item) (db w)) as [s |] eqn:Es;
        [| exfalso; apply (Hex (qSessionId item));
           [left; reflexivity | exact Es]].
      destruct (run_autoAssignChat_step w _ s u c0 more Hen Es Ef)
        as (a & w1 & t0 & t1 & who & Hrun & Hdb & Hcfg & Hconn).
      rewrite Hrun.
      destruct (IH w1 (acc + 1))
        as (k & w' & Hr & Hk & Hact & Hkeep & Hstop & Hcap & Hconn').
      { rewrite Hcfg. exact Hen. }
      { intros sid Hin. rewrite Hdb. apply findSession_assignedDb_some.
        apply Hex. right. exact Hin. }
      exists (S k), w'. rewrite Hr.
      split; [f_equal; f_equal; lia |].
      split; [cbn [List.length]; apply le_n_S; exact Hk |].
      cbn [map firstn].
      split; [| split; [| split; [| split]]].
      * intros sid Hin.
        destruct (in_dec string_dec sid (firstn k (map qSessionId rest)))
          as [Hi | Hni]; [apply Hact; exact Hi |].
        destruct Hin as [<- | Hin]; [| contradiction].
        rewrite (Hkeep _ Hni), Hdb.
        rewrite (findSession_assignedDb _ _ t0 t1 who _ s Es).
        exists (setAssigned (uId u) t0 s), (uId u).
        split; [reflexivity |]. split; reflexivity.
      * intros sid Hni.
        assert (Hne : sid <> qSessionId item)
          by (intros E; apply Hni; left; symmetry; exact E).
        assert (Hni' : ~ In sid (firstn k (map qSessionId rest)))
          by (intros Hi; apply Hni; right; exact Hi).
        rewrite (Hkeep _ Hni'), Hdb.
        apply findSession_assignedDb_other. exact Hne.
      * intros Hlt. apply Hstop. cbn [List.length] in Hlt.
        apply Nat.succ_lt_mono. exact Hlt.
      * intros uid c Hc.
        assert (Hin : In (u, c0) (filter hasCapacity (onlineCs (db w))))
          by (rewrite Ef; left; reflexivity).
        apply filter_In in Hin. destruct Hin as [Hin Hcap0].
        apply in_onlineCs in Hin. destruct Hin as (_ & _ & _ & Hc0 & _).
        apply hasCapacity_true in Hcap0.
        pose proof (findCsStatus_assignedDb (qSessionId item) (uId u) uid
                      t0 t1 who (db w)) as Hfind.
        rewrite <- Hdb, Hc in Hfind. cbn [option_map] in Hfind.
        destruct (idIs (uId u) (userId c)) eqn:E.
        -- pose proof (find_idIs_userId uid (csStatuses (db w)) c Hc) as Hu.
           apply idIs_eq in Hu. apply idIs_eq in E.
           assert (Heq : c0 = c)
             by (rewrite <- E in Hu; rewrite Hu in Hc; congruence).
           subst c0.
           destruct (Hcap uid (addChats 1 c) Hfind)
             as (c' & H1 & H2 & H3 & H4 & H5).
           cbn [addChats currentChats maxChats csState] in H2, H3, H4, H5.
           exists c'. split; [exact H1 |]. split; [exact H2 |].
           split; [exact H3 |]. split; [lia |].
           intros _. apply H5. lia.
        -- destruct (Hcap uid c Hfind) as (c' & H1 & H2 & H3 & H4 & H5).
           exists c'. split; [exact H1 |]. split; [exact H2 |].
           split; [exact H3 |]. split; [exact H4 | exact H5].
      * intros ws c1 H1. destruct (Hconn ws c1 H1) as [c2 H2].
        exact (Hconn' ws c2 H2).
Qed.

(** What one run of [processQueue] does to the store and the sockets. *)
Lemma processQueue_spec (w : World) :
  exists (n : nat) (w' : World),
    let ids := map sId (sortBy sCreatedAt (filter isWaiting (sessions (db w)))) in
    run processQueue w = (Ok (Z.of_nat n), w')
    /\ (n <= List.length ids)%nat
    /\ (forall sid, In sid (firstn n ids) ->
          exists s' u,
            findSession sid (db w') = Some s'
            /\ status s' = active /\ assignedCsId s' = Some u)
    /\ (forall sid, ~ In sid (firstn n ids) ->
          findSession sid (db w') = findSession sid (db w))
    /\ (autoAssignEnabled (config w) = true ->
        (n < List.length ids)%nat ->
        forall u c, In (u, c) (onlineCs (db w')) ->
                    maxChats c <= currentChats c)
    /\ (forall uid c,
          findCsStatus uid (db w) = Some c ->
          exists c',
            findCsStatus uid (db w') = Some c'
            /\ csState c' = csState c
            /\ maxChats c' = maxChats c
            /\ currentChats c <= currentChats c'
            /\ (currentChats c <= maxChats c ->
                currentChats c' <= maxChats c'))
    /\ (forall ws c0, findConn ws w = Some c0 ->
                      exists c', findConn ws w' = Some c').
Proof.
  unfold processQueue. rewrite run_sync_bind. cbn [readConfig fst snd].
  destruct (autoAssignEnabled (config w)) eqn:Een; cbn [negb].
  - destruct (getQueue_spec w) as (items & Hq & Hids & _ & _ & Hmem).
    rewrite run_bind, Hq.
    destruct (processItems_spec items (advance w) 0)
      as (k & w' & Hr & Hk & Hact & Hkeep & Hstop & Hcap & Hconn).
    { rewrite config_advance. exact Een. }
    { intros sid Hin. rewrite db_advance.
      apply Hmem in Hin. destruct Hin as (s & Hin & Hid & _).
      subst sid. apply findSession_In. exact Hin. }
    exists k, w'. cbv zeta. rewrite <- Hids.
    rewrite db_advance in Hkeep, Hcap.
    split; [exact Hr |].
    split; [rewrite length_map; exact Hk |].
    split; [exact Hact |]. split; [exact Hkeep |].
    split; [| split; [exact Hcap |]].
    + intros _ Hlt u c Hin. rewrite length_map in Hlt.
      specialize (Hstop Hlt).
      destruct (Z.le_gt_cases (maxChats c) (currentChats c)) as [H | H];
        [exact H | exfalso].
      assert (Hf : In (u, c) (filter hasCapacity (onlineCs (db w')))).
      { apply filter_In. split; [exact Hin |].
        apply hasCapacity_true. lia. }
      rewrite Hstop in Hf. destruct Hf.
    + intros ws c0 H0. apply (Hconn ws c0).
      rewrite findConn_advance. exact H0.
  - exists 0%nat, w. cbn [run firstn].
    split; [reflexivity |]. split; [apply Nat.le_0_l |].
    split; [intros sid [] |]. split; [reflexivity |].
    split; [intros H; discriminate |].
    split; [| intros ws c0 H0; exists c0; exact H0].
    intros uid c Hc. exists c.
    split; [exact Hc |]. split; [reflexivity |]. split; [reflexivity |].
    split; [lia | intros H; exact H].
Qed.

(** After a run of [processQueue] with auto-assignment enabled, a session
    is still waiting only if no online agent has a free slot. *)
Lemma processQueue_leftover (w w' : World) (n : nat) :
  autoAssignEnabled (config w) = true ->
  (forall sid,
      In sid (firstn n (map sId (sortBy sCreatedAt
                                   (filter isWaiting (sessions (db w)))))) ->
      exists s' u,
        findSession sid (db w') = Some s'
        /\ status s' = active /\ assignedCsId s' = Some u) ->
  (forall sid,
      ~ In sid (firstn n (map sId (sortBy sCreatedAt
                                     (filter isWaiting (sessions (db w)))))) ->
      findSession sid (db w') = findSession sid (db w)) ->
  ((n < List.length (map sId (sortBy sCreatedAt
                                (filter isWaiting (sessions (db w))))))%nat ->
   forall u c, In (u, c) (onlineCs (db w')) -> maxChats c <= currentChats c) ->
  forall sid s,
    findSession sid (db w') = Some s -> status s = waiting ->
    forall u c, In (u, c) (onlineCs (db w')) -> maxChats c <= currentChats c.
Proof.
  intros Hen Hact Hkeep Hstop sid s Hs Hw.
  set (ids := map sId (sortBy sCreatedAt (filter isWaiting (sessions (db w)))))
    in *.
  destruct (Nat.lt_ge_cases n (List.length ids)) as [Hlt | Hge];
    [exact (Hstop Hlt) | exfalso].
  rewrite firstn_all2 in Hact, Hkeep by exact Hge.
  destruct (in_dec string_dec sid ids) as [Hi | Hni].
  - destruct (Hact sid Hi) as (s' & u & Hs' & Hst & _).
    rewrite Hs in Hs'. injection Hs' as <-. rewrite Hw in Hst. discriminate.
  - rewrite (Hkeep sid Hni) in Hs. apply Hni.
    pose proof (find_idIs_sId sid (sessions (db w)) s Hs) as Hid.
    apply idIs_eq in Hid. subst sid.
    unfold ids. apply in_map. rewrite sortBy_In. apply filter_In.
    split; [apply (find_some _ _ Hs) |].
    unfold isWaiting. rewrite Hw. reflexivity.
Qed.

(** X23.  [processQueue] assigns the waiting sessions in queue order and
    stops only when no agent is left.  It returns a number [n] not above the
    length of the queue; the first [n] sessions of the queue (oldest first)
    are active and assigned afterwards; every other session is as it was;
    with auto-assignment enabled a session is left waiting only if no online
    agent has a free slot; and every agent keeps its state and limit, with
    [currentChats] not lowered and not raised above a limit it respected. *)
Theorem processQueue_assigns_in_queue_order (w : World) :
  exists (n : nat) (w' : World),
    let ids := map sId (sortBy sCreatedAt (filter isWaiting (sessions (db w)))) in
    run processQueue w = (Ok (Z.of_nat n), w')
    /\ (n <= List.length ids)%nat
    /\ (forall sid, In sid (firstn n ids) ->
          exists s' u,
            findSession sid (db w') = Some s'
            /\ status s' = active /\ assignedCsId s' = Some u)
    /\ (forall sid, ~ In sid (firstn n ids) ->
          findSession sid (db w') = findSession sid (db w))
    /\ (autoAssignEnabled (config w) = true ->
        forall sid s,
          findSession sid (db w') = Some s -> status s = waiting ->
          forall u c, In (u, c) (onlineCs (db w')) ->
                      maxChats c <= currentChats c)
    /\ (forall uid c,
          findCsStatus uid (db w) = Some c ->
          exists c',
            findCsStatus uid (db w') = Some c'
            /\ csState c' = csState c
            /\ maxChats c' = maxChats c
            /\ currentChats c <= currentChats c'
            /\ (currentChats c <= maxChats c ->
                currentChats c' <= maxChats c')).
Proof.
  destruct (processQueue_spec w)
    as (n & w' & Hr & Hn & Hact & Hkeep & Hstop & Hcap & _).
  exists n, w'. cbv zeta.
  split; [exact Hr |]. split; [exact Hn |]. split; [exact Hact |].
  split; [exact Hkeep |]. split; [| exact Hcap].
  intros Hen. apply (processQueue_leftover w w' n Hen Hact Hkeep).
  exact (Hstop Hen).
Qed.

(** ** Setting the availability *)

Lemma run_updateCsStatus_no_user (w : World) (uid : Id) (st : CsState) :
  findUser uid (db w) = None ->
  run (updateCsStatus uid st) w = (Ok None, advance w).
Proof.
  intros H. unfold updateCsStatus.
  rewrite run_try_catch, run_query_bind, H. reflexivity.
Qed.

Lemma findConn_notifyCsStatusChanged (ws : nat) (uid : Id) (nm : string)
    (st : CsState) (w : World) (c : Conn) :
  findConn ws w = Some c ->
  exists c', findConn ws (snd (notifyCsStatusChanged uid nm st w)) = Some c'.
Proof.
  intros H. unfold notifyCsStatusChanged, andThen, notifyQueue, notifyAdmins.
  destruct (findConn_publish ws topicQueue "cs:status_changed"
              (PStatusChanged uid nm st) w c H) as [c1 H1].
  eapply findConn_publish. exact H1.
Qed.

Lemma config_notifyCsStatusChanged (uid : Id) (nm : string) (st : CsState)
    (w : World) :
  config (snd (notifyCsStatusChanged uid nm st w)) = config w.
Proof.
  unfold notifyCsStatusChanged, andThen, notifyQueue, notifyAdmins.
  rewrite !config_publish. reflexivity.
Qed.

(** The status rows after the upsert of [updateCsStatus] on an existing
    row. *)
Lemma findCsStatus_setState (uid : Id) (st : CsState) (t : Z) (d d' : Db)
    (c : CsStatus) :
  findCsStatus uid d = Some c ->
  csStatuses d' = patchCs uid (setState st t) (csStatuses d) ->
  findCsStatus uid d' = Some (mkCsStatus uid st (maxChats c) (currentChats c) t)
  /\ forall u', u' <> uid -> findCsStatus u' d' = findCsStatus u' d.
Proof.
  intros Hc Hd.
  pose proof (find_idIs_userId uid (csStatuses d) c Hc) as Hid.
  apply idIs_eq in Hid.
  split.
  - rewrite (findCsStatus_patched uid uid (setState st t) d d')
      by (intros; reflexivity || exact Hd).
    rewrite Hc. cbn [option_map]. rewrite <- Hid, idIs_refl.
    unfold setState. rewrite <- Hid. reflexivity.
  - intros u' Hne.
    rewrite (findCsStatus_patched u' uid (setState st t) d d')
      by (intros; reflexivity || exact Hd).
    destruct (findCsStatus u' d) as [c' |] eqn:Ec'; [| reflexivity].
    cbn [option_map]. pose proof (find_idIs_userId _ _ _ Ec') as H'.
    apply idIs_eq in H'. rewrite <- H'.
    rewrite (idIs_neq uid u') by (intros E; apply Hne; symmetry; exact E).
    reflexivity.
Qed.

(** X24.  A status change is refused before any write when the socket has
    no user id or the status is none of online, offline, busy: the handler
    ends normally, the store is unchanged, and the socket gets exactly one
    error frame, [UNAUTHORIZED] or [INVALID_STATUS]. *)
Theorem set_status_refused
    (w : World) (ws : nat) (conn : Conn) (text : string) :
  findConn ws w = Some conn ->
  truthy (wsUserId conn) = false \/ parseState text = None ->
  let r := run (handleCsSetStatus ws text) w in
  fst r = Ok tt
  /\ db (snd r) = db w
  /\ exists code msg t,
       inboxOf ws (snd r)
       = inbox conn ++ [mkFrame "system:error" (PError code msg) t]
       /\ (code = "UNAUTHORIZED" \/ code = "INVALID_STATUS").
Proof.
  intros Hconn H r. subst r. unfold handleCsSetStatus.
  rewrite run_try_catch, run_sync_bind, wsData_fst, wsData_snd, Hconn.
  assert (Hsend : forall code msg,
            let r := run (sync (wsSendError ws code msg)) w in
            match r with
            | (Ok a, w') => (Ok a, w')
            | (Thrown, w') => run (serverError ws "Terjadi kesalahan server") w'
            end = (Ok tt, snd (wsSendError ws code msg w))).
  { intros code msg. cbv zeta. rewrite run_sync. reflexivity. }
  assert (Hout : forall code msg,
            code = "UNAUTHORIZED" \/ code = "INVALID_STATUS" ->
            let r := (Ok tt, snd (wsSendError ws code msg w)) in
            fst r = Ok tt
            /\ db (snd r) = db w
            /\ exists code msg t,
                 inboxOf ws (snd r)
                 = inbox conn ++ [mkFrame "system:error" (PError code msg) t]
                 /\ (code = "UNAUTHORIZED" \/ code = "INVALID_STATUS")).
  { intros code msg Hcode. cbv zeta. cbn [fst snd].
    split; [reflexivity |].
    split; [unfold wsSendError; apply db_wsSend |].
    exists code, msg, (clock w).
    split; [unfold wsSendError; apply inboxOf_wsSend; exact Hconn | exact Hcode]. }
  destruct (wsUserId conn) as [uid |] eqn:Eu.
  - destruct (isEmpty uid) eqn:Ee.
    + cbv zeta in Hsend. rewrite Hsend. apply Hout. left. reflexivity.
    + destruct H as [H | H];
        [unfold truthy in H; rewrite Ee in H; discriminate |].
      rewrite H. cbv zeta in Hsend. rewrite Hsend. apply Hout.
      right. reflexivity.
  - cbv zeta in Hsend. rewrite Hsend. apply Hout. left. reflexivity.
Qed.

Lemma set_status_refused_witness :
  db (snd (run (handleCsSetStatus 1 "away") Scenario.awayWorld))
  = db Scenario.awayWorld.
Proof.
  destruct (set_status_refused Scenario.awayWorld 1 (Scenario.csSocket 1 "A1")
              "away") as (_ & H & _).
  - reflexivity.
  - right. reflexivity.
  - exact H.
Defined.

(** The run of the handler up to the queue run, for an agent with a user
    row and a status row: the row is rewritten, the change is logged and
    published. *)
Lemma run_setStatus_prefix (w : World) (ws : nat) (conn : Conn) (uid : Id)
    (text : string) (st : CsState) (u : User) (c : CsStatus) :
  findConn ws w = Some conn ->
  wsUserId conn = Some uid ->
  uid <> "" ->
  parseState text = Some st ->
  findUser uid (db w) = Some u ->
  findCsStatus uid (db w) = Some c ->
  exists W t,
    run (handleCsSetStatus ws text) w
    = match
        run (_ <- (if CsState_eqb st online then processQueue else Ret 0) ;;
             _ <- sync (wsSend ws "status:updated"
                          (PStatusUpdated st (maxChats c) (currentChats c))) ;;
             if CsState_eqb st online then
               queue <- getQueue ;;
               sync (wsSend ws "queue:update" (PQueue (map queueRow queue)))
             else Ret tt) W
      with
      | (Ok a, w') => (Ok a, w')
      | (Thrown, w') => run (serverError ws "Terjadi kesalahan server") w'
      end
    /\ sessions (db W) = sessions (db w)
    /\ messages (db W) = messages (db w)
    /\ users (db W) = users (db w)
    /\ findCsStatus uid (db W)
       = Some (mkCsStatus uid st (maxChats c) (currentChats c) t)
    /\ (forall u', u' <> uid -> findCsStatus u' (db W) = findCsStatus u' (db w))
    /\ config W = config w
    /\ exists c', findConn ws W = Some c'.
Proof.
  intros Hconn Huid Hne Hp Hu Hc. unfold handleCsSetStatus.
  rewrite run_try_catch, run_sync_bind, wsData_fst, wsData_snd, Hconn, Huid.
  rewrite (isEmpty_false uid Hne), Hp.
  rewrite run_bind, (run_updateCsStatus_existing w uid st u c Hu Hc).
  rewrite run_query_bind, run_sync_bind.
  cbn [csState maxChats currentChats setState].
  do 2 eexists. split; [reflexivity |].
  rewrite db_notifyCsStatusChanged, db_advance, db_withDb.
  cbn [sessions messages users].
  split; [reflexivity |]. split; [reflexivity |]. split; [reflexivity |].
  destruct (findCsStatus_setState uid st (clock (advance w)) (db w)
              (mkDb (sessions (db w)) (messages (db w))
                 (patchCs uid (setState st (clock (advance w)))
                    (csStatuses (db w)))
                 (users (db w))
                 (activityLogs (db w)
                  ++ [mkLog uid "status_changed" (stateName st)]))
              c Hc eq_refl) as [H1 H2].
  split; [exact H1 |]. split; [exact H2 |].
  split.
  - rewrite config_notifyCsStatusChanged, config_advance.
    cbn [withDb config]. rewrite !config_advance. reflexivity.
  - eapply findConn_notifyCsStatusChanged.
    rewrite findConn_advance, findConn_withDb, !findConn_advance.
    exact Hconn.
Qed.

(** X25.  An agent that sets itself busy or offline keeps its chats: the
    sessions and messages are untouched, its status row takes the new state
    with [maxChats] and [currentChats] kept, the rows of the other agents
    are unchanged, and the last frame on its socket is [status:updated]
    with the stored state and counters. *)
Theorem set_status_away_keeps_chats
    (w : World) (ws : nat) (conn : Conn) (uid : Id) (text : string)
    (st : CsState) (u : User) (c : CsStatus) :
  findConn ws w = Some conn ->
  wsUserId conn = Some uid ->
  uid <> "" ->
  parseState text = Some st ->
  st <> online ->
  findUser uid (db w) = Some u ->
  findCsStatus uid (db w) = Some c ->
  let r := run (handleCsSetStatus ws text) w in
  fst r = Ok tt
  /\ sessions (db (snd r)) = sessions (db w)
  /\ messages (db (snd r)) = messages (db w)
  /\ (exists t, findCsStatus uid (db (snd r))
                = Some (mkCsStatus uid st (maxChats c) (currentChats c) t))
  /\ (forall u', u' <> uid ->
        findCsStatus u' (db (snd r)) = findCsStatus u' (db w))
  /\ exists l t,
       inboxOf ws (snd r)
       = l ++ [mkFrame "status:updated"
                 (PStatusUpdated st (maxChats c) (currentChats c)) t].
Proof.
  intros Hconn Huid Hne Hp Hst Hu Hc r. subst r.
  destruct (run_setStatus_prefix w ws conn uid text st u c
              Hconn Huid Hne Hp Hu Hc)
    as (W & t & Hrun & Hs & Hm & _ & Hrow & Hoth & _ & [c' Hc']).
  rewrite Hrun.
  assert (E : CsState_eqb st online = false)
    by (destruct st; [contradiction | reflexivity | reflexivity]).
  rewrite E. rewrite run_bind. cbn [run]. rewrite run_sync_bind. cbn [run fst snd].
  rewrite db_wsSend.
  split; [reflexivity |]. split; [exact Hs |]. split; [exact Hm |].
  split; [exists t; exact Hrow |]. split; [exact Hoth |].
  exists (inbox c'), (clock W). apply inboxOf_wsSend. exact Hc'.
Qed.

Lemma set_status_away_keeps_chats_witness :
  let r := run (handleCsSetStatus 1 "busy") Scenario.activeWorld in
  sessions (db (snd r)) = sessions (db Scenario.activeWorld)
  /\ exists t, findCsStatus "A1" (db (snd r))
               = Some (mkCsStatus "A1" busy 1 1 t).
Proof.
  destruct (set_status_away_keeps_chats Scenario.activeWorld 1
              (Scenario.csSocket 1 "A1") "A1" "busy" busy Scenario.agent1
              (mkCsStatus "A1" online 1 1 10))
    as (_ & H1 & _ & H2 & _).
  - reflexivity.
  - reflexivity.
  - discriminate.
  - reflexivity.
  - discriminate.
  - reflexivity.
  - reflexivity.
  - split; [exact H1 | exact H2].
Defined.

(** X26.  An agent with a user row and a status row that sets itself
    online: its row is online with its limit kept and [currentChats] not
    lowered; the queue is then run, so that with auto-assignment enabled a
    session is still waiting afterwards only if no online agent has a free
    slot; the last two frames on its socket are [status:updated], carrying
    the counters the row had before the queue was run, and [queue:update],
    listing the sessions still waiting, oldest first. *)
Theorem set_status_online_runs_queue
    (w : World) (ws : nat) (conn : Conn) (uid : Id) (text : string)
    (u : User) (c : CsStatus) :
  findConn ws w = Some conn ->
  wsUserId conn = Some uid ->
  uid <> "" ->
  parseState text = Some online ->
  findUser uid (db w) = Some u ->
  findCsStatus uid (db w) = Some c ->
  let r := run (handleCsSetStatus ws text) w in
  fst r = Ok tt
  /\ (exists c',
        findCsStatus uid (db (snd r)) = Some c'
        /\ csState c' = online
        /\ maxChats c' = maxChats c
        /\ currentChats c <= currentChats c')
  /\ (autoAssignEnabled (config w) = true ->
      forall sid s,
        findSession sid (db (snd r)) = Some s -> status s = waiting ->
        forall u' c', In (u', c') (onlineCs (db (snd r))) ->
                      maxChats c' <= currentChats c')
  /\ exists l items t1 t2,
       inboxOf ws (snd r)
       = l ++ [mkFrame "status:updated"
                 (PStatusUpdated online (maxChats c) (currentChats c)) t1;
               mkFrame "queue:update" (PQueue (map queueRow items)) t2]
       /\ map qSessionId items
          = map sId (sortBy sCreatedAt
                       (filter isWaiting (sessions (db (snd r))))).
Proof.
  intros Hconn Huid Hne Hp Hu Hc r. subst r.
  destruct (run_setStatus_prefix w ws conn uid text online u c
              Hconn Huid Hne Hp Hu Hc)
    as (W & t & Hrun & _ & _ & _ & Hrow & _ & Hcfg & [c0 Hc0]).
  rewrite Hrun. cbn [CsState_eqb].
  destruct (processQueue_spec W)
    as (n & w' & Hr & _ & Hact & Hkeep & Hstop & Hcap & Hcn).
  cbv zeta in Hr, Hact, Hkeep, Hstop.
  rewrite run_bind, Hr, run_sync_bind, run_bind.
  destruct (getQueue_spec (snd (wsSend ws "status:updated"
                                  (PStatusUpdated online (maxChats c)
                                                  (currentChats c)) w')))
    as (items & Hq & Hids & _).
  rewrite Hq, run_sync. cbn [fst snd].
  rewrite !db_wsSend, db_advance, db_wsSend.
  rewrite db_wsSend in Hids.
  split; [reflexivity |].
  split; [| split].
  - destruct (Hcap uid _ Hrow) as (c' & H1 & H2 & H3 & H4 & _).
    cbn [csState maxChats currentChats] in H2, H3, H4.
    exists c'. split; [exact H1 |]. split; [exact H2 |].
    split; [exact H3 | exact H4].
  - intros Hen. rewrite <- Hcfg in Hen.
    apply (processQueue_leftover W w' n Hen Hact Hkeep).
    exact (Hstop Hen).
  - destruct (Hcn ws c0 Hc0) as [c1 Hc1].
    exists (inbox c1), items, (clock w').
    eexists. split; [| exact Hids].
    rewrite (inboxOf_wsSend ws "queue:update" _ _
               (deliver (mkFrame "status:updated"
                           (PStatusUpdated online (maxChats c) (currentChats c))
                           (clock w')) c1)).
    + cbn [deliver inbox]. rewrite <- app_assoc. reflexivity.
    + rewrite findConn_advance. unfold wsSend. cbn [snd].
      apply findConn_patchConn; [intros; reflexivity | exact Hc1].
Qed.

Lemma set_status_online_runs_queue_witness :
  let r := run (handleCsSetStatus 1 "online") Scenario.awayWorld in
  fst r = Ok tt
  /\ findCsStatus "A1" (db (snd r)) = Some (mkCsStatus "A1" online 2 1 5001)
  /\ exists l items t1 t2,
       inboxOf 1 (snd r)
       = l ++ [mkFrame "status:updated" (PStatusUpdated online 2 0) t1;
               mkFrame "queue:update" (PQueue (map queueRow items)) t2].
Proof.
  destruct (set_status_online_runs_queue Scenario.awayWorld 1
              (Scenario.csSocket 1 "A1") "A1" "online" Scenario.agent1
              (mkCsStatus "A1" offline 2 0 10))
    as (H1 & _ & _ & (l & items & t1 & t2 & H2 & _)).
  - reflexivity.
  - reflexivity.
  - discriminate.
  - reflexivity.
  - reflexivity.
  - reflexivity.
  - split; [exact H1 |]. split; [vm_compute; reflexivity |].
    exists l, items, t1, t2. exact H2.
Defined.

(** X27.  A status change to busy or offline for an agent whose user row
    is gone is answered with [SERVER_ERROR] ([updateCsStatus] returns null
    and the confirmation reads a field of it) and writes nothing; the change
    has been published all the same, under the name CS: every socket in the
    queue room has received [cs:status_changed]. *)
Theorem set_status_without_user_row
    (w : World) (ws : nat) (conn : Conn) (uid : Id) (text : string)
    (st : CsState) :
  findConn ws w = Some conn ->
  wsUserId conn = Some uid ->
  uid <> "" ->
  parseState text = Some st ->
  st <> online ->
  findUser uid (db w) = None ->
  let r := run (handleCsSetStatus ws text) w in
  fst r = Ok tt
  /\ db (snd r) = db w
  /\ (exists l msg t,
        inboxOf ws (snd r)
        = l ++ [mkFrame "system:error" (PError "SERVER_ERROR" msg) t])
  /\ (serverInstance w = true ->
      exists t,
        received topicQueue
          (mkFrame "cs:status_changed" (PStatusChanged uid "CS" st) t) (snd r)).
Proof.
  intros Hconn Huid Hne Hp Hst Hu r. subst r. unfold handleCsSetStatus.
  rewrite run_try_catch, run_sync_bind, wsData_fst, wsData_snd, Hconn, Huid.
  rewrite (isEmpty_false uid Hne), Hp.
  rewrite run_bind, (run_updateCsStatus_no_user w uid st Hu).
  rewrite run_query_bind, db_advance, Hu. cbn [nameOrCS].
  rewrite run_sync_bind.
  assert (E : CsState_eqb st online = false)
    by (destruct st; [contradiction | reflexivity | reflexivity]).
  rewrite E, run_bind. cbn [run]. unfold serverError. rewrite run_sync.
  cbn [fst snd]. unfold wsSendError.
  rewrite db_wsSend, db_notifyCsStatusChanged, !db_advance.
  split; [reflexivity |]. split; [reflexivity |]. split.
  - destruct (findConn_notifyCsStatusChanged ws uid "CS" st
                (advance (advance w)) conn) as [c' Hc'].
    { rewrite !findConn_advance. exact Hconn. }
    do 3 eexists. apply inboxOf_wsSend. exact Hc'.
  - intros Hsrv. exists (clock (advance (advance w))).
    apply received_keep_wsSend.
    unfold notifyCsStatusChanged, andThen, notifyQueue, notifyAdmins.
    apply received_keep_publish. apply received_publish.
    rewrite !serverInstance_advance. exact Hsrv.
Qed.

(** The user row of A1 has been deleted while its socket is open. *)
Lemma set_status_without_user_row_witness :
  let w := withDb Scenario.activeWorld
             (mkDb (sessions (db Scenario.activeWorld))
                   (messages (db Scenario.activeWorld))
                   (csStatuses (db Scenario.activeWorld))
                   [Scenario.agent2] []) in
  let r := run (handleCsSetStatus 1 "offline") w in
  db (snd r) = db w
  /\ exists l msg t,
       inboxOf 1 (snd r)
       = l ++ [mkFrame "system:error" (PError "SERVER_ERROR" msg) t].
Proof.
  destruct (set_status_without_user_row
              (withDb Scenario.activeWorld
                 (mkDb (sessions (db Scenario.activeWorld))
                       (messages (db Scenario.activeWorld))
                       (csStatuses (db Scenario.activeWorld))
                       [Scenario.agent2] []))
              1 (Scenario.csSocket 1 "A1") "A1" "offline" offline)
    as (_ & H1 & H2 & _).
  - reflexivity.
  - reflexivity.
  - discriminate.
  - reflexivity.
  - discriminate.
  - reflexivity.
  - split; [exact H1 | exact H2].
Defined.
